(** * Auto Preview Markdown: a model of the extension and its properties

    The extension reacts to events of the host editor.  The model follows the
    TypeScript sources class by class:

    - [Types]            types.ts         (configuration record, language tables)
    - [ConfigManager]    configManager.ts (settings snapshot, language parsing)
    - [DiffDetector]     diffDetector.ts  (diff-view detection)
    - [TabTracker]       tabTracker.ts    (preview-tab correlation, debounced close)
    - [PreviewManager]   previewManager.ts (the orchestrator)
    - [Extension]        extension.ts     (activation and event dispatch)
    - [Logger]           logger.ts        (output channel and console)
    - [Commands]         extension.ts, configManager.ts (the two toggle commands)

    The host editor is not part of the sources.  It is an arbitrary state type
    [H] with the accessors and calls of the [Host] record; each call may change
    the host state and an awaited call settles as [Resolved] or [Rejected].
    Every request the extension sends to the host is appended to a trace, so
    that "executes a command" and "requests a close" are observable.

    Strings are byte strings; [String.prototype.toLowerCase], [trim] and the
    functions of Node's [path] module belong to the runtime and are the fields
    of the [Runtime] class.  Logging does not touch the state of the managers
    and is left out of the handlers; the logger is modelled by itself, over
    the runtime calls it makes.

    A handler runs to completion: its awaits are settled by the host one after
    the other.  The guards of [openPreviewIfNeeded] up to the insertion into
    [_openedPreviews] are executed before its first await.  A timer the
    extension sets is an entry of [_pendingOpens] or the flag [startupTimer];
    its expiry is an event the host delivers.  The two toggle commands write
    a setting and await the update: the events the host delivers during that
    await are an argument of their model. *)

From Stdlib Require Import ZArith QArith String Ascii List.
From stdpp Require Import gmap strings list.

Local Open Scope string_scope.
Local Open Scope Z_scope.
#[local] Set Warnings "-clear-no-such-hyp".

(** ** Runtime library *)

Class Runtime := {
  toLowerCase : string -> string;  (* String.prototype.toLowerCase *)
  trim : string -> string;         (* String.prototype.trim *)
  basename : string -> string;     (* path.basename *)
  extname : string -> string;      (* path.extname *)
  toLowerCase_empty : toLowerCase EmptyString = EmptyString;
  trim_empty : trim EmptyString = EmptyString;
}.

Module Js.

(** [s.startsWith(p)] *)
Definition startsWith (p s : string) : bool := String.prefix p s.

(** [s.includes(p)] *)
Fixpoint includes (p s : string) : bool :=
  String.prefix p s ||
  match s with
  | EmptyString => false
  | String _ r => includes p r
  end.

(** [s.split(',')] *)
Fixpoint split_comma (s : string) : list string :=
  match s with
  | EmptyString => [EmptyString]
  | String c r =>
      if Ascii.eqb c ","%char then EmptyString :: split_comma r
      else match split_comma r with
           | x :: xs => String c x :: xs
           | [] => [String c EmptyString]
           end
  end.

(** [pieces.join(',')], the inverse of [split_comma] *)
Fixpoint join_comma (pieces : list string) : string :=
  match pieces with
  | [] => EmptyString
  | [x] => x
  | x :: rest => x +:+ String ","%char (join_comma rest)
  end.

(** [l.includes(x)] on an array of strings *)
Definition array_includes (l : list string) (x : string) : bool :=
  bool_decide (x ∈ l).

(** An ASCII runtime, used to evaluate the model on concrete inputs. *)
Definition ascii_lower (c : ascii) : ascii :=
  let n := nat_of_ascii c in
  if ((65 <=? n) && (n <=? 90))%nat then ascii_of_nat (n + 32) else c.

Fixpoint ascii_toLowerCase (s : string) : string :=
  match s with
  | EmptyString => EmptyString
  | String c r => String (ascii_lower c) (ascii_toLowerCase r)
  end.

Definition ascii_space (c : ascii) : bool :=
  let n := nat_of_ascii c in
  ((9 <=? n) && (n <=? 13) || (n =? 32))%nat.

Fixpoint trimStart (s : string) : string :=
  match s with
  | EmptyString => EmptyString
  | String c r => if ascii_space c then trimStart r else s
  end.

Fixpoint trimEnd (s : string) : string :=
  match s with
  | EmptyString => EmptyString
  | String c r =>
      match trimEnd r with
      | EmptyString => if ascii_space c then EmptyString else String c EmptyString
      | r' => String c r'
      end
  end.

Definition ascii_trim (s : string) : string := trimEnd (trimStart s).

(** POSIX [path.basename]: the part after the last separator, trailing
    separators ignored. *)
Fixpoint last_segment (cur : string) (s : string) : string :=
  match s with
  | EmptyString => cur
  | String c r =>
      if Ascii.eqb c "/"%char
      then match r with
           | EmptyString => cur
           | _ => if String.eqb (last_segment EmptyString r) EmptyString
                  then cur else last_segment EmptyString r
           end
      else last_segment (cur +:+ String c EmptyString) r
  end.

Definition posix_basename (p : string) : string := last_segment EmptyString p.

(** POSIX [path.extname]: from the last dot of the base name, unless that
    dot is its first character. *)
Fixpoint last_dot_suffix (s : string) : option string :=
  match s with
  | EmptyString => None
  | String c r =>
      match last_dot_suffix r with
      | Some e => Some e
      | None => if Ascii.eqb c "."%char then Some s else None
      end
  end.

Definition posix_extname (p : string) : string :=
  match posix_basename p with
  | EmptyString => EmptyString
  | String _ r => default EmptyString (last_dot_suffix r)
  end.

Definition ascii_runtime : Runtime :=
  {| toLowerCase := ascii_toLowerCase; trim := ascii_trim;
     basename := posix_basename; extname := posix_extname;
     toLowerCase_empty := eq_refl; trim_empty := eq_refl |}.

End Js.

(** ** types.ts and the host's data *)

Module Types.

Record ExtensionConfig := {
  enabled : bool;
  openPreviewToSide : bool;
  autoClosePreview : bool;
  openOnGitDiff : bool;
  previewOnlyMode : bool;
  preserveFocus : bool;
  languages : string;
}.

Inductive SupportedLanguage := markdown | asciidoc | restructuredtext.

(** The string a [SupportedLanguage] is at run time. *)
Definition languageName (l : SupportedLanguage) : string :=
  match l with
  | markdown => "markdown"
  | asciidoc => "asciidoc"
  | restructuredtext => "restructuredtext"
  end.

Record Commands := { toSide : string; sameGroup : string }.

Definition PREVIEW_COMMANDS (l : SupportedLanguage) : Commands :=
  match l with
  | markdown =>
      {| toSide := "markdown.showPreviewToSide"; sameGroup := "markdown.showPreview" |}
  | asciidoc =>
      {| toSide := "asciidoc.showPreviewToSide"; sameGroup := "asciidoc.showPreview" |}
  | restructuredtext =>
      {| toSide := "restructuredtext.showPreviewToSide";
         sameGroup := "restructuredtext.showPreview" |}
  end.

Definition PREVIEW_VIEW_TYPES (l : SupportedLanguage) : string :=
  match l with
  | markdown => "markdown.preview"
  | asciidoc => "asciidoc.preview"
  | restructuredtext => "restructuredtext.preview"
  end.

(** [FILE_EXTENSIONS[ext]]; [ext in FILE_EXTENSIONS] is [is_Some] of it.
    (The keys inherited from [Object.prototype] contain no dot, and an
    extension is empty or starts with one.) *)
Definition FILE_EXTENSIONS (ext : string) : option SupportedLanguage :=
  if String.eqb ext ".md" then Some markdown
  else if String.eqb ext ".markdown" then Some markdown
  else if String.eqb ext ".mdown" then Some markdown
  else if String.eqb ext ".mkd" then Some markdown
  else if String.eqb ext ".adoc" then Some asciidoc
  else if String.eqb ext ".asciidoc" then Some asciidoc
  else if String.eqb ext ".rst" then Some restructuredtext
  else if String.eqb ext ".rest" then Some restructuredtext
  else None.

(** [vscode.Uri]: [toString()] is the key the extension tracks a document
    by, [fsPath] is what the [path] functions are applied to. *)
Record Uri := { toString : string; fsPath : string }.

(** [tab.input]: the three classes the sources test with [instanceof], and
    everything else. *)
Inductive TabInput :=
| TabInputText (uri : Uri)
| TabInputTextDiff (original modified : Uri)
| TabInputWebview (viewType : string)
| TabInputOther.

Record Tab := { label : string; input : TabInput }.

Record TextDocument := { uri : Uri; languageId : string }.

Record TextEditor := { document : TextDocument; viewColumn : option Z }.

(** What [vscode.workspace.getConfiguration('previewMarkdown')] holds: a
    setting may be absent. *)
Record WorkspaceConfiguration := {
  get_enabled : option bool;
  get_openPreviewToSide : option bool;
  get_autoClosePreview : option bool;
  get_openOnGitDiff : option bool;
  get_previewOnlyMode : option bool;
  get_preserveFocus : option bool;
  get_languages : option string;
}.

(** How an awaited host call settles. *)
Inductive Settled := Resolved | Rejected.

(** The requests the extension sends to the host. *)
Inductive Action :=
| ExecuteCommand (command : string) (target : Uri)
| CloseTabs (tabs : list Tab)
| ShowTextDocument (doc : TextDocument) (column : Z).

(** The host editor.  A tab group is known by a handle; [group_tabs] reads
    the tabs the group has now. *)
Record Host (H : Type) := {
  tabGroups_all : H -> list nat;
  group_tabs : H -> nat -> list Tab;
  activeTab : H -> option Tab;
  activeTextEditor : H -> option TextEditor;
  getConfiguration : H -> WorkspaceConfiguration;
  Date_now : H -> Z * H;
  Math_random : H -> Q * H;
  executeCommand : string -> Uri -> H -> Settled * H;
  tabGroups_close : list Tab -> H -> Settled * H;
  showTextDocument : TextDocument -> Z -> H -> Settled * H;
  setTimeout_elapsed : Z -> H -> H;
}.

Arguments tabGroups_all {H} _ _.
Arguments group_tabs {H} _ _ _.
Arguments activeTab {H} _ _.
Arguments activeTextEditor {H} _ _.
Arguments getConfiguration {H} _ _.
Arguments Date_now {H} _ _.
Arguments Math_random {H} _ _.
Arguments executeCommand {H} _ _ _ _.
Arguments tabGroups_close {H} _ _ _.
Arguments showTextDocument {H} _ _ _ _.
Arguments setTimeout_elapsed {H} _ _ _.

End Types.
Import Types.

(** ** The state of the extension and the monad of its handlers *)

Section Machine.

Context {H : Type}.

(** The private fields of the three stateful classes, the host state the
    handler runs against, and the trace of requests sent so far.
    [_pendingOpens] maps a key to the document its live debounce timer
    will open. *)
Record Machine := {
  _config : ExtensionConfig;                   (* ConfigManager *)
  _enabledLanguages : gset string;
  _lastProcessedClose : gmap string Z;         (* TabTracker *)
  _openedPreviews : gset string;               (* PreviewManager *)
  _previewOnlyClosedUris : gset string;
  _pendingOpens : gmap string TextDocument;
  activated : bool;                            (* extension.ts *)
  startupTimer : bool;
  hostState : H;
  trace : list Action;
}.

Definition set_config (c : ExtensionConfig) (l : gset string) (m : Machine) :=
  {| _config := c; _enabledLanguages := l;
     _lastProcessedClose := _lastProcessedClose m;
     _openedPreviews := _openedPreviews m;
     _previewOnlyClosedUris := _previewOnlyClosedUris m;
     _pendingOpens := _pendingOpens m;
     activated := activated m; startupTimer := startupTimer m;
     hostState := hostState m; trace := trace m |}.

Definition set_lastProcessedClose (f : gmap string Z -> gmap string Z) (m : Machine) :=
  {| _config := _config m; _enabledLanguages := _enabledLanguages m;
     _lastProcessedClose := f (_lastProcessedClose m);
     _openedPreviews := _openedPreviews m;
     _previewOnlyClosedUris := _previewOnlyClosedUris m;
     _pendingOpens := _pendingOpens m;
     activated := activated m; startupTimer := startupTimer m;
     hostState := hostState m; trace := trace m |}.

Definition set_openedPreviews (f : gset string -> gset string) (m : Machine) :=
  {| _config := _config m; _enabledLanguages := _enabledLanguages m;
     _lastProcessedClose := _lastProcessedClose m;
     _openedPreviews := f (_openedPreviews m);
     _previewOnlyClosedUris := _previewOnlyClosedUris m;
     _pendingOpens := _pendingOpens m;
     activated := activated m; startupTimer := startupTimer m;
     hostState := hostState m; trace := trace m |}.

Definition set_previewOnlyClosedUris (f : gset string -> gset string) (m : Machine) :=
  {| _config := _config m; _enabledLanguages := _enabledLanguages m;
     _lastProcessedClose := _lastProcessedClose m;
     _openedPreviews := _openedPreviews m;
     _previewOnlyClosedUris := f (_previewOnlyClosedUris m);
     _pendingOpens := _pendingOpens m;
     activated := activated m; startupTimer := startupTimer m;
     hostState := hostState m; trace := trace m |}.

Definition set_pendingOpens
    (f : gmap string TextDocument -> gmap string TextDocument) (m : Machine) :=
  {| _config := _config m; _enabledLanguages := _enabledLanguages m;
     _lastProcessedClose := _lastProcessedClose m;
     _openedPreviews := _openedPreviews m;
     _previewOnlyClosedUris := _previewOnlyClosedUris m;
     _pendingOpens := f (_pendingOpens m);
     activated := activated m; startupTimer := startupTimer m;
     hostState := hostState m; trace := trace m |}.

Definition set_lifecycle (a s : bool) (m : Machine) :=
  {| _config := _config m; _enabledLanguages := _enabledLanguages m;
     _lastProcessedClose := _lastProcessedClose m;
     _openedPreviews := _openedPreviews m;
     _previewOnlyClosedUris := _previewOnlyClosedUris m;
     _pendingOpens := _pendingOpens m;
     activated := a; startupTimer := s;
     hostState := hostState m; trace := trace m |}.

(** A host call: the host moves to a new state and the request is logged. *)
Definition set_host (h : H) (sent : list Action) (m : Machine) :=
  {| _config := _config m; _enabledLanguages := _enabledLanguages m;
     _lastProcessedClose := _lastProcessedClose m;
     _openedPreviews := _openedPreviews m;
     _previewOnlyClosedUris := _previewOnlyClosedUris m;
     _pendingOpens := _pendingOpens m;
     activated := activated m; startupTimer := startupTimer m;
     hostState := h; trace := trace m ++ sent |}.

(** The host state in which an event is delivered. *)
Definition set_hostState (h : H) (m : Machine) :=
  {| _config := _config m; _enabledLanguages := _enabledLanguages m;
     _lastProcessedClose := _lastProcessedClose m;
     _openedPreviews := _openedPreviews m;
     _previewOnlyClosedUris := _previewOnlyClosedUris m;
     _pendingOpens := _pendingOpens m;
     activated := activated m; startupTimer := startupTimer m;
     hostState := h; trace := trace m |}.

Definition M (A : Type) : Type := Machine -> A * Machine.

Definition ret {A} (a : A) : M A := fun m => (a, m).

Definition bind {A B} (c : M A) (k : A -> M B) : M B :=
  fun m => let (a, m1) := c m in k a m1.

Definition gets {A} (f : Machine -> A) : M A := fun m => (f m, m).

Definition modify (f : Machine -> Machine) : M unit := fun m => (tt, f m).

(** [for (const x of l) body(x)] *)
Fixpoint forEach {A} (l : list A) (body : A -> M unit) : M unit :=
  match l with
  | [] => ret tt
  | x :: rest => bind (body x) (fun _ => forEach rest body)
  end.

Definition exec {A} (c : M A) (m : Machine) : Machine := snd (c m).

Variable host : Host H.

(** [f host], read in the current host state. *)
Definition read {A} (f : Host H -> H -> A) : M A :=
  fun m => (f host (hostState m), m).

(** A call that may change the host state but asks nothing of the editor
    (the clock, the random generator, a timer that elapses). *)
Definition call {A} (f : H -> A * H) : M A :=
  fun m => let (a, h) := f (hostState m) in (a, set_hostState h m).

(** An awaited request to the editor: it is logged and the host settles it. *)
Definition request (f : H -> Settled * H) (sent : Action) : M Settled :=
  fun m => let (a, h) := f (hostState m) in (a, set_host h [sent] m).

End Machine.

Arguments Machine H : clear implicits.
Arguments M H A : clear implicits.

Declare Scope machine_scope.
Delimit Scope machine_scope with machine.
Notation "x <- c ;; k" := (bind c (fun x => k))
  (at level 100, c at next level, right associativity) : machine_scope.
Notation "c ;; k" := (bind c (fun _ => k))
  (at level 100, right associativity) : machine_scope.

(** ** configManager.ts *)

Module ConfigManager.

Definition validLanguages : list string :=
  ["markdown"; "asciidoc"; "restructuredtext"].

(** [loadConfig]: every setting with its default. *)
Definition loadConfig (c : WorkspaceConfiguration) : ExtensionConfig :=
  {| enabled := default true (get_enabled c);
     openPreviewToSide := default true (get_openPreviewToSide c);
     autoClosePreview := default true (get_autoClosePreview c);
     openOnGitDiff := default false (get_openOnGitDiff c);
     previewOnlyMode := default false (get_previewOnlyMode c);
     preserveFocus := default true (get_preserveFocus c);
     languages := default "markdown" (get_languages c) |}.

Section WithRuntime.
Context `{RT : Runtime}.

(** The array [parsed] of [parseLanguages]. *)
Definition parsed (languagesStr : string) : list string :=
  filter (fun s => s ∈ validLanguages)
         ((fun s => toLowerCase (trim s)) <$> Js.split_comma languagesStr).

Definition parseLanguages (languagesStr : string) : gset string :=
  list_to_set (if (0 <? length (parsed languagesStr))%nat
               then parsed languagesStr else ["markdown"]).

Context {H : Type} (host : Host H).

(** The body of the constructor and of the configuration listener. *)
Definition reload : M H unit :=
  (c <- read host getConfiguration;;
   let cfg := loadConfig c in
   modify (set_config cfg (parseLanguages (languages cfg))))%machine.

Definition onDidChangeConfiguration (affectsConfiguration : bool) : M H unit :=
  if affectsConfiguration then reload else ret tt.

Definition isLanguageEnabled (languageId : string) : M H bool :=
  gets (fun m => bool_decide (languageId ∈ _enabledLanguages m)).

End WithRuntime.

End ConfigManager.

(** ** diffDetector.ts *)

Module DiffDetector.

Section WithHost.
Context {H : Type} (host : Host H).

Definition isTextDiff (tab : Tab) : bool :=
  match input tab with
  | TabInputTextDiff _ _ => true
  | _ => false
  end.

Definition isDiffEditor (h : H) : bool :=
  match activeTab host h with
  | None => false
  | Some tab => isTextDiff tab
  end.

(** The test of the inner loop body of [isDocumentInDiffView]. *)
Definition diffShows (u : Uri) (tab : Tab) : bool :=
  match input tab with
  | TabInputTextDiff original modified =>
      String.eqb (toString original) (toString u)
      || String.eqb (toString modified) (toString u)
  | _ => false
  end.

Definition isDocumentInDiffView (u : Uri) (h : H) : bool :=
  existsb (fun group => existsb (diffShows u) (group_tabs host h group))
          (tabGroups_all host h).

(** The loops of [findDiffTab]: they return the first tab that passes the
    test, group after group. *)
Fixpoint findDiffTab_groups (u : Uri) (h : H) (groups : list nat) : option Tab :=
  match groups with
  | [] => None
  | group :: rest =>
      match find (diffShows u) (group_tabs host h group) with
      | Some tab => Some tab
      | None => findDiffTab_groups u h rest
      end
  end.

Definition findDiffTab (u : Uri) (h : H) : option Tab :=
  findDiffTab_groups u h (tabGroups_all host h).

End WithHost.

End DiffDetector.

(** ** tabTracker.ts *)

Module TabTracker.

Definition DEBOUNCE_MS : Z := 100.

(** The first result of [f] over [l]: a loop that returns from inside. *)
Fixpoint firstSome {A B} (f : A -> option B) (l : list A) : option B :=
  match l with
  | [] => None
  | x :: rest =>
      match f x with
      | Some b => Some b
      | None => firstSome f rest
      end
  end.

Section WithRuntime.
Context `{RT : Runtime}.

Definition getExpectedPreviewLabel (u : Uri) : string :=
  "Preview " +:+ basename (fsPath u).

Definition isSupported (u : Uri) : bool :=
  bool_decide (is_Some (FILE_EXTENSIONS (toLowerCase (extname (fsPath u))))).

Definition getLanguageId (u : Uri) : option SupportedLanguage :=
  FILE_EXTENSIONS (toLowerCase (extname (fsPath u))).

(** The two tests of the inner loop body of [findPreviewTab]. *)
Definition isPreviewOf (u : Uri) (expectedViewType : string) (tab : Tab) : bool :=
  match input tab with
  | TabInputWebview viewType =>
      String.eqb (label tab) (getExpectedPreviewLabel u)
      || (String.eqb viewType expectedViewType
          && Js.includes (basename (fsPath u)) (label tab))
  | _ => false
  end.

Context {H : Type} (host : Host H).

Definition findPreviewTab (u : Uri) (h : H) : option Tab :=
  match getLanguageId u with
  | None => None
  | Some languageId =>
      firstSome (fun group =>
                   find (isPreviewOf u (PREVIEW_VIEW_TYPES languageId))
                        (group_tabs host h group))
                (tabGroups_all host h)
  end.

Definition isPreviewOpen (u : Uri) (h : H) : bool :=
  bool_decide (is_Some (findPreviewTab u h)).

Definition closePreviewForFile (u : Uri) : M H bool :=
  (let key := toString u in
   now <- call (Date_now host);;
   lastProcessedClose <- gets _lastProcessedClose;;
   let lastProcessed := default 0 (lastProcessedClose !! key) in
   if now - lastProcessed <? DEBOUNCE_MS then ret false
   else
     modify (set_lastProcessedClose <[key := now]>);;
     previewTab <- gets (fun m => findPreviewTab u (hostState m));;
     match previewTab with
     | Some tab =>
         settled <- request (tabGroups_close host [tab]) (CloseTabs [tab]);;
         ret match settled with Resolved => true | Rejected => false end
     | None => ret false
     end)%machine.

Definition cleanupDebounceMap : M H unit :=
  (now <- call (Date_now host);;
   let cutoff := now - DEBOUNCE_MS * 10 in
   modify (set_lastProcessedClose
             (filter (fun entry : string * Z => ¬ (entry.2 < cutoff)))))%machine.

End WithRuntime.

End TabTracker.

(** ** previewManager.ts *)

Module PreviewManager.

(** The delay of the debounce timer; the timer that elapses is the event
    [PendingOpenElapsed]. *)
Definition OPEN_DEBOUNCE_MS : Z := 50.

Definition previewViewTypes : list string :=
  ["markdown.preview"; "asciidoc.preview"; "restructuredtext.preview"].

(** The double [0.1] that [Math.random()] is compared with. *)
Definition one_tenth : Q := 3602879701896397 # 36028797018963968.

(** [langId === 'markdown' || langId === 'asciidoc' || langId === 'restructuredtext'] *)
Definition languageOfId (langId : string) : option SupportedLanguage :=
  if String.eqb langId "markdown" then Some markdown
  else if String.eqb langId "asciidoc" then Some asciidoc
  else if String.eqb langId "restructuredtext" then Some restructuredtext
  else None.

(** The test of the inner loop body of [closeAllMarkdownPreviews]. *)
Definition isMarkupPreview (tab : Tab) : bool :=
  match input tab with
  | TabInputWebview viewType =>
      Js.array_includes previewViewTypes viewType
      || Js.startsWith "Preview " (label tab)
  | _ => false
  end.

(** [activeEditor && activeViewColumn] *)
Definition focusTarget (activeEditor : option TextEditor) : option (TextDocument * Z) :=
  match activeEditor with
  | Some editor =>
      match viewColumn editor with
      | Some column => if column =? 0 then None else Some (document editor, column)
      | None => None
      end
  | None => None
  end.

Section WithHost.
Context `{RT : Runtime} {H : Type} (host : Host H).

Definition isSupportedDocument (doc : TextDocument) : bool :=
  match languageOfId (languageId doc) with
  | Some _ => true
  | None =>
      bool_decide (is_Some (FILE_EXTENSIONS (toLowerCase (extname (fsPath (uri doc))))))
  end.

Definition getLanguageId (doc : TextDocument) : option SupportedLanguage :=
  match languageOfId (languageId doc) with
  | Some langId => Some langId
  | None => FILE_EXTENSIONS (toLowerCase (extname (fsPath (uri doc))))
  end.

Definition closeAllMarkdownPreviews : M H unit :=
  (tabsToClose <- gets (fun m =>
      flat_map (fun group => List.filter isMarkupPreview
                               (group_tabs host (hostState m) group))
               (tabGroups_all host (hostState m)));;
   if (0 <? length tabsToClose)%nat
   then request (tabGroups_close host tabsToClose) (CloseTabs tabsToClose);; ret tt
   else ret tt)%machine.

(** The inner loop of [closeSourceEditor]; [true] when it returned from
    the function. *)
Fixpoint closeSourceEditor_tabs (key : string) (tabs : list Tab) : M H bool :=
  match tabs with
  | [] => ret false
  | tab :: rest =>
      match input tab with
      | TabInputText u =>
          if String.eqb (toString u) key
          then (settled <- request (tabGroups_close host [tab]) (CloseTabs [tab]);;
                match settled with
                | Resolved => ret true
                | Rejected =>
                    modify (set_previewOnlyClosedUris (fun s => s ∖ {[key]}));;
                    closeSourceEditor_tabs key rest
                end)%machine
          else closeSourceEditor_tabs key rest
      | _ => closeSourceEditor_tabs key rest
      end
  end.

Fixpoint closeSourceEditor_groups (key : string) (groups : list nat) : M H unit :=
  match groups with
  | [] => ret tt
  | group :: rest =>
      (tabs <- gets (fun m => group_tabs host (hostState m) group);;
       returned <- closeSourceEditor_tabs key tabs;;
       if returned : bool then ret tt else closeSourceEditor_groups key rest)%machine
  end.

Definition closeSourceEditor (u : Uri) : M H unit :=
  (let key := toString u in
   modify (set_previewOnlyClosedUris (fun s => {[key]} ∪ s));;
   groups <- read host tabGroups_all;;
   closeSourceEditor_groups key groups)%machine.

(** The [try] block of [openPreviewIfNeeded]: [Rejected] when it threw. *)
Definition openPreview (config : ExtensionConfig) (command : string)
    (doc : TextDocument) : M H Settled :=
  (activeEditor <- read host activeTextEditor;;
   (if previewOnlyMode config then closeAllMarkdownPreviews else ret tt);;
   opened <- request (executeCommand host command (uri doc))
                     (ExecuteCommand command (uri doc));;
   match opened with
   | Rejected => ret Rejected
   | Resolved =>
       if previewOnlyMode config
       then closeSourceEditor (uri doc);; ret Resolved
       else if preserveFocus config
       then match focusTarget activeEditor with
            | Some (source, column) =>
                call (fun h => (tt, setTimeout_elapsed host 50 h));;
                request (showTextDocument host source column)
                        (ShowTextDocument source column)
            | None => ret Resolved
            end
       else ret Resolved
   end)%machine.

Definition openPreviewIfNeeded (doc : TextDocument) : M H unit :=
  (config <- gets _config;;
   let key := toString (uri doc) in
   tracked <- gets (fun m => bool_decide (key ∈ _openedPreviews m));;
   if tracked : bool then ret tt
   else
     previewOpen <- gets (fun m => TabTracker.isPreviewOpen host (uri doc) (hostState m));;
     if negb (previewOnlyMode config) && previewOpen
     then modify (set_openedPreviews (fun s => {[key]} ∪ s))
     else
       diffEditor <- gets (fun m => DiffDetector.isDiffEditor host (hostState m));;
       if negb (openOnGitDiff config) && diffEditor then ret tt
       else
         inDiffView <- gets (fun m =>
             DiffDetector.isDocumentInDiffView host (uri doc) (hostState m));;
         if negb (openOnGitDiff config) && inDiffView then ret tt
         else
           match getLanguageId doc with
           | None => ret tt
           | Some languageId =>
               let commands := PREVIEW_COMMANDS languageId in
               let command :=
                 if openPreviewToSide config then toSide commands
                 else sameGroup commands in
               modify (set_openedPreviews (fun s => {[key]} ∪ s));;
               outcome <- openPreview config command doc;;
               match outcome with
               | Resolved => ret tt
               | Rejected => modify (set_openedPreviews (fun s => s ∖ {[key]}))
               end
           end)%machine.

(** [handleDocumentOpen]: the new timer replaces the pending one. *)
Definition handleDocumentOpen (doc : TextDocument) : M H unit :=
  (config <- gets _config;;
   if negb (enabled config) then ret tt
   else if negb (isSupportedDocument doc) then ret tt
   else
     match getLanguageId doc with
     | None => ret tt
     | Some languageId =>
         languageEnabled <- ConfigManager.isLanguageEnabled (languageName languageId);;
         if negb languageEnabled then ret tt
         else modify (set_pendingOpens <[toString (uri doc) := doc]>)
     end)%machine.

(** The callback of the timer set by [handleDocumentOpen]. *)
Definition pendingOpenElapsed (key : string) : M H unit :=
  (pending <- gets (fun m => _pendingOpens m !! key);;
   match pending with
   | None => ret tt
   | Some doc =>
       modify (set_pendingOpens (delete key));;
       openPreviewIfNeeded doc
   end)%machine.

(** The body of the loop of [handleTabChanges]. *)
Definition handleClosedTab (closedTab : Tab) : M H unit :=
  match input closedTab with
  | TabInputText u =>
      let key := toString u in
      if TabTracker.isSupported u
      then (closedByPreviewOnly <-
              gets (fun m => bool_decide (key ∈ _previewOnlyClosedUris m));;
            if closedByPreviewOnly : bool
            then modify (set_previewOnlyClosedUris (fun s => s ∖ {[key]}))
            else
              TabTracker.closePreviewForFile host u;;
              modify (set_openedPreviews (fun s => s ∖ {[key]})))%machine
      else ret tt
  | _ => ret tt
  end.

Definition handleTabChanges (closed : list Tab) : M H unit :=
  (config <- gets _config;;
   if negb (enabled config) || negb (autoClosePreview config) then ret tt
   else
     forEach closed handleClosedTab;;
     random <- call (Math_random host);;
     if negb (Qle_bool one_tenth random)
     then TabTracker.cleanupDebounceMap host
     else ret tt)%machine.

Definition handleEditorActivation (editor : TextEditor) : M H unit :=
  (config <- gets _config;;
   if negb (enabled config) then ret tt
   else if previewOnlyMode config then ret tt
   else
     let doc := document editor in
     if negb (isSupportedDocument doc) then ret tt
     else
       match getLanguageId doc with
       | None => ret tt
       | Some languageId =>
           languageEnabled <- ConfigManager.isLanguageEnabled (languageName languageId);;
           if negb languageEnabled then ret tt
           else
             let key := toString (uri doc) in
             handled <- gets (fun m =>
                 bool_decide (is_Some (_pendingOpens m !! key))
                 || bool_decide (key ∈ _openedPreviews m));;
             if handled : bool then ret tt
             else
               previewOpen <- gets (fun m =>
                   TabTracker.isPreviewOpen host (uri doc) (hostState m));;
               if previewOpen : bool then ret tt else openPreviewIfNeeded doc
       end)%machine.

(** The listener of [onDidCloseTextDocument]. *)
Definition handleDocumentClose (doc : TextDocument) : M H unit :=
  modify (set_openedPreviews (fun s => s ∖ {[toString (uri doc)]})).

Definition openPreviewForActiveEditor : M H unit :=
  (editor <- read host activeTextEditor;;
   match editor with
   | Some editor =>
       if isSupportedDocument (document editor)
       then
         modify (set_openedPreviews (fun s => s ∖ {[toString (uri (document editor))]}));;
         openPreviewIfNeeded (document editor)
       else ret tt
   | None => ret tt
   end)%machine.

(** [dispose] of the preview manager and of the tab tracker. *)
Definition dispose : M H unit :=
  (modify (set_pendingOpens (fun _ => ∅));;
   modify (set_openedPreviews (fun _ => ∅));;
   modify (set_previewOnlyClosedUris (fun _ => ∅));;
   modify (set_lastProcessedClose (fun _ => ∅)))%machine.

End WithHost.

End PreviewManager.

(** ** extension.ts: activation and the events the host delivers *)

Module Extension.

Inductive Event :=
| Activate
| StartupTimerElapsed
| DidOpenTextDocument (doc : TextDocument)
| PendingOpenElapsed (key : string)
| DidChangeTabs (closed : list Tab)
| DidChangeActiveTextEditor (editor : option TextEditor)
| DidCloseTextDocument (doc : TextDocument)
| DidChangeConfiguration (affectsConfiguration : bool)
| Deactivate.

Definition supportedLanguages : list string :=
  ["markdown"; "asciidoc"; "restructuredtext"].

Section WithHost.
Context `{RT : Runtime} {H : Type} (host : Host H).

(** Before activation: nothing is tracked and no listener is registered. *)
Definition initial (h : H) : Machine H :=
  {| _config := ConfigManager.loadConfig
                  {| get_enabled := None; get_openPreviewToSide := None;
                     get_autoClosePreview := None; get_openOnGitDiff := None;
                     get_previewOnlyMode := None; get_preserveFocus := None;
                     get_languages := None |};
     _enabledLanguages := ∅;
     _lastProcessedClose := ∅;
     _openedPreviews := ∅;
     _previewOnlyClosedUris := ∅;
     _pendingOpens := ∅;
     activated := false; startupTimer := false;
     hostState := h; trace := [] |}.

(** [activate]: the managers are constructed (their fields are empty, as
    after [dispose]), the configuration is loaded and
    [processExistingDocuments] sets its timer. *)
Definition activate : M H unit :=
  (PreviewManager.dispose;;
   ConfigManager.reload host;;
   modify (set_lifecycle true true))%machine.

(** The callback of the timer of [processExistingDocuments]. *)
Definition processExistingDocuments : M H unit :=
  (activeEditor <- read host activeTextEditor;;
   match activeEditor with
   | Some editor =>
       if Js.array_includes supportedLanguages (languageId (document editor))
       then
         defined <- gets activated;;
         if defined : bool then PreviewManager.openPreviewForActiveEditor host
         else ret tt
       else ret tt
   | None => ret tt
   end)%machine.

(** [deactivate], with the disposal of the subscriptions. *)
Definition deactivate : M H unit :=
  (PreviewManager.dispose;;
   startup <- gets startupTimer;;
   modify (set_lifecycle false startup))%machine.

(** A listener runs only while it is registered. *)
Definition listener (body : M H unit) : M H unit :=
  (registered <- gets activated;;
   if registered : bool then body else ret tt)%machine.

Definition handle (ev : Event) : M H unit :=
  match ev with
  | Activate => activate
  | StartupTimerElapsed =>
      (pending <- gets startupTimer;;
       if pending : bool
       then
         defined <- gets activated;;
         modify (set_lifecycle defined false);;
         processExistingDocuments
       else ret tt)%machine
  | DidOpenTextDocument doc => listener (PreviewManager.handleDocumentOpen doc)
  | PendingOpenElapsed key => PreviewManager.pendingOpenElapsed host key
  | DidChangeTabs closed => listener (PreviewManager.handleTabChanges host closed)
  | DidChangeActiveTextEditor editor =>
      listener match editor with
               | Some editor => PreviewManager.handleEditorActivation host editor
               | None => ret tt
               end
  | DidCloseTextDocument doc => listener (PreviewManager.handleDocumentClose doc)
  | DidChangeConfiguration affects =>
      listener (ConfigManager.onDidChangeConfiguration host affects)
  | Deactivate => deactivate
  end.

(** The host delivers [ev] in state [h]. *)
Definition deliver (m : Machine H) (input : H * Event) : Machine H :=
  exec (handle input.2) (set_hostState input.1 m).

Definition run (inputs : list (H * Event)) (m : Machine H) : Machine H :=
  fold_left deliver inputs m.

End WithHost.

End Extension.

(** ** A small editor, to run the model on concrete inputs *)

Module Editor.

#[global] Instance Uri_eq_dec : EqDecision Uri.
Proof. solve_decision. Defined.

#[global] Instance TabInput_eq_dec : EqDecision TabInput.
Proof. solve_decision. Defined.

#[global] Instance Tab_eq_dec : EqDecision Tab.
Proof. solve_decision. Defined.

Record World := {
  groups : list (list Tab);
  active : option Tab;
  editor : option TextEditor;
  settings : WorkspaceConfiguration;
  clock : Z;
  random : Q;
  commandsAvailable : bool;
}.

Definition with_groups (f : list (list Tab) -> list (list Tab)) (w : World) : World :=
  {| groups := f (groups w); active := active w; editor := editor w;
     settings := settings w; clock := clock w; random := random w;
     commandsAvailable := commandsAvailable w |}.

Definition with_clock (f : Z -> Z) (w : World) : World :=
  {| groups := groups w; active := active w; editor := editor w;
     settings := settings w; clock := f (clock w); random := random w;
     commandsAvailable := commandsAvailable w |}.

Definition previewTab (u : Uri) : Tab :=
  {| label := "Preview " +:+ Js.posix_basename (fsPath u);
     input := TabInputWebview "markdown.preview" |}.

(** A preview command opens a preview tab in a new group, unless no
    extension provides the command; a close removes the tabs. *)
Definition host : Host World :=
  {| tabGroups_all := fun w => seq 0 (length (groups w));
     group_tabs := fun w group => default [] (groups w !! group);
     activeTab := active;
     activeTextEditor := editor;
     getConfiguration := settings;
     Date_now := fun w => (clock w, w);
     Math_random := fun w => (random w, w);
     executeCommand := fun _ u w =>
       if commandsAvailable w
       then (Resolved, with_groups (fun g => (g ++ [[previewTab u]])%list) w)
       else (Rejected, w);
     tabGroups_close := fun tabs w =>
       (Resolved,
        with_groups (fmap (List.filter (fun tab => negb (bool_decide (tab ∈ tabs))))) w);
     showTextDocument := fun _ _ w => (Resolved, w);
     setTimeout_elapsed := fun ms w => with_clock (Z.add ms) w |}.

(** The same editor, where the preview commands are always provided. *)
Definition dependable : Host World :=
  {| tabGroups_all := tabGroups_all host;
     group_tabs := group_tabs host;
     activeTab := activeTab host;
     activeTextEditor := activeTextEditor host;
     getConfiguration := getConfiguration host;
     Date_now := Date_now host;
     Math_random := Math_random host;
     executeCommand := fun _ u w =>
       (Resolved, with_groups (fun g => (g ++ [[previewTab u]])%list) w);
     tabGroups_close := tabGroups_close host;
     showTextDocument := showTextDocument host;
     setTimeout_elapsed := setTimeout_elapsed host |}.

Definition defaults : WorkspaceConfiguration :=
  {| get_enabled := None; get_openPreviewToSide := None;
     get_autoClosePreview := None; get_openOnGitDiff := None;
     get_previewOnlyMode := None; get_preserveFocus := None;
     get_languages := None |}.

Definition readerMode : WorkspaceConfiguration :=
  {| get_enabled := None; get_openPreviewToSide := None;
     get_autoClosePreview := None; get_openOnGitDiff := None;
     get_previewOnlyMode := Some true; get_preserveFocus := None;
     get_languages := None |}.

Definition readme : Uri :=
  {| toString := "file:///work/README.md"; fsPath := "/work/README.md" |}.

Definition readmeDoc : TextDocument := {| uri := readme; languageId := "markdown" |}.

Definition readmeTab : Tab := {| label := "README.md"; input := TabInputText readme |}.

Definition readmeHead : Uri :=
  {| toString := "git:/work/README.md?HEAD"; fsPath := "/work/README.md" |}.

Definition readmeDiff : Tab :=
  {| label := "README.md (Working Tree)"; input := TabInputTextDiff readmeHead readme |}.

(** The source file is open and focused, nothing else. *)
Definition editing (config : WorkspaceConfiguration) : World :=
  {| groups := [[readmeTab]]; active := Some readmeTab;
     editor := Some {| document := readmeDoc; viewColumn := Some 1 |};
     settings := config; clock := 1700000000000; random := 1 # 2;
     commandsAvailable := true |}.

(** The source file is shown in a diff editor. *)
Definition reviewing (config : WorkspaceConfiguration) (tabs : list Tab) : World :=
  {| groups := [readmeDiff :: tabs]; active := Some readmeDiff;
     editor := Some {| document := readmeDoc; viewColumn := Some 1 |};
     settings := config; clock := 1700000000000; random := 1 # 2;
     commandsAvailable := true |}.

(** The same world, where no extension provides the preview commands. *)
Definition withoutCommands (w : World) : World :=
  {| groups := groups w; active := active w; editor := editor w;
     settings := settings w; clock := clock w; random := random w;
     commandsAvailable := false |}.

Definition guide : Uri :=
  {| toString := "file:///work/guide.md"; fsPath := "/work/guide.md" |}.

(** The source file is open and focused, next to the preview of another
    file. *)
Definition switching (config : WorkspaceConfiguration) : World :=
  with_groups (fun g => (g ++ [[previewTab guide]])%list) (editing config).

(** The source tab was closed; the preview of the file is still open. *)
Definition previewing (config : WorkspaceConfiguration) : World :=
  {| groups := [[previewTab readme]]; active := Some (previewTab readme);
     editor := None; settings := config; clock := 1700000005000; random := 1 # 2;
     commandsAvailable := true |}.

(** The machine after activation in world [w]. *)
Definition started `{RT : Runtime} (w : World) : Machine World :=
  Extension.run host [(w, Extension.Activate)] (Extension.initial w).

End Editor.

(** ** Vocabulary of the properties *)

Section Vocabulary.
Context `{RT : Runtime} {H : Type} (host : Host H).

(** The state lets [openPreviewIfNeeded] past its early returns: the
    document is not tracked, no preview of it is open (or preview-only mode
    replaces it), it is not in a diff view (or [openOnGitDiff] is set), and
    it has a preview language. *)
Definition passesGuards (doc : TextDocument) (languageId : SupportedLanguage)
    (m : Machine H) : Prop :=
  (toString (uri doc) ∉ _openedPreviews m)
  /\ (previewOnlyMode (_config m) = true
      \/ TabTracker.isPreviewOpen host (uri doc) (hostState m) = false)
  /\ (openOnGitDiff (_config m) = true
      \/ (DiffDetector.isDiffEditor host (hostState m) = false
          /\ DiffDetector.isDocumentInDiffView host (uri doc) (hostState m) = false))
  /\ PreviewManager.getLanguageId doc = Some languageId.

(** The command [openPreviewIfNeeded] chooses. *)
Definition previewCommand (config : ExtensionConfig)
    (languageId : SupportedLanguage) : string :=
  if openPreviewToSide config then toSide (PREVIEW_COMMANDS languageId)
  else sameGroup (PREVIEW_COMMANDS languageId).

(** The tabs [closeAllMarkdownPreviews] collects in host state [h]. *)
Definition markupPreviews (h : H) : list Tab :=
  flat_map (fun group => List.filter PreviewManager.isMarkupPreview (group_tabs host h group))
           (tabGroups_all host h).

(** [tab] is a text editor tab of the document with key [key]. *)
Definition isSourceOf (key : string) (tab : Tab) : bool :=
  match input tab with
  | TabInputText u => String.eqb (toString u) key
  | _ => false
  end.

(** The first source tab of [key] in host state [h], in the order of the
    loops of [closeSourceEditor]. *)
Definition firstSourceTab (key : string) (h : H) : option Tab :=
  TabTracker.firstSome (fun group => find (isSourceOf key) (group_tabs host h group))
                       (tabGroups_all host h).

(** A request that opens a preview of the document with key [key]. *)
Definition opensPreviewOf (key : string) (a : Action) : bool :=
  match a with
  | ExecuteCommand _ target => String.eqb (toString target) key
  | _ => false
  end.

(** [tab] is a text tab of a file with a supported markup extension, whose
    key is [key]. *)
Definition closedSource (key : string) (tab : Tab) : Prop :=
  exists u, input tab = TabInputText u /\ TabTracker.isSupported u = true
            /\ toString u = key.

(** A request to close one webview tab. *)
Definition closesWebview (a : Action) : Prop :=
  exists tab viewType, a = CloseTabs [tab] /\ input tab = TabInputWebview viewType.

End Vocabulary.

(** What [closeSourceEditor] may do to a machine: send requests to close
    source tabs of [key], and nothing else but unmark [key]. *)
Definition closesSources {H : Type} (key : string) (m m' : Machine H) : Prop :=
  exists closes : list Action,
    trace m' = (trace m ++ closes)%list
    /\ Forall (fun a => exists tab, a = CloseTabs [tab] /\ isSourceOf key tab = true) closes
    /\ _openedPreviews m' = _openedPreviews m
    /\ (_previewOnlyClosedUris m' = _previewOnlyClosedUris m
        \/ _previewOnlyClosedUris m' = _previewOnlyClosedUris m ∖ {[key]})
    /\ (closes = [] -> m' = m).

Section RunVocabulary.
Context `{RT : Runtime} {H : Type} (host : Host H).

(** The request executes a command. *)
Definition isCommand (a : Action) : bool :=
  match a with
  | ExecuteCommand _ _ => true
  | _ => false
  end.

(** How many requests of [sent] open a preview of the document [key]. *)
Definition opensOf (key : string) (sent : list Action) : nat :=
  length (List.filter (opensPreviewOf key) sent).

(** The host rejects neither a preview command nor a focus request. *)
Definition reliable : Prop :=
  (forall command u h, (executeCommand host command u h).1 = Resolved)
  /\ (forall doc column h, (showTextDocument host doc column h).1 = Resolved).

(** The events that neither untrack [key] nor force its preview open again:
    opens, debounce timers, editor changes and configuration changes; tab
    changes that close no source tab of [key]; closes of other documents. *)
Definition keepsTracking (key : string) (ev : Extension.Event) : Prop :=
  match ev with
  | Extension.DidOpenTextDocument _ => True
  | Extension.PendingOpenElapsed _ => True
  | Extension.DidChangeActiveTextEditor _ => True
  | Extension.DidChangeConfiguration _ => True
  | Extension.DidChangeTabs closed => forall tab, tab ∈ closed -> ~ closedSource key tab
  | Extension.DidCloseTextDocument doc => toString (uri doc) <> key
  | Extension.Activate => False
  | Extension.StartupTimerElapsed => False
  | Extension.Deactivate => False
  end.

(** The three editor events the handlers of the preview manager answer. *)
Definition editorEvent (ev : Extension.Event) : Prop :=
  match ev with
  | Extension.DidOpenTextDocument _ => True
  | Extension.DidChangeTabs _ => True
  | Extension.DidChangeActiveTextEditor _ => True
  | _ => False
  end.

(** The computation sets and clears no timer of the extension and leaves
    the activation flag. *)
Definition keepsTimers {A : Type} (c : M H A) : Prop :=
  forall m, _pendingOpens (c m).2 = _pendingOpens m
            /\ startupTimer (c m).2 = startupTimer m
            /\ activated (c m).2 = activated m.

End RunVocabulary.

(** ** logger.ts *)

Module Logger.

(** What the logger does to the host: its output channel and the console.
    [V] is the type of the values a caller passes ([unknown] in the
    source). *)
Inductive Output (V : Type) :=
| CreateOutputChannel (name : string) (channel : nat)
| AppendLine (channel : nat) (line : string)
| ShowChannel (channel : nat)
| DisposeChannel (channel : nat)
| ConsoleLog (text : string) (args : list V)
| ConsoleWarn (text : string) (args : list V)
| ConsoleError (text : string) (error : option V).

Arguments CreateOutputChannel {V} _ _.
Arguments AppendLine {V} _ _.
Arguments ShowChannel {V} _.
Arguments DisposeChannel {V} _.
Arguments ConsoleLog {V} _ _.
Arguments ConsoleWarn {V} _ _.
Arguments ConsoleError {V} _ _.

(** The runtime the logger calls, over a host state [W]. *)
Record Console (W V : Type) := {
  createOutputChannel : string -> W -> nat * W;
  Date_toISOString : W -> string * W;          (* new Date().toISOString() *)
  JSON_stringify : list V -> option string;    (* None: it throws *)
  truthy : V -> bool;                          (* error ? ... : ... *)
  Error_stack : V -> option string;            (* Some: an instance of Error, with
                                                  its stack as a template prints it *)
}.

Arguments createOutputChannel {W V} _ _ _.
Arguments Date_toISOString {W V} _ _.
Arguments JSON_stringify {W V} _ _.
Arguments truthy {W V} _ _.
Arguments Error_stack {W V} _ _.

(** How a call of the logger ends. *)
Inductive Outcome := Returned | Thrown.

(** The two private fields, the host state and what was written so far. *)
Record State (W V : Type) := {
  _outputChannel : option nat;
  _enabled : bool;
  world : W;
  written : list (Output V);
}.

Arguments _outputChannel {W V} _.
Arguments _enabled {W V} _.
Arguments world {W V} _.
Arguments written {W V} _.

(** The calls of the public interface. *)
Inductive Call (V : Type) :=
| SetEnabled (enabled : bool)
| Info (message : string) (args : list V)
| Warn (message : string) (args : list V)
| Error (message : string) (error : option V)
| Debug (message : string) (args : list V)
| Show
| Dispose.

Arguments SetEnabled {V} _.
Arguments Info {V} _ _.
Arguments Warn {V} _ _.
Arguments Error {V} _ _.
Arguments Debug {V} _ _.
Arguments Show {V}.
Arguments Dispose {V}.

Section WithConsole.
Context {W V : Type} (console : Console W V).

Definition initial (w : W) : State W V :=
  {| _outputChannel := None; _enabled := true; world := w; written := [] |}.

Definition write (out : list (Output V)) (s : State W V) : State W V :=
  {| _outputChannel := _outputChannel s; _enabled := _enabled s;
     world := world s; written := written s ++ out |}.

(** The getter [outputChannel]: the channel is created on first use. *)
Definition outputChannel (s : State W V) : nat * State W V :=
  match _outputChannel s with
  | Some channel => (channel, s)
  | None =>
      let (channel, w) :=
        createOutputChannel console "Auto Preview Markdown" (world s) in
      (channel,
       {| _outputChannel := Some channel; _enabled := _enabled s; world := w;
          written := written s
                     ++ [CreateOutputChannel "Auto Preview Markdown" channel] |})
  end.

Definition setEnabled (enabled : bool) (s : State W V) : State W V :=
  {| _outputChannel := _outputChannel s; _enabled := enabled;
     world := world s; written := written s |}.

(** [format]: [None] when [JSON.stringify] threw. *)
Definition format (level message : string) (args : list V) (s : State W V)
    : option string * State W V :=
  let (timestamp, w) := Date_toISOString console (world s) in
  let s1 := {| _outputChannel := _outputChannel s; _enabled := _enabled s;
               world := w; written := written s |} in
  let head := "[" +:+ timestamp +:+ "] [" +:+ level +:+ "] " +:+ message in
  match args with
  | [] => (Some head, s1)
  | _ :: _ =>
      match JSON_stringify console args with
      | Some json => (Some (head +:+ " " +:+ json), s1)
      | None => (None, s1)
      end
  end.

Definition info (message : string) (args : list V) (s : State W V)
    : Outcome * State W V :=
  if negb (_enabled s) then (Returned, s)
  else
    let (formatted, s1) := format "INFO" message args s in
    match formatted with
    | None => (Thrown, s1)
    | Some line =>
        let (channel, s2) := outputChannel s1 in
        (Returned,
         write [AppendLine channel line;
                ConsoleLog ("[Auto Preview] " +:+ message) args] s2)
    end.

Definition warn (message : string) (args : list V) (s : State W V)
    : Outcome * State W V :=
  if negb (_enabled s) then (Returned, s)
  else
    let (formatted, s1) := format "WARN" message args s in
    match formatted with
    | None => (Thrown, s1)
    | Some line =>
        let (channel, s2) := outputChannel s1 in
        (Returned,
         write [AppendLine channel line;
                ConsoleWarn ("[Auto Preview] " +:+ message) args] s2)
    end.

(** [error ? [error] : []] *)
Definition errorArgs (err : option V) : list V :=
  match err with
  | Some e => if truthy console e then [e] else []
  | None => []
  end.

(** [error instanceof Error], with the stack the second line prints. *)
Definition errorStack (err : option V) : option string :=
  match err with
  | Some e => Error_stack console e
  | None => None
  end.

Definition error (message : string) (err : option V) (s : State W V)
    : Outcome * State W V :=
  let (formatted, s1) := format "ERROR" message (errorArgs err) s in
  match formatted with
  | None => (Thrown, s1)
  | Some line =>
      let (channel, s2) := outputChannel s1 in
      let s3 := write [AppendLine channel line;
                       ConsoleError ("[Auto Preview] " +:+ message) err] s2 in
      match errorStack err with
      | Some stack =>
          let (channel', s4) := outputChannel s3 in
          (Returned, write [AppendLine channel' ("  Stack: " +:+ stack)] s4)
      | None => (Returned, s3)
      end
  end.

Definition debug (message : string) (args : list V) (s : State W V)
    : Outcome * State W V :=
  if negb (_enabled s) then (Returned, s)
  else (Returned, write [ConsoleLog ("[Auto Preview Debug] " +:+ message) args] s).

Definition show (s : State W V) : State W V :=
  let (channel, s1) := outputChannel s in write [ShowChannel channel] s1.

Definition dispose (s : State W V) : State W V :=
  {| _outputChannel := None; _enabled := _enabled s; world := world s;
     written := written s
                ++ match _outputChannel s with
                   | Some channel => [DisposeChannel channel]
                   | None => []
                   end |}.

Definition step (call : Call V) (s : State W V) : Outcome * State W V :=
  match call with
  | SetEnabled enabled => (Returned, setEnabled enabled s)
  | Info message args => info message args s
  | Warn message args => warn message args s
  | Error message err => error message err s
  | Debug message args => debug message args s
  | Show => (Returned, show s)
  | Dispose => (Returned, dispose s)
  end.

(** A caller that goes on after an exception. *)
Definition run (calls : list (Call V)) (s : State W V) : State W V :=
  fold_left (fun s call => (step call s).2) calls s.

End WithConsole.

(** The life of the output channel along what was written: from [live],
    the channel that is live at the end; [None] when a line is appended to a
    channel that is not the live one, a channel is shown or disposed that is
    not the live one, or a channel is created while one is live. *)
Fixpoint channelUse {V : Type} (live : option nat) (out : list (Output V))
    : option (option nat) :=
  match out with
  | [] => Some live
  | CreateOutputChannel _ channel :: rest =>
      match live with
      | None => channelUse (Some channel) rest
      | Some _ => None
      end
  | AppendLine channel _ :: rest | ShowChannel channel :: rest =>
      if bool_decide (live = Some channel) then channelUse live rest else None
  | DisposeChannel channel :: rest =>
      if bool_decide (live = Some channel) then channelUse None rest else None
  | _ :: rest => channelUse live rest
  end.

(** What was written uses the channel well, and the private field holds the
    channel that is live. *)
Definition tracksChannel {W V : Type} (s : State W V) : Prop :=
  channelUse None (written s) = Some (_outputChannel s).

(** The lines appended to the output channel. *)
Definition appended {V : Type} (out : list (Output V)) : list string :=
  omap (fun o => match o with AppendLine _ line => Some line | _ => None end) out.

(** A small console: channels are numbered, the clock ticks by the second,
    a value is a string, the empty one falsy, and one starting with "Error"
    an error. *)
Definition clockwork : Console nat string :=
  {| createOutputChannel := fun _ w => (w, S w);
     Date_toISOString := fun w =>
       (if (w <? 10)%nat
        then "2024-01-01T00:00:0" +:+ String (ascii_of_nat (48 + w)) "Z"
        else "2024-01-01T00:01:00Z", S w);
     JSON_stringify := fun args =>
       if bool_decide ("circular" ∈ args) then None
       else Some ("[" +:+ Js.join_comma args +:+ "]");
     truthy := fun v => negb (String.eqb v EmptyString);
     Error_stack := fun v =>
       if String.prefix "Error" v then Some (v +:+ " at activate") else None |}.

End Logger.

(** ** The two commands of extension.ts, with the toggles of configManager.ts *)

Module Commands.

(** What a command asks of the host. *)
Inductive Notice :=
| Update (key : string) (value : bool)   (* config.update(key, value, Global) *)
| ShowInformationMessage (text : string)
| ShowErrorMessage (text : string).

Section WithHost.
Context `{RT : Runtime} {H : Type} (host : Host H).

(** [toggleEnabled] and [togglePreviewOnlyMode] up to their await: the
    update they request in host state [h]. *)
Definition toggleEnabled (h : H) : Notice :=
  Update "enabled" (negb (default true (get_enabled (getConfiguration host h)))).

Definition togglePreviewOnlyMode (h : H) : Notice :=
  Update "previewOnlyMode"
         (negb (default false (get_previewOnlyMode (getConfiguration host h)))).

(** [configManager?.config.enabled] and its like, once the await is over:
    the snapshot of the configuration manager that is there then. *)
Definition snapshot (field : ExtensionConfig -> bool) (m : Machine H) : bool :=
  activated m && field (_config m).

(** The handler of [previewMarkdown.toggleEnabled].  The command is invoked
    in host state [h]; while the update is awaited the host delivers the
    events [during]; the update settles as [settled]. *)
Definition toggleEnabledCommand (h : H) (during : list (H * Extension.Event))
    (settled : Settled) (m : Machine H) : list Notice * Machine H :=
  if activated m
  then
    let m1 := Extension.run host during (set_hostState h m) in
    (toggleEnabled h
     :: match settled with
        | Resolved =>
            [ShowInformationMessage
               ("Auto Preview Markdown: "
                +:+ if snapshot enabled m1 then "Enabled" else "Disabled")]
        | Rejected => [ShowErrorMessage "Failed to toggle Auto Preview Markdown"]
        end,
     m1)
  else ([], set_hostState h m).

(** The handler of [previewMarkdown.togglePreviewOnlyMode]. *)
Definition togglePreviewOnlyCommand (h : H) (during : list (H * Extension.Event))
    (settled : Settled) (m : Machine H) : list Notice * Machine H :=
  if activated m
  then
    let m1 := Extension.run host during (set_hostState h m) in
    (togglePreviewOnlyMode h
     :: match settled with
        | Resolved =>
            [ShowInformationMessage
               ("Preview-Only Mode: "
                +:+ if snapshot previewOnlyMode m1 then "Enabled" else "Disabled")]
        | Rejected => [ShowErrorMessage "Failed to toggle Preview-Only Mode"]
        end,
     m1)
  else ([], set_hostState h m).

End WithHost.

End Commands.

(** ** More scenes for the small editor *)

Module Scenes.

Definition disabled : WorkspaceConfiguration :=
  {| get_enabled := Some false; get_openPreviewToSide := None;
     get_autoClosePreview := None; get_openOnGitDiff := None;
     get_previewOnlyMode := None; get_preserveFocus := None;
     get_languages := None |}.

(** An untitled document in Markdown language mode. *)
Definition untitled : Uri :=
  {| toString := "untitled:Untitled-1"; fsPath := "Untitled-1" |}.

Definition untitledDoc : TextDocument := {| uri := untitled; languageId := "markdown" |}.

Definition untitledTab : Tab := {| label := "Untitled-1"; input := TabInputText untitled |}.

(** The read-me in plain-text language mode. *)
Definition plainReadme : TextDocument :=
  {| uri := Editor.readme; languageId := "plaintext" |}.

(** Two files, the name of the first being the end of the name of the
    second. *)
Definition a_md : Uri := {| toString := "file:///work/a.md"; fsPath := "/work/a.md" |}.

Definition data_md : Uri :=
  {| toString := "file:///work/data.md"; fsPath := "/work/data.md" |}.

(** The preview of [data.md] is the one open tab. *)
Definition previewingData : Editor.World :=
  {| Editor.groups := [[Editor.previewTab data_md]];
     Editor.active := Some (Editor.previewTab data_md);
     Editor.editor := None; Editor.settings := Editor.defaults;
     Editor.clock := 1700000005000; Editor.random := 1 # 2;
     Editor.commandsAvailable := true |}.

(** The world [w] as the host sees it when its settings are [config]. *)
Definition with_settings (config : WorkspaceConfiguration) (w : Editor.World)
    : Editor.World :=
  {| Editor.groups := Editor.groups w; Editor.active := Editor.active w;
     Editor.editor := Editor.editor w; Editor.settings := config;
     Editor.clock := Editor.clock w; Editor.random := Editor.random w;
     Editor.commandsAvailable := Editor.commandsAvailable w |}.

(** The world [w] with [editor] as the active text editor. *)
Definition with_editor (editor : option TextEditor) (w : Editor.World) : Editor.World :=
  {| Editor.groups := Editor.groups w; Editor.active := Editor.active w;
     Editor.editor := editor; Editor.settings := Editor.settings w;
     Editor.clock := Editor.clock w; Editor.random := Editor.random w;
     Editor.commandsAvailable := Editor.commandsAvailable w |}.

End Scenes.

(** ** Vocabulary of the further properties *)

Section MoreVocabulary.
Context `{RT : Runtime} {H : Type} (host : Host H).

(** [handleDocumentOpen] arms a timer for [doc]: the extension is enabled,
    the document has a preview language and that language is enabled. *)
Definition acceptsDocument (doc : TextDocument) (m : Machine H) : bool :=
  enabled (_config m)
  && match PreviewManager.getLanguageId doc with
     | Some languageId => bool_decide (languageName languageId ∈ _enabledLanguages m)
     | None => false
     end.

(** The requests the extension is expected to send: one of the six preview
    commands; a close of webview tabs, or of one text tab; a focus request
    for a view column. *)
Definition permitted (a : Action) : Prop :=
  match a with
  | ExecuteCommand command _ =>
      exists languageId,
        command = toSide (PREVIEW_COMMANDS languageId)
        \/ command = sameGroup (PREVIEW_COMMANDS languageId)
  | CloseTabs tabs =>
      (tabs <> [] /\
       Forall (fun tab => exists viewType, input tab = TabInputWebview viewType) tabs)
      \/ exists tab u, tabs = [tab] /\ input tab = TabInputText u
  | ShowTextDocument _ column => column <> 0
  end.

(** The set of enabled languages is the one parsed from the snapshot. *)
Definition languagesInSync (m : Machine H) : Prop :=
  _enabledLanguages m = ConfigManager.parseLanguages (languages (_config m)).

(** The computation leaves the configuration snapshot, the enabled
    languages and the activation flag. *)
Definition keepsConfig {A : Type} (c : M H A) : Prop :=
  forall m, _config (c m).2 = _config m
            /\ _enabledLanguages (c m).2 = _enabledLanguages m
            /\ activated (c m).2 = activated m.

(** Nothing is tracked, marked, debounced or pending. *)
Definition idle (m : Machine H) : Prop :=
  _openedPreviews m = ∅ /\ _previewOnlyClosedUris m = ∅
  /\ _lastProcessedClose m = ∅ /\ _pendingOpens m = ∅.

End MoreVocabulary.

(** * Properties *)

(** ** Strings *)

Lemma string_app_cons (c : ascii) (a b : string) : String c a +:+ b = String c (a +:+ b).
Proof. reflexivity. Qed.

Lemma string_app_empty (b : string) : EmptyString +:+ b = b.
Proof. reflexivity. Qed.

Lemma prefix_app (p s : string) :
  String.prefix p s = true <-> exists r, s = p +:+ r.
Proof.
  revert s. induction p as [|a p IH]; intros s.
  - destruct s; simpl; split; eauto.
  - destruct s as [|b s]; simpl.
    + split; [discriminate | intros [r Hr]; discriminate].
    + destruct (ascii_dec a b) as [->|Hab].
      * rewrite IH. split; intros [r Hr]; exists r;
          rewrite string_app_cons in *; congruence.
      * split; [discriminate | intros [r Hr]; rewrite string_app_cons in Hr; congruence].
Qed.

Lemma includes_cons (p : string) (c : ascii) (s : string) :
  Js.includes p (String c s) = String.prefix p (String c s) || Js.includes p s.
Proof. reflexivity. Qed.

Lemma includes_app (p s : string) :
  Js.includes p s = true <-> exists before after, s = before +:+ p +:+ after.
Proof.
  induction s as [|c s IH].
  - change (Js.includes p EmptyString) with (String.prefix p EmptyString || false).
    rewrite orb_false_r, prefix_app. split.
    + intros [r Hr]. exists EmptyString, r. exact Hr.
    + intros ([|? before] & after & Heq);
        [rewrite string_app_empty in Heq; eauto | discriminate].
  - rewrite includes_cons, orb_true_iff, prefix_app, IH. split.
    + intros [[r Hr] | (before & after & Heq)].
      * exists EmptyString, r. exact Hr.
      * exists (String c before), after. rewrite string_app_cons. congruence.
    + intros ([|b before] & after & Heq).
      * left. rewrite string_app_empty in Heq. eauto.
      * right. exists before, after. rewrite string_app_cons in Heq. congruence.
Qed.

Lemma split_comma_nonempty (s : string) : Js.split_comma s <> [].
Proof.
  destruct s as [|c s]; simpl; [discriminate |].
  destruct (Ascii.eqb c ","); [discriminate |].
  destruct (Js.split_comma s); discriminate.
Qed.

Lemma join_split_comma (s : string) : Js.join_comma (Js.split_comma s) = s.
Proof.
  induction s as [|c s IH]; simpl; [reflexivity |].
  pose proof (split_comma_nonempty s) as Hne.
  destruct (Ascii.eqb_spec c ",") as [->|Hc];
    destruct (Js.split_comma s) as [|x xs]; try congruence.
  - change (Js.join_comma (EmptyString :: x :: xs))
      with (EmptyString +:+ String "," (Js.join_comma (x :: xs))).
    rewrite string_app_empty. congruence.
  - destruct xs as [|y ys].
    + simpl in *. congruence.
    + change (Js.join_comma (String c x :: y :: ys))
        with (String c x +:+ String "," (Js.join_comma (y :: ys))).
      change (Js.join_comma (x :: y :: ys))
        with (x +:+ String "," (Js.join_comma (y :: ys))) in IH.
      rewrite string_app_cons. congruence.
Qed.

Lemma split_comma_pieces (s piece : string) :
  piece ∈ Js.split_comma s -> Js.includes "," piece = false.
Proof.
  revert piece. induction s as [|c s IH]; intros piece; simpl.
  - intros ->%list_elem_of_singleton. reflexivity.
  - pose proof (split_comma_nonempty s) as Hne.
    destruct (Ascii.eqb_spec c ",") as [->|Hc].
    + intros [->|Hin]%elem_of_cons; [reflexivity | auto].
    + destruct (Js.split_comma s) as [|x xs]; [congruence |].
      intros [->|Hin]%elem_of_cons.
      * rewrite includes_cons, (IH x) by left. rewrite orb_false_r.
        apply not_true_iff_false. intros [r Hr]%prefix_app.
        rewrite string_app_cons in Hr. congruence.
      * apply IH. right. exact Hin.
Qed.

Example split_comma_ex :
  Js.split_comma "markdown, AsciiDoc,,x" = ["markdown"; " AsciiDoc"; EmptyString; "x"]
  /\ Js.split_comma EmptyString = [EmptyString].
Proof. split; reflexivity. Qed.

Example posix_path_ex :
  Js.posix_basename "/path/to/README.md" = "README.md"
  /\ Js.posix_basename "/foo/bar/" = "bar"
  /\ Js.posix_extname "/docs/guide.ADOC" = ".ADOC"
  /\ Js.posix_extname "/docs/.index" = EmptyString
  /\ Js.posix_extname "/a.b/file" = EmptyString
  /\ Js.ascii_trim "  a b  " = "a b".
Proof. repeat split; reflexivity. Qed.

(** ** diffDetector.ts *)

(** C6.  [isDocumentInDiffView u] answers true exactly when some tab of some
    tab group has a text-diff input whose original or modified URI is [u]
    (URIs are compared by their string form, as the code does); and
    [isDiffEditor] answers true exactly when there is an active tab and its
    input is a text-diff input, so it answers false without an active tab. *)
Theorem diff_detection {H : Type} (host : Host H) (u : Uri) (h : H) :
  (DiffDetector.isDocumentInDiffView host u h = true <->
   exists group tab original modified,
     group ∈ tabGroups_all host h /\
     tab ∈ group_tabs host h group /\
     input tab = TabInputTextDiff original modified /\
     (toString original = toString u \/ toString modified = toString u))
  /\ (DiffDetector.isDiffEditor host h = true <->
      exists tab original modified,
        activeTab host h = Some tab /\
        input tab = TabInputTextDiff original modified)
  /\ (activeTab host h = None -> DiffDetector.isDiffEditor host h = false).
Proof.
  unfold DiffDetector.isDocumentInDiffView, DiffDetector.isDiffEditor.
  split; [|split].
  - rewrite existsb_exists. split.
    + intros (group & Hgroup & Htabs). apply existsb_exists in Htabs.
      destruct Htabs as (tab & Htab & Hshows).
      unfold DiffDetector.diffShows in Hshows.
      destruct (input tab) as [| original modified | |] eqn:Hinput; try discriminate.
      exists group, tab, original, modified.
      rewrite <- !list_elem_of_In in *.
      repeat split; try assumption.
      apply orb_true_iff in Hshows.
      destruct Hshows as [Heq|Heq]; apply String.eqb_eq in Heq; auto.
    + intros (group & tab & original & modified & Hgroup & Htab & Hinput & Heq).
      exists group. rewrite <- list_elem_of_In. split; [assumption |].
      apply existsb_exists. exists tab. rewrite <- list_elem_of_In.
      split; [assumption |].
      unfold DiffDetector.diffShows. rewrite Hinput. apply orb_true_iff.
      destruct Heq as [Heq|Heq]; [left | right]; apply String.eqb_eq; exact Heq.
  - destruct (activeTab host h) as [tab|]; unfold DiffDetector.isTextDiff.
    + split.
      * destruct (input tab) eqn:Hinput; try discriminate. eauto.
      * intros (tab' & original & modified & [= <-] & ->). reflexivity.
    + split; [discriminate | intros (? & ? & ? & ? & _); discriminate].
  - intros ->. reflexivity.
Qed.

(** ** tabTracker.ts *)

Lemma firstSome_Some {A B} (f : A -> option B) (l : list A) (b : B) :
  TabTracker.firstSome f l = Some b -> exists x, x ∈ l /\ f x = Some b.
Proof.
  induction l as [|x l IH]; simpl; [discriminate |].
  destruct (f x) as [b'|] eqn:Hfx.
  - intros [= <-]. exists x. split; [left | exact Hfx].
  - intros (y & Hy & Hfy)%IH. exists y. split; [right; exact Hy | exact Hfy].
Qed.

(** A tab found by [findPreviewTab] is an open webview tab that passes one
    of the two tests of the loop. *)
Lemma findPreviewTab_Some `{RT : Runtime} {H : Type}
    (host : Host H) (u : Uri) (h : H) (tab : Tab) :
  TabTracker.findPreviewTab host u h = Some tab ->
  exists group viewType languageId,
    group ∈ tabGroups_all host h /\
    tab ∈ group_tabs host h group /\
    input tab = TabInputWebview viewType /\
    FILE_EXTENSIONS (toLowerCase (extname (fsPath u))) = Some languageId /\
    (label tab = "Preview " +:+ basename (fsPath u) \/
     (viewType = PREVIEW_VIEW_TYPES languageId /\
      exists before after,
        label tab = before +:+ basename (fsPath u) +:+ after)).
Proof.
  unfold TabTracker.findPreviewTab, TabTracker.getLanguageId.
  destruct (FILE_EXTENSIONS _) as [languageId|]; [|discriminate].
  intros (group & Hgroup & Hfind)%firstSome_Some.
  apply find_some in Hfind. destruct Hfind as [Htab Htest].
  apply list_elem_of_In in Htab.
  unfold TabTracker.isPreviewOf in Htest.
  destruct (input tab) as [| | viewType |] eqn:Hinput; try discriminate.
  exists group, viewType, languageId. repeat split; try assumption.
  apply orb_true_iff in Htest. destruct Htest as [Hlabel|Hview].
  - left. apply String.eqb_eq in Hlabel. exact Hlabel.
  - right. apply andb_true_iff in Hview. destruct Hview as [Hview Hbase].
    apply String.eqb_eq in Hview. apply includes_app in Hbase. auto.
Qed.

(** C5.  The expected label of the preview of [u] is "Preview " followed by
    the base name of the file; a tab returned by [findPreviewTab] is an open
    webview tab whose label is that expected label, or whose view type is the
    preview view type of the language of [u] and whose label contains the
    base name; and when the extension of [u] maps to no supported language,
    [findPreviewTab] returns nothing. *)
Theorem preview_tab_correlation `{RT : Runtime} {H : Type}
    (host : Host H) (u : Uri) (h : H) :
  TabTracker.getExpectedPreviewLabel u = "Preview " +:+ basename (fsPath u)
  /\ (forall tab, TabTracker.findPreviewTab host u h = Some tab ->
        exists group viewType languageId,
          group ∈ tabGroups_all host h /\
          tab ∈ group_tabs host h group /\
          input tab = TabInputWebview viewType /\
          FILE_EXTENSIONS (toLowerCase (extname (fsPath u))) = Some languageId /\
          (label tab = "Preview " +:+ basename (fsPath u) \/
           (viewType = PREVIEW_VIEW_TYPES languageId /\
            exists before after,
              label tab = before +:+ basename (fsPath u) +:+ after)))
  /\ (FILE_EXTENSIONS (toLowerCase (extname (fsPath u))) = None ->
      TabTracker.findPreviewTab host u h = None).
Proof.
  split; [reflexivity | split].
  - intros tab. apply findPreviewTab_Some.
  - intros Hnone. unfold TabTracker.findPreviewTab, TabTracker.getLanguageId.
    rewrite Hnone. reflexivity.
Qed.

Lemma preview_tab_correlation_witness :
  let w := Editor.previewing Editor.defaults in
  TabTracker.findPreviewTab (RT := Js.ascii_runtime) Editor.host Editor.readme w
  = Some (Editor.previewTab Editor.readme)
  /\ exists group viewType languageId,
       group ∈ tabGroups_all Editor.host w
       /\ Editor.previewTab Editor.readme ∈ group_tabs Editor.host w group
       /\ input (Editor.previewTab Editor.readme) = TabInputWebview viewType
       /\ FILE_EXTENSIONS (Js.ascii_toLowerCase (Js.posix_extname (fsPath Editor.readme)))
          = Some languageId
       /\ (label (Editor.previewTab Editor.readme)
           = "Preview " +:+ Js.posix_basename (fsPath Editor.readme)
           \/ (viewType = PREVIEW_VIEW_TYPES languageId
               /\ exists before after,
                    label (Editor.previewTab Editor.readme)
                    = before +:+ Js.posix_basename (fsPath Editor.readme) +:+ after)).
Proof.
  intros w.
  assert (Hfound : TabTracker.findPreviewTab (RT := Js.ascii_runtime)
                     Editor.host Editor.readme w
                   = Some (Editor.previewTab Editor.readme)) by reflexivity.
  split; [exact Hfound |].
  exact (proj1 (proj2 (preview_tab_correlation (RT := Js.ascii_runtime)
                         Editor.host Editor.readme w))
               (Editor.previewTab Editor.readme) Hfound).
Defined.

(** ** configManager.ts *)

Lemma parsed_elem `{RT : Runtime} (s l : string) :
  l ∈ ConfigManager.parsed s <->
  l ∈ ConfigManager.validLanguages /\
  exists entry, entry ∈ Js.split_comma s /\ l = toLowerCase (trim entry).
Proof.
  unfold ConfigManager.parsed.
  rewrite list_elem_of_filter, list_elem_of_fmap.
  split; intros [Hvalid (entry & H1 & H2)]; eauto.
Qed.


Example parseLanguages_ex :
  ConfigManager.parseLanguages (RT := Js.ascii_runtime) " AsciiDoc,foo,markdown "
  = {["asciidoc"; "markdown"]}
  /\ ConfigManager.parseLanguages (RT := Js.ascii_runtime) "md, rst" = {["markdown"]}.
Proof. split; vm_compute; reflexivity. Qed.

(** ** The debounce of [closePreviewForFile] *)

Ltac unfold_machine :=
  unfold bind, ret, gets, modify, call, request, read, exec in *.

(** The two branches of [closePreviewForFile]. *)
Lemma closePreviewForFile_run `{RT : Runtime} {H : Type}
    (host : Host H) (u : Uri) (m : Machine H) :
  let key := toString u in
  let clock := Date_now host (hostState m) in
  TabTracker.closePreviewForFile host u m
  = if clock.1 - default 0 (_lastProcessedClose m !! key) <? 100
    then (false, set_hostState clock.2 m)
    else
      let m1 := set_lastProcessedClose <[key := clock.1]> (set_hostState clock.2 m) in
      match TabTracker.findPreviewTab host u clock.2 with
      | Some tab =>
          (match (tabGroups_close host [tab] clock.2).1 with
           | Resolved => true
           | Rejected => false
           end,
           set_host (tabGroups_close host [tab] clock.2).2 [CloseTabs [tab]] m1)
      | None => (false, m1)
      end.
Proof.
  intros key clock. subst key clock.
  unfold TabTracker.closePreviewForFile, TabTracker.DEBOUNCE_MS. unfold_machine.
  destruct (Date_now host (hostState m)) as [now h1]. simpl.
  destruct (now - default 0 (_lastProcessedClose m !! toString u) <? 100);
    [reflexivity |].
  simpl. destruct (TabTracker.findPreviewTab host u h1) as [tab|]; [|reflexivity].
  simpl. destruct (tabGroups_close host [tab] h1) as [[] h2]; reflexivity.
Qed.

(** C4.  A call of [closePreviewForFile] made less than 100 ms after the
    timestamp recorded for the same URI returns false, sends no close request,
    leaves the recorded timestamps as they are and does not depend on the
    open tabs (it is the same for every host with the same clock); a call
    outside that window records the new timestamp for this URI only, looks
    the preview tab up and, when there is one, requests its closure. *)
Theorem closePreviewForFile_debounce `{RT : Runtime} {H : Type}
    (host : Host H) (u : Uri) (m : Machine H) :
  let key := toString u in
  let now := (Date_now host (hostState m)).1 in
  let h1 := (Date_now host (hostState m)).2 in
  (forall recorded,
      _lastProcessedClose m !! key = Some recorded ->
      now - recorded < 100 ->
      TabTracker.closePreviewForFile host u m = (false, set_hostState h1 m)
      /\ forall host' : Host H,
           Date_now host' = Date_now host ->
           TabTracker.closePreviewForFile host' u m
           = TabTracker.closePreviewForFile host u m)
  /\ (100 <= now - default 0 (_lastProcessedClose m !! key) ->
      let m1 := set_lastProcessedClose <[key := now]> (set_hostState h1 m) in
      _lastProcessedClose m1 !! key = Some now
      /\ (forall other, other <> key ->
            _lastProcessedClose m1 !! other = _lastProcessedClose m !! other)
      /\ TabTracker.closePreviewForFile host u m
         = match TabTracker.findPreviewTab host u h1 with
           | Some tab =>
               (match (tabGroups_close host [tab] h1).1 with
                | Resolved => true
                | Rejected => false
                end,
                set_host (tabGroups_close host [tab] h1).2 [CloseTabs [tab]] m1)
           | None => (false, m1)
           end).
Proof.
  intros key now h1. subst key now h1. split.
  - intros recorded Hrec Hlt.
    assert (Hskip : forall host' : Host H,
               Date_now host' = Date_now host ->
               TabTracker.closePreviewForFile host' u m
               = (false, set_hostState (Date_now host (hostState m)).2 m)).
    { intros host' Hclock. rewrite closePreviewForFile_run. cbv zeta.
      rewrite Hclock, Hrec. simpl.
      destruct (Z.ltb_spec ((Date_now host (hostState m)).1 - recorded) 100);
        [reflexivity | lia]. }
    split; [apply Hskip; reflexivity |].
    intros host' Hclock. rewrite (Hskip host' Hclock), (Hskip host eq_refl).
    reflexivity.
  - intros Hge m1. subst m1. split; [|split].
    + simpl. apply lookup_insert_eq.
    + intros other Hother. simpl. apply lookup_insert_ne. congruence.
    + rewrite closePreviewForFile_run. cbv zeta.
      destruct (Z.ltb_spec ((Date_now host (hostState m)).1
                            - default 0 (_lastProcessedClose m !! toString u)) 100);
        [lia | reflexivity].
Qed.

(** Two calls 40 ms apart: the first requests the close, the second is
    debounced although the preview tab is still listed. *)
Example closePreviewForFile_twice :
  let w := Editor.previewing Editor.defaults in
  let m := Editor.started (RT := Js.ascii_runtime) w in
  let first := TabTracker.closePreviewForFile (RT := Js.ascii_runtime)
                 Editor.host Editor.readme m in
  let second := TabTracker.closePreviewForFile (RT := Js.ascii_runtime)
                  Editor.host Editor.readme
                  (set_hostState (Editor.with_clock (Z.add 40) w) first.2) in
  first.1 = true
  /\ trace first.2 = [CloseTabs [Editor.previewTab Editor.readme]]
  /\ second.1 = false
  /\ trace second.2 = trace first.2.
Proof. repeat split; vm_compute; reflexivity. Qed.

Lemma closePreviewForFile_debounce_witness :
  let w := Editor.previewing Editor.defaults in
  let first := exec (TabTracker.closePreviewForFile (RT := Js.ascii_runtime)
                       Editor.host Editor.readme)
                    (Editor.started (RT := Js.ascii_runtime) w) in
  let later := Editor.with_clock (Z.add 40) w in
  let m := set_hostState later first in
  _lastProcessedClose m !! toString Editor.readme = Some 1700000005000
  /\ 1700000005040 - 1700000005000 < 100
  /\ TabTracker.closePreviewForFile (RT := Js.ascii_runtime) Editor.host Editor.readme m
     = (false, set_hostState later m).
Proof.
  intros w first later m.
  assert (Hrecorded : _lastProcessedClose m !! toString Editor.readme
                      = Some 1700000005000) by (vm_compute; reflexivity).
  assert (Hwindow : 1700000005040 - 1700000005000 < 100) by reflexivity.
  split; [exact Hrecorded |]. split; [exact Hwindow |].
  pose proof (closePreviewForFile_debounce (RT := Js.ascii_runtime)
                Editor.host Editor.readme m) as [Hdebounced _].
  exact (proj1 (Hdebounced 1700000005000 Hrecorded Hwindow)).
Defined.

(** ** previewManager.ts: the guards of [openPreviewIfNeeded] *)

Lemma tracked_union (key : string) (s : gset string) :
  key ∈ s -> {[key]} ∪ s = s.
Proof. intros Hin. apply set_eq. set_solver. Qed.

(** A document that is already tracked: [openPreviewIfNeeded] does nothing. *)
Lemma openPreviewIfNeeded_tracked `{RT : Runtime} {H : Type}
    (host : Host H) (doc : TextDocument) (m : Machine H) :
  toString (uri doc) ∈ _openedPreviews m ->
  PreviewManager.openPreviewIfNeeded host doc m = (tt, m).
Proof.
  intros Hin. unfold PreviewManager.openPreviewIfNeeded. unfold_machine.
  rewrite (bool_decide_eq_true_2 _ Hin). reflexivity.
Qed.

(** C1, as the code has it.  With [openOnGitDiff] off, when the active tab is
    a text-diff editor or the document is a side of an open diff tab,
    [openPreviewIfNeeded] sends no request to the host, so no preview-open
    command; the set of opened previews stays as it is, except that outside
    preview-only mode a preview tab that is already open for the document
    makes the URI tracked. *)
Theorem diff_view_skips_open `{RT : Runtime} {H : Type}
    (host : Host H) (doc : TextDocument) (m : Machine H) :
  openOnGitDiff (_config m) = false ->
  DiffDetector.isDiffEditor host (hostState m) = true
  \/ DiffDetector.isDocumentInDiffView host (uri doc) (hostState m) = true ->
  let m' := exec (PreviewManager.openPreviewIfNeeded host doc) m in
  trace m' = trace m
  /\ hostState m' = hostState m
  /\ _openedPreviews m'
     = (if negb (previewOnlyMode (_config m))
           && TabTracker.isPreviewOpen host (uri doc) (hostState m)
        then {[toString (uri doc)]} ∪ _openedPreviews m
        else _openedPreviews m)
  /\ (previewOnlyMode (_config m) = true
      \/ TabTracker.isPreviewOpen host (uri doc) (hostState m) = false ->
      m' = m).
Proof.
  intros Hoff Hdiff m'. subst m'.
  destruct (decide (toString (uri doc) ∈ _openedPreviews m)) as [Hin|Hnotin].
  - unfold exec. rewrite openPreviewIfNeeded_tracked by exact Hin. simpl.
    repeat split. destruct (_ && _); [|reflexivity].
    symmetry. apply tracked_union. exact Hin.
  - unfold PreviewManager.openPreviewIfNeeded. unfold_machine.
    rewrite (bool_decide_eq_false_2 _ Hnotin). rewrite Hoff. simpl.
    destruct (negb (previewOnlyMode (_config m))
              && TabTracker.isPreviewOpen host (uri doc) (hostState m)) eqn:Hopen.
    + simpl. repeat split.
      intros [Hmode|Hclosed]; [rewrite Hmode in Hopen | rewrite Hclosed in Hopen];
        simpl in Hopen; [discriminate |].
      rewrite andb_false_r in Hopen. discriminate.
    + destruct (DiffDetector.isDiffEditor host (hostState m)); simpl.
      * repeat split.
      * destruct Hdiff as [Hdiff|Hdiff]; [discriminate |].
        rewrite Hdiff. simpl. repeat split.
Qed.

(** C1, as stated, fails: the document is shown in a diff editor, the setting
    [openOnGitDiff] is off, and a preview tab of the document is still open;
    the open event sends nothing but adds the URI to the opened previews. *)
Lemma diff_view_open_tracks_uri :
  let w := Editor.reviewing Editor.defaults [Editor.previewTab Editor.readme] in
  let m := Editor.started (RT := Js.ascii_runtime) w in
  let m' := Extension.run (RT := Js.ascii_runtime) Editor.host
              [(w, Extension.DidOpenTextDocument Editor.readmeDoc);
               (w, Extension.PendingOpenElapsed (toString Editor.readme))] m in
  openOnGitDiff (_config m) = false
  /\ DiffDetector.isDiffEditor Editor.host w = true
  /\ DiffDetector.isDocumentInDiffView Editor.host Editor.readme w = true
  /\ trace m' = []
  /\ (toString Editor.readme ∉ _openedPreviews m)
  /\ toString Editor.readme ∈ _openedPreviews m'.
Proof.
  do 4 (split; [vm_compute; reflexivity |]). split.
  - intros Hin. apply (bool_decide_pack _) in Hin. vm_compute in Hin. exact Hin.
  - apply (bool_decide_unpack _). vm_compute. exact I.
Qed.

Lemma diff_view_skips_open_witness :
  let m := Editor.started (RT := Js.ascii_runtime) (Editor.reviewing Editor.defaults []) in
  let m' := exec (PreviewManager.openPreviewIfNeeded (RT := Js.ascii_runtime)
                    Editor.host Editor.readmeDoc) m in
  openOnGitDiff (_config m) = false
  /\ DiffDetector.isDiffEditor Editor.host (hostState m) = true
  /\ trace m' = trace m
  /\ m' = m.
Proof.
  pose proof (diff_view_skips_open (RT := Js.ascii_runtime) Editor.host Editor.readmeDoc
                (Editor.started (RT := Js.ascii_runtime)
                   (Editor.reviewing Editor.defaults [])) eq_refl (or_introl eq_refl))
    as (Htrace & _ & _ & Hsame).
  split; [reflexivity |]. split; [reflexivity |].
  split; [exact Htrace | apply Hsame; right; reflexivity].
Defined.

(** ** previewManager.ts: the attempt of [openPreviewIfNeeded] *)

Lemma add_remove_untracked (key : string) (s : gset string) :
  key ∉ s -> ({[key]} ∪ s) ∖ {[key]} = s.
Proof. intros Hnotin. apply set_eq. set_solver. Qed.

(** Past the guards, [openPreviewIfNeeded] tracks the document, runs the
    [try] block and untracks the document when the block threw. *)
Lemma openPreviewIfNeeded_attempt `{RT : Runtime} {H : Type}
    (host : Host H) (doc : TextDocument) (languageId : SupportedLanguage)
    (m : Machine H) :
  passesGuards host doc languageId m ->
  PreviewManager.openPreviewIfNeeded host doc m
  = let key := toString (uri doc) in
    let attempt :=
      PreviewManager.openPreview host (_config m)
        (previewCommand (_config m) languageId) doc
        (set_openedPreviews (fun s => {[key]} ∪ s) m) in
    match attempt.1 with
    | Resolved => (tt, attempt.2)
    | Rejected => (tt, set_openedPreviews (fun s => s ∖ {[key]}) attempt.2)
    end.
Proof.
  intros (Hnotin & Hopen & Hdiff & Hlang).
  unfold PreviewManager.openPreviewIfNeeded. unfold_machine.
  rewrite (bool_decide_eq_false_2 _ Hnotin).
  assert (negb (previewOnlyMode (_config m))
          && TabTracker.isPreviewOpen host (uri doc) (hostState m) = false) as ->.
  { destruct Hopen as [-> | ->]; [reflexivity | apply andb_false_r]. }
  assert (negb (openOnGitDiff (_config m))
          && DiffDetector.isDiffEditor host (hostState m) = false) as ->.
  { destruct Hdiff as [-> | [-> _]]; [reflexivity | apply andb_false_r]. }
  assert (negb (openOnGitDiff (_config m))
          && DiffDetector.isDocumentInDiffView host (uri doc) (hostState m) = false) as ->.
  { destruct Hdiff as [-> | [_ ->]]; [reflexivity | apply andb_false_r]. }
  rewrite Hlang. unfold previewCommand. simpl.
  destruct (PreviewManager.openPreview host _ _ doc _) as [[] m1]; reflexivity.
Qed.

(** The three ways through [openPreviewIfNeeded]: it returns early and
    changes nothing, it finds the preview open and tracks the document, or
    it gets past its guards. *)
Lemma openPreviewIfNeeded_cases `{RT : Runtime} {H : Type}
    (host : Host H) (doc : TextDocument) (m : Machine H) :
  exec (PreviewManager.openPreviewIfNeeded host doc) m = m
  \/ exec (PreviewManager.openPreviewIfNeeded host doc) m
     = set_openedPreviews (fun s => {[toString (uri doc)]} ∪ s) m
  \/ exists languageId, passesGuards host doc languageId m.
Proof.
  unfold PreviewManager.openPreviewIfNeeded. unfold_machine.
  destruct (bool_decide (toString (uri doc) ∈ _openedPreviews m)) eqn:Htracked;
    [left; reflexivity |].
  apply bool_decide_eq_false in Htracked.
  destruct (negb (previewOnlyMode (_config m))
            && TabTracker.isPreviewOpen host (uri doc) (hostState m)) eqn:Hopen;
    [right; left; reflexivity |].
  destruct (negb (openOnGitDiff (_config m))
            && DiffDetector.isDiffEditor host (hostState m)) eqn:Hdiff1;
    [left; reflexivity |].
  destruct (negb (openOnGitDiff (_config m))
            && DiffDetector.isDocumentInDiffView host (uri doc) (hostState m)) eqn:Hdiff2;
    [left; reflexivity |].
  destruct (PreviewManager.getLanguageId doc) as [languageId|] eqn:Hlang;
    [|left; reflexivity].
  right. right. exists languageId. repeat split; try assumption.
  - destruct (previewOnlyMode (_config m)); [left; reflexivity | right; exact Hopen].
  - destruct (openOnGitDiff (_config m)); [left; reflexivity | right; split; assumption].
Qed.

(** ** previewManager.ts: reader mode *)

Lemma isMarkupPreview_iff (tab : Tab) :
  PreviewManager.isMarkupPreview tab = true <->
  exists viewType,
    input tab = TabInputWebview viewType /\
    (viewType ∈ PreviewManager.previewViewTypes
     \/ exists rest, label tab = "Preview " +:+ rest).
Proof.
  unfold PreviewManager.isMarkupPreview, Js.array_includes, Js.startsWith.
  destruct (input tab) as [| | viewType |]; try (split; [discriminate |]).
  - intros (? & ? & _); discriminate.
  - intros (? & ? & _); discriminate.
  - rewrite orb_true_iff, bool_decide_eq_true, prefix_app. split.
    + intros Hor. exists viewType. split; [reflexivity | exact Hor].
    + intros (? & [= <-] & Hor). exact Hor.
  - intros (? & ? & _); discriminate.
Qed.

Lemma markupPreviews_elem {H : Type} (host : Host H) (h : H) (tab : Tab) :
  tab ∈ markupPreviews host h <->
  exists group, group ∈ tabGroups_all host h /\
                tab ∈ group_tabs host h group /\
                PreviewManager.isMarkupPreview tab = true.
Proof.
  unfold markupPreviews. rewrite list_elem_of_In, in_flat_map. split.
  - intros (group & Hgroup & Htab). apply filter_In in Htab.
    exists group. rewrite !list_elem_of_In. tauto.
  - intros (group & Hgroup & Htab & Htest). exists group.
    rewrite filter_In, <- !list_elem_of_In. tauto.
Qed.

Lemma closeAllMarkdownPreviews_exec {H : Type} (host : Host H) (m : Machine H) :
  exec (PreviewManager.closeAllMarkdownPreviews host) m
  = match markupPreviews host (hostState m) with
    | [] => m
    | previews =>
        set_host (tabGroups_close host previews (hostState m)).2 [CloseTabs previews] m
    end.
Proof.
  unfold PreviewManager.closeAllMarkdownPreviews, markupPreviews. unfold_machine.
  destruct (flat_map _ _) as [|tab tabs]; [reflexivity |]. simpl.
  destruct (tabGroups_close host (tab :: tabs) (hostState m)); reflexivity.
Qed.

Lemma closesSources_refl {H : Type} (key : string) (m : Machine H) :
  closesSources key m m.
Proof.
  exists []. rewrite app_nil_r. repeat split; auto.
Qed.

Lemma closesSources_trans {H : Type} (key : string) (m1 m2 m3 : Machine H) :
  closesSources key m1 m2 -> closesSources key m2 m3 -> closesSources key m1 m3.
Proof.
  intros (closes1 & Ht1 & Hf1 & Ho1 & Hm1 & He1) (closes2 & Ht2 & Hf2 & Ho2 & Hm2 & He2).
  exists (closes1 ++ closes2)%list. split; [|split; [|split; [|split]]].
  - rewrite Ht2, Ht1. symmetry. apply app_assoc.
  - apply Forall_app. split; assumption.
  - congruence.
  - destruct Hm1 as [Hm1|Hm1], Hm2 as [Hm2|Hm2]; rewrite Hm2, Hm1; auto.
    right. apply set_eq. set_solver.
  - intros [-> ->]%app_eq_nil. rewrite He2, He1; reflexivity.
Qed.

(** A rejected close of a source tab: the request is sent and [key] is
    unmarked. *)
Lemma closesSources_rejected {H : Type} (key : string) (m : Machine H) (h : H) (tab : Tab) :
  isSourceOf key tab = true ->
  closesSources key m
    (set_previewOnlyClosedUris (fun s => s ∖ {[key]}) (set_host h [CloseTabs [tab]] m)).
Proof.
  intros Hsource.
  exists [CloseTabs [tab]]. simpl. split; [reflexivity |].
  split; [constructor; [eauto | constructor] |].
  split; [reflexivity |]. split; [auto | discriminate].
Qed.

Lemma closesSources_resolved {H : Type} (key : string) (m : Machine H) (h : H) (tab : Tab) :
  isSourceOf key tab = true ->
  closesSources key m (set_host h [CloseTabs [tab]] m).
Proof.
  intros Hsource.
  exists [CloseTabs [tab]]. simpl. split; [reflexivity |].
  split; [constructor; [eauto | constructor] |].
  split; [reflexivity |]. split; [auto | discriminate].
Qed.

Lemma closeSourceEditor_tabs_shape {H : Type} (host : Host H) (key : string)
    (tabs : list Tab) (m : Machine H) :
  closesSources key m (PreviewManager.closeSourceEditor_tabs host key tabs m).2.
Proof.
  revert m. induction tabs as [|tab tabs IH]; intros m; simpl.
  - apply closesSources_refl.
  - destruct (input tab) as [u| | |] eqn:Hinput; try apply IH.
    destruct (String.eqb (toString u) key) eqn:Hkey; [|apply IH].
    assert (Hsource : isSourceOf key tab = true)
      by (unfold isSourceOf; rewrite Hinput; exact Hkey).
    unfold_machine.
    destruct (tabGroups_close host [tab] (hostState m)) as [[] h1]; simpl.
    + apply closesSources_resolved. exact Hsource.
    + eapply closesSources_trans; [|apply IH].
      apply closesSources_rejected. exact Hsource.
Qed.

Lemma closeSourceEditor_tabs_first {H : Type} (host : Host H) (key : string)
    (tabs : list Tab) (m : Machine H) :
  let run := PreviewManager.closeSourceEditor_tabs host key tabs m in
  match find (isSourceOf key) tabs with
  | None => run = (false, m)
  | Some tab =>
      let settled := tabGroups_close host [tab] (hostState m) in
      (settled.1 = Resolved -> run = (true, set_host settled.2 [CloseTabs [tab]] m))
      /\ exists rest, trace run.2 = (trace m ++ CloseTabs [tab] :: rest)%list
  end.
Proof.
  induction tabs as [|tab tabs IH]; simpl; [reflexivity |].
  unfold isSourceOf at 1.
  destruct (input tab) as [u| | |] eqn:Hinput; try exact IH.
  destruct (String.eqb (toString u) key) eqn:Hkey; [|exact IH].
  assert (Hsource : isSourceOf key tab = true)
    by (unfold isSourceOf; rewrite Hinput; exact Hkey).
  unfold_machine.
  destruct (tabGroups_close host [tab] (hostState m)) as [[] h1] eqn:Hclose; simpl.
  - split; [reflexivity |]. exists []. reflexivity.
  - split; [discriminate |].
    pose proof (closeSourceEditor_tabs_shape host key tabs
                  (set_previewOnlyClosedUris (fun s => s ∖ {[key]})
                     (set_host h1 [CloseTabs [tab]] m))) as (closes & Htrace & _).
    exists closes. rewrite Htrace. simpl. rewrite <- app_assoc. reflexivity.
Qed.

Lemma closeSourceEditor_groups_shape {H : Type} (host : Host H) (key : string)
    (groups : list nat) (m : Machine H) :
  closesSources key m (exec (PreviewManager.closeSourceEditor_groups host key groups) m).
Proof.
  revert m. induction groups as [|group groups IH]; intros m; simpl.
  - apply closesSources_refl.
  - unfold_machine.
    pose proof (closeSourceEditor_tabs_shape host key
                  (group_tabs host (hostState m) group) m) as Htabs.
    destruct (PreviewManager.closeSourceEditor_tabs host key _ m) as [[] m1]; simpl in *.
    + exact Htabs.
    + eapply closesSources_trans; [exact Htabs | apply IH].
Qed.

Lemma closeSourceEditor_groups_first {H : Type} (host : Host H) (key : string)
    (groups : list nat) (m : Machine H) :
  let m' := exec (PreviewManager.closeSourceEditor_groups host key groups) m in
  match TabTracker.firstSome
          (fun group => find (isSourceOf key) (group_tabs host (hostState m) group))
          groups with
  | None => m' = m
  | Some tab =>
      let settled := tabGroups_close host [tab] (hostState m) in
      (settled.1 = Resolved -> m' = set_host settled.2 [CloseTabs [tab]] m)
      /\ exists rest, trace m' = (trace m ++ CloseTabs [tab] :: rest)%list
  end.
Proof.
  induction groups as [|group groups IH]; simpl; [reflexivity |].
  unfold_machine.
  pose proof (closeSourceEditor_tabs_first host key
                (group_tabs host (hostState m) group) m) as Hfirst.
  simpl in Hfirst.
  destruct (find (isSourceOf key) (group_tabs host (hostState m) group)) as [tab|].
  - destruct Hfirst as [Hresolved [rest Hrest]].
    destruct (PreviewManager.closeSourceEditor_tabs host key _ m) as [returned m1] eqn:Hrun.
    simpl in *. split.
    + intros Hsettled. specialize (Hresolved Hsettled).
      injection Hresolved as -> ->. reflexivity.
    + destruct returned; [exists rest; exact Hrest |].
      pose proof (closeSourceEditor_groups_shape host key groups m1)
        as (closes & Htrace & _).
      unfold exec in Htrace. exists (rest ++ closes)%list.
      rewrite Htrace, Hrest, <- app_assoc. reflexivity.
  - rewrite Hfirst. simpl. exact IH.
Qed.

Lemma closeSourceEditor_exec {H : Type} (host : Host H) (u : Uri) (m : Machine H) :
  let key := toString u in
  let marked := set_previewOnlyClosedUris (fun s => {[key]} ∪ s) m in
  let m' := exec (PreviewManager.closeSourceEditor host u) m in
  closesSources key marked m'
  /\ match firstSourceTab host key (hostState m) with
     | None => m' = marked
     | Some tab =>
         let settled := tabGroups_close host [tab] (hostState m) in
         (settled.1 = Resolved -> m' = set_host settled.2 [CloseTabs [tab]] marked)
         /\ exists rest, trace m' = (trace m ++ CloseTabs [tab] :: rest)%list
     end.
Proof.
  intros key marked m'. subst m'.
  unfold PreviewManager.closeSourceEditor. unfold_machine. simpl.
  fold key. fold marked. split.
  - apply (closeSourceEditor_groups_shape host key (tabGroups_all host (hostState m)) marked).
  - apply (closeSourceEditor_groups_first host key (tabGroups_all host (hostState m)) marked).
Qed.

Lemma firstSourceTab_Some {H : Type} (host : Host H) (key : string) (h : H) (tab : Tab) :
  firstSourceTab host key h = Some tab ->
  exists group u,
    group ∈ tabGroups_all host h /\ tab ∈ group_tabs host h group /\
    input tab = TabInputText u /\ toString u = key.
Proof.
  intros (group & Hgroup & Hfind)%firstSome_Some.
  apply find_some in Hfind. destruct Hfind as [Htab Hsource].
  unfold isSourceOf in Hsource.
  destruct (input tab) as [u| | |] eqn:Hinput; try discriminate.
  apply String.eqb_eq in Hsource. apply list_elem_of_In in Htab.
  exists group, u. repeat split; assumption.
Qed.

(** The [try] block when the preview command is rejected. *)
Lemma openPreview_rejected {H : Type} (host : Host H) (config : ExtensionConfig)
    (command : string) (doc : TextDocument) (m : Machine H) :
  let m1 := if previewOnlyMode config
            then exec (PreviewManager.closeAllMarkdownPreviews host) m else m in
  let opened := executeCommand host command (uri doc) (hostState m1) in
  opened.1 = Rejected ->
  PreviewManager.openPreview host config command doc m
  = (Rejected, set_host opened.2 [ExecuteCommand command (uri doc)] m1).
Proof.
  intros m1 opened Hrejected. subst m1 opened.
  unfold PreviewManager.openPreview. unfold_machine.
  destruct (previewOnlyMode config).
  - destruct (PreviewManager.closeAllMarkdownPreviews host m) as [[] m1]. simpl in *.
    destruct (executeCommand host command (uri doc) (hostState m1)) as [[] h2];
      [discriminate | reflexivity].
  - simpl in *.
    destruct (executeCommand host command (uri doc) (hostState m)) as [[] h2];
      [discriminate | reflexivity].
Qed.

(** The [try] block in preview-only mode. *)
Lemma openPreview_reader {H : Type} (host : Host H) (config : ExtensionConfig)
    (command : string) (doc : TextDocument) (m : Machine H) :
  previewOnlyMode config = true ->
  let m1 := exec (PreviewManager.closeAllMarkdownPreviews host) m in
  let opened := executeCommand host command (uri doc) (hostState m1) in
  let m2 := set_host opened.2 [ExecuteCommand command (uri doc)] m1 in
  PreviewManager.openPreview host config command doc m
  = match opened.1 with
    | Rejected => (Rejected, m2)
    | Resolved => (Resolved, exec (PreviewManager.closeSourceEditor host (uri doc)) m2)
    end.
Proof.
  intros Hmode m1 opened m2. subst m1 opened m2.
  unfold PreviewManager.openPreview. unfold_machine. rewrite Hmode.
  destruct (PreviewManager.closeAllMarkdownPreviews host m) as [[] m1]. simpl.
  destruct (executeCommand host command (uri doc) (hostState m1)) as [[] h2]; simpl;
    [|reflexivity].
  destruct (PreviewManager.closeSourceEditor host (uri doc) _) as [[] m3]. reflexivity.
Qed.

Lemma closeAllMarkdownPreviews_frame {H : Type} (host : Host H) (m : Machine H) :
  let m1 := exec (PreviewManager.closeAllMarkdownPreviews host) m in
  _config m1 = _config m
  /\ _openedPreviews m1 = _openedPreviews m
  /\ _previewOnlyClosedUris m1 = _previewOnlyClosedUris m.
Proof.
  intros m1. subst m1. rewrite closeAllMarkdownPreviews_exec.
  destruct (markupPreviews host (hostState m)); repeat split.
Qed.

(** C9.  When the preview command is rejected, [openPreviewIfNeeded] ends
    with the set of opened previews it started with: the document is not
    tracked, the source editor is neither closed nor marked, and the guards
    evaluate in every later host state as they did before the attempt, so a
    later open event runs the command again. *)
Theorem failed_open_restores_tracking `{RT : Runtime} {H : Type}
    (host : Host H) (doc : TextDocument) (languageId : SupportedLanguage)
    (m : Machine H) :
  passesGuards host doc languageId m ->
  let key := toString (uri doc) in
  let command := previewCommand (_config m) languageId in
  let m1 := if previewOnlyMode (_config m)
            then exec (PreviewManager.closeAllMarkdownPreviews host) m else m in
  (executeCommand host command (uri doc) (hostState m1)).1 = Rejected ->
  let m' := exec (PreviewManager.openPreviewIfNeeded host doc) m in
  trace m' = (trace m1 ++ [ExecuteCommand command (uri doc)])%list
  /\ _openedPreviews m' = _openedPreviews m
  /\ (key ∉ _openedPreviews m')
  /\ _previewOnlyClosedUris m' = _previewOnlyClosedUris m
  /\ (forall h, passesGuards host doc languageId (set_hostState h m')
                <-> passesGuards host doc languageId (set_hostState h m)).
Proof.
  intros Hguards key command m1 Hrejected m'. subst m'.
  pose proof Hguards as (Hnotin & _).
  unfold exec. rewrite (openPreviewIfNeeded_attempt host doc languageId m Hguards).
  fold key. fold command. cbv zeta.
  assert (Hm1 : (if previewOnlyMode (_config m)
                 then exec (PreviewManager.closeAllMarkdownPreviews host)
                        (set_openedPreviews (fun s => {[key]} ∪ s) m)
                 else set_openedPreviews (fun s => {[key]} ∪ s) m)
                = set_openedPreviews (fun s => {[key]} ∪ s) m1).
  { subst m1. destruct (previewOnlyMode (_config m)); [|reflexivity].
    rewrite !closeAllMarkdownPreviews_exec. simpl.
    destruct (markupPreviews host (hostState m)); reflexivity. }
  pose proof (openPreview_rejected host (_config m) command doc
                (set_openedPreviews (fun s => {[key]} ∪ s) m)) as Hopen.
  cbv zeta in Hopen. rewrite Hm1 in Hopen. simpl in Hopen.
  rewrite (Hopen Hrejected). simpl.
  assert (Hframe : _config m1 = _config m
                   /\ _openedPreviews m1 = _openedPreviews m
                   /\ _previewOnlyClosedUris m1 = _previewOnlyClosedUris m).
  { subst m1. destruct (previewOnlyMode (_config m)); [|repeat split].
    apply closeAllMarkdownPreviews_frame. }
  destruct Hframe as (Hconfig & Hopened & Hmarks).
  assert (Hrestored : ({[key]} ∪ _openedPreviews m1) ∖ {[key]} = _openedPreviews m).
  { rewrite Hopened. apply add_remove_untracked. exact Hnotin. }
  split; [reflexivity |]. split; [exact Hrestored |].
  split; [rewrite Hrestored; exact Hnotin |]. split; [exact Hmarks |].
  intros h. unfold passesGuards. simpl. rewrite Hrestored, Hconfig. reflexivity.
Qed.

Lemma failed_open_restores_tracking_witness :
  let w := Editor.withoutCommands (Editor.editing Editor.defaults) in
  let m := Editor.started (RT := Js.ascii_runtime) w in
  let m' := exec (PreviewManager.openPreviewIfNeeded (RT := Js.ascii_runtime)
                    Editor.host Editor.readmeDoc) m in
  passesGuards (RT := Js.ascii_runtime) Editor.host Editor.readmeDoc markdown m
  /\ trace m' = [ExecuteCommand "markdown.showPreviewToSide" Editor.readme]
  /\ _openedPreviews m' = _openedPreviews m.
Proof.
  intros w m m'.
  assert (Hguards : passesGuards (RT := Js.ascii_runtime)
                      Editor.host Editor.readmeDoc markdown m).
  { split; [|split; [|split]].
    - intros Hin. apply (bool_decide_pack _) in Hin. vm_compute in Hin. exact Hin.
    - right. vm_compute. reflexivity.
    - right. split; vm_compute; reflexivity.
    - vm_compute. reflexivity. }
  split; [exact Hguards |].
  pose proof (failed_open_restores_tracking (RT := Js.ascii_runtime)
                Editor.host Editor.readmeDoc markdown m Hguards eq_refl)
    as (Htrace & Hopened & _).
  split; [exact Htrace | exact Hopened].
Defined.

(** C2, as the code has it.  In preview-only mode, when [openPreviewIfNeeded]
    gets past its guards, it first asks, in one request, to close every open
    webview tab that is a markup preview (view type of one of the three
    previews, or label starting with "Preview "; no request when there is
    none), then executes the preview command; when the command is rejected
    the document is untracked and nothing more is sent; when it resolves, the
    URI is marked as closed by preview-only mode and the first source tab of
    the document is asked to close, which ends the sequence when that close
    resolves; later requests, if any, close further source tabs of the
    document. *)
Theorem reader_mode_open `{RT : Runtime} {H : Type}
    (host : Host H) (doc : TextDocument) (languageId : SupportedLanguage)
    (m : Machine H) :
  passesGuards host doc languageId m ->
  previewOnlyMode (_config m) = true ->
  let key := toString (uri doc) in
  let command := previewCommand (_config m) languageId in
  let previews := markupPreviews host (hostState m) in
  let closing := match previews with [] => [] | _ => [CloseTabs previews] end in
  let h1 := match previews with
            | [] => hostState m
            | _ => (tabGroups_close host previews (hostState m)).2
            end in
  let opened := executeCommand host command (uri doc) h1 in
  let m' := exec (PreviewManager.openPreviewIfNeeded host doc) m in
  (forall tab,
      tab ∈ previews <->
      exists group viewType,
        group ∈ tabGroups_all host (hostState m) /\
        tab ∈ group_tabs host (hostState m) group /\
        input tab = TabInputWebview viewType /\
        (viewType ∈ PreviewManager.previewViewTypes
         \/ exists rest, label tab = "Preview " +:+ rest))
  /\ match opened.1 with
     | Rejected =>
         trace m' = (trace m ++ closing ++ [ExecuteCommand command (uri doc)])%list
         /\ _openedPreviews m' = _openedPreviews m
         /\ _previewOnlyClosedUris m' = _previewOnlyClosedUris m
     | Resolved =>
         key ∈ _openedPreviews m'
         /\ match firstSourceTab host key opened.2 with
            | None =>
                trace m' = (trace m ++ closing ++ [ExecuteCommand command (uri doc)])%list
                /\ key ∈ _previewOnlyClosedUris m'
            | Some tab =>
                (exists u, input tab = TabInputText u /\ toString u = key)
                /\ (exists rest,
                       trace m' = (trace m ++ closing
                                   ++ [ExecuteCommand command (uri doc); CloseTabs [tab]]
                                   ++ rest)%list
                       /\ Forall (fun a => exists tab',
                                     a = CloseTabs [tab'] /\ isSourceOf key tab' = true)
                                 rest)
                /\ ((tabGroups_close host [tab] opened.2).1 = Resolved ->
                    trace m' = (trace m ++ closing
                                ++ [ExecuteCommand command (uri doc); CloseTabs [tab]])%list
                    /\ key ∈ _previewOnlyClosedUris m')
            end
     end.
Proof.
  intros Hguards Hmode key command previews closing h1 opened m'.
  split.
  { intros tab. subst previews. rewrite markupPreviews_elem. split.
    - intros (group & Hgroup & Htab & Htest).
      apply isMarkupPreview_iff in Htest. destruct Htest as (viewType & Hinput & Hor).
      exists group, viewType. auto.
    - intros (group & viewType & Hgroup & Htab & Hinput & Hor).
      exists group. repeat split; try assumption.
      apply isMarkupPreview_iff. exists viewType. auto. }
  pose proof Hguards as (Hnotin & _).
  subst m'. unfold exec.
  rewrite (openPreviewIfNeeded_attempt host doc languageId m Hguards).
  fold key. fold command. cbv zeta.
  set (tracked := set_openedPreviews (fun s => {[key]} ∪ s) m).
  rewrite (openPreview_reader host (_config m) command doc tracked Hmode).
  assert (Hm1 : exec (PreviewManager.closeAllMarkdownPreviews host) tracked
                = set_host h1 closing tracked
                  \/ (closing = [] /\ h1 = hostState m /\
                      exec (PreviewManager.closeAllMarkdownPreviews host) tracked = tracked)).
  { rewrite closeAllMarkdownPreviews_exec. subst tracked h1 closing previews. simpl.
    destruct (markupPreviews host (hostState m)); [right | left]; auto. }
  assert (Hhost : hostState (exec (PreviewManager.closeAllMarkdownPreviews host) tracked) = h1
                  /\ trace (exec (PreviewManager.closeAllMarkdownPreviews host) tracked)
                     = (trace m ++ closing)%list
                  /\ _openedPreviews (exec (PreviewManager.closeAllMarkdownPreviews host) tracked)
                     = {[key]} ∪ _openedPreviews m
                  /\ _previewOnlyClosedUris
                       (exec (PreviewManager.closeAllMarkdownPreviews host) tracked)
                     = _previewOnlyClosedUris m).
  { destruct Hm1 as [-> | (-> & -> & ->)]; simpl; rewrite ?app_nil_r; auto. }
  clear Hm1. destruct Hhost as (Hh1 & Htr1 & Hop1 & Hmk1).
  set (m1 := exec (PreviewManager.closeAllMarkdownPreviews host) tracked) in *.
  cbv zeta. rewrite Hh1. fold opened.
  destruct (opened.1) eqn:Hopened; simpl.
  - pose proof (closeSourceEditor_exec host (uri doc)
                  (set_host opened.2 [ExecuteCommand command (uri doc)] m1))
      as [Hshape Hfirst].
    cbv zeta in Hshape, Hfirst. fold key in Hshape, Hfirst.
    destruct Hshape as (closes & Htrace & Hall & Hop & _ & _).
    simpl in Htrace, Hop, Hfirst. rewrite Hop1 in Hop. rewrite Htr1 in Htrace.
    split; [rewrite Hop; set_solver |].
    destruct (firstSourceTab host key opened.2) as [tab|] eqn:Hsource.
    + destruct Hfirst as [Hresolved [rest Hrest]]. rewrite Htr1 in Hrest.
      split; [|split].
      * apply firstSourceTab_Some in Hsource.
        destruct Hsource as (group & u & _ & _ & Hinput & Hkey). eauto.
      * exists rest. rewrite Hrest, <- !app_assoc. split; [reflexivity |].
        rewrite Htrace in Hrest. apply app_inv_head in Hrest. subst closes.
        inversion Hall; assumption.
      * intros Hsettled. rewrite (Hresolved Hsettled). simpl. rewrite Htr1, Hmk1.
        rewrite <- !app_assoc. split; [reflexivity | set_solver].
    + rewrite Hfirst. simpl. rewrite Htr1, Hmk1.
      rewrite <- !app_assoc. split; [reflexivity | set_solver].
  - simpl. rewrite Htr1, Hop1, Hmk1. rewrite <- !app_assoc.
    split; [reflexivity |]. split; [|reflexivity].
    apply add_remove_untracked. exact Hnotin.
Qed.

(** C2, as stated, fails.  In preview-only mode a supported document is
    opened (1) while it is shown in a diff editor with [openOnGitDiff] off:
    nothing is sent, no preview is opened; (2) while no extension provides
    the preview command: the command is sent and rejected, and the source
    editor stays open. *)
Lemma reader_mode_open_not_always :
  let events w := [(w, Extension.DidOpenTextDocument Editor.readmeDoc);
                   (w, Extension.PendingOpenElapsed (toString Editor.readme))] in
  let after w := Extension.run (RT := Js.ascii_runtime) Editor.host (events w)
                   (Editor.started (RT := Js.ascii_runtime) w) in
  let reviewing := Editor.reviewing Editor.readerMode [] in
  let unavailable := Editor.withoutCommands (Editor.editing Editor.readerMode) in
  PreviewManager.isSupportedDocument (RT := Js.ascii_runtime) Editor.readmeDoc = true
  /\ previewOnlyMode (_config (Editor.started (RT := Js.ascii_runtime) reviewing)) = true
  /\ trace (after reviewing) = []
  /\ previewOnlyMode (_config (Editor.started (RT := Js.ascii_runtime) unavailable)) = true
  /\ trace (after unavailable)
     = [ExecuteCommand "markdown.showPreviewToSide" Editor.readme].
Proof. repeat split; vm_compute; reflexivity. Qed.

Lemma reader_mode_open_witness :
  let m := Editor.started (RT := Js.ascii_runtime) (Editor.switching Editor.readerMode) in
  let m' := exec (PreviewManager.openPreviewIfNeeded (RT := Js.ascii_runtime)
                    Editor.host Editor.readmeDoc) m in
  passesGuards (RT := Js.ascii_runtime) Editor.host Editor.readmeDoc markdown m
  /\ previewOnlyMode (_config m) = true
  /\ trace m' = [CloseTabs [Editor.previewTab Editor.guide];
                 ExecuteCommand "markdown.showPreviewToSide" Editor.readme;
                 CloseTabs [Editor.readmeTab]]
  /\ toString Editor.readme ∈ _previewOnlyClosedUris m'.
Proof.
  intros m m'.
  assert (Hguards : passesGuards (RT := Js.ascii_runtime)
                      Editor.host Editor.readmeDoc markdown m).
  { split; [|split; [|split]].
    - intros Hin. apply (bool_decide_pack _) in Hin. vm_compute in Hin. exact Hin.
    - left. vm_compute. reflexivity.
    - right. split; vm_compute; reflexivity.
    - vm_compute. reflexivity. }
  split; [exact Hguards |]. split; [vm_compute; reflexivity |].
  pose proof (reader_mode_open (RT := Js.ascii_runtime)
                Editor.host Editor.readmeDoc markdown m Hguards eq_refl)
    as [_ Hrun].
  cbv zeta in Hrun.
  change ((executeCommand Editor.host
             (previewCommand (_config m) markdown) (uri Editor.readmeDoc)
             match markupPreviews Editor.host (hostState m) with
             | [] => hostState m
             | _ :: _ =>
                 (tabGroups_close Editor.host (markupPreviews Editor.host (hostState m))
                    (hostState m)).2
             end).1) with Resolved in Hrun.
  destruct Hrun as [_ Hrun].
  change (firstSourceTab Editor.host (toString (uri Editor.readmeDoc))
            (executeCommand Editor.host
               (previewCommand (_config m) markdown) (uri Editor.readmeDoc)
               match markupPreviews Editor.host (hostState m) with
               | [] => hostState m
               | _ :: _ =>
                   (tabGroups_close Editor.host (markupPreviews Editor.host (hostState m))
                      (hostState m)).2
               end).2) with (Some Editor.readmeTab) in Hrun.
  destruct Hrun as (_ & _ & Hrun).
  exact (Hrun eq_refl).
Defined.

(** ** previewManager.ts: auto-close on tab changes *)

Lemma forEach_app {H A : Type} (body : A -> M H unit) (l1 l2 : list A) (m : Machine H) :
  exec (forEach (l1 ++ l2) body) m = exec (forEach l2 body) (exec (forEach l1 body) m).
Proof.
  revert m. induction l1 as [|x l1 IH]; intros m; simpl; [reflexivity |].
  unfold exec, bind in *. destruct (body x m) as [[] m1]. apply IH.
Qed.

Lemma forEach_cons {H A : Type} (body : A -> M H unit) (x : A) (l : list A) (m : Machine H) :
  exec (forEach (x :: l) body) m = exec (forEach l body) (exec (body x) m).
Proof. simpl. unfold exec, bind. destruct (body x m) as [[] m1]. reflexivity. Qed.

Lemma handleClosedTab_exec `{RT : Runtime} {H : Type}
    (host : Host H) (tab : Tab) (m : Machine H) :
  exec (PreviewManager.handleClosedTab host tab) m
  = match input tab with
    | TabInputText u =>
        if TabTracker.isSupported u
        then if bool_decide (toString u ∈ _previewOnlyClosedUris m)
             then set_previewOnlyClosedUris (fun s => s ∖ {[toString u]}) m
             else set_openedPreviews (fun s => s ∖ {[toString u]})
                    (exec (TabTracker.closePreviewForFile host u) m)
        else m
    | _ => m
    end.
Proof.
  unfold PreviewManager.handleClosedTab.
  destruct (input tab) as [u| | |]; try reflexivity.
  destruct (TabTracker.isSupported u); [|reflexivity].
  unfold_machine. destruct (bool_decide _); [reflexivity |].
  destruct (TabTracker.closePreviewForFile host u m) as [? m1]. reflexivity.
Qed.

(** [closePreviewForFile] only touches the debounce map, the host and the
    trace, to which it adds at most a request to close a webview tab. *)
Lemma closePreviewForFile_frame `{RT : Runtime} {H : Type}
    (host : Host H) (u : Uri) (m : Machine H) :
  let m1 := exec (TabTracker.closePreviewForFile host u) m in
  _config m1 = _config m
  /\ _openedPreviews m1 = _openedPreviews m
  /\ _previewOnlyClosedUris m1 = _previewOnlyClosedUris m
  /\ exists closes, trace m1 = (trace m ++ closes)%list /\ Forall closesWebview closes.
Proof.
  intros m1. subst m1. unfold exec. rewrite closePreviewForFile_run. cbv zeta.
  destruct (_ <? 100).
  - simpl. repeat split. exists []. rewrite app_nil_r. split; [reflexivity | constructor].
  - destruct (TabTracker.findPreviewTab host u _) as [tab|] eqn:Hfind; simpl.
    + repeat split. exists [CloseTabs [tab]]. split; [reflexivity |].
      apply findPreviewTab_Some in Hfind.
      destruct Hfind as (group & viewType & languageId & _ & _ & Hinput & _).
      constructor; [|constructor]. exists tab, viewType. auto.
    + repeat split. exists []. rewrite app_nil_r. split; [reflexivity | constructor].
Qed.

(** What the loop of [handleTabChanges] may do to a machine. *)
Lemma handleClosedTab_frame `{RT : Runtime} {H : Type}
    (host : Host H) (tab : Tab) (m : Machine H) :
  let m1 := exec (PreviewManager.handleClosedTab host tab) m in
  _openedPreviews m1 ⊆ _openedPreviews m
  /\ _previewOnlyClosedUris m1 ⊆ _previewOnlyClosedUris m
  /\ exists closes, trace m1 = (trace m ++ closes)%list /\ Forall closesWebview closes.
Proof.
  intros m1. subst m1. rewrite handleClosedTab_exec.
  assert (Hsame : _openedPreviews m ⊆ _openedPreviews m
                  /\ _previewOnlyClosedUris m ⊆ _previewOnlyClosedUris m
                  /\ exists closes, trace m = (trace m ++ closes)%list
                                    /\ Forall closesWebview closes).
  { repeat split; try reflexivity. exists []. rewrite app_nil_r.
    split; [reflexivity | constructor]. }
  destruct (input tab) as [u| | |]; try exact Hsame.
  destruct (TabTracker.isSupported u); [|exact Hsame].
  destruct (bool_decide _).
  - simpl. split; [reflexivity |]. split; [set_solver |].
    exists []. rewrite app_nil_r. split; [reflexivity | constructor].
  - pose proof (closePreviewForFile_frame host u m) as (_ & Hopened & Hmarks & Htrace).
    simpl. rewrite Hopened, Hmarks. split; [set_solver |]. split; [reflexivity |].
    exact Htrace.
Qed.

Lemma closed_tabs_frame `{RT : Runtime} {H : Type}
    (host : Host H) (closed : list Tab) (m : Machine H) :
  let m1 := exec (forEach closed (PreviewManager.handleClosedTab host)) m in
  _openedPreviews m1 ⊆ _openedPreviews m
  /\ _previewOnlyClosedUris m1 ⊆ _previewOnlyClosedUris m
  /\ exists closes, trace m1 = (trace m ++ closes)%list /\ Forall closesWebview closes.
Proof.
  revert m. induction closed as [|tab closed IH]; intros m.
  - simpl. repeat split; try reflexivity. exists []. rewrite app_nil_r.
    split; [reflexivity | constructor].
  - cbv zeta. rewrite forEach_cons.
    pose proof (handleClosedTab_frame host tab m) as (Ho1 & Hm1 & closes1 & Ht1 & Hf1).
    pose proof (IH (exec (PreviewManager.handleClosedTab host tab) m))
      as (Ho2 & Hm2 & closes2 & Ht2 & Hf2).
    split; [set_solver |]. split; [set_solver |].
    exists (closes1 ++ closes2)%list. rewrite Ht2, Ht1, <- app_assoc.
    split; [reflexivity | apply Forall_app; auto].
Qed.

(** A key that is not marked and belongs to a closed source tab is untracked
    by the loop; so is a key that was not tracked. *)
Lemma closed_tabs_untrack `{RT : Runtime} {H : Type}
    (host : Host H) (key : string) (closed : list Tab) (m : Machine H) :
  key ∉ _previewOnlyClosedUris m ->
  key ∉ _openedPreviews m \/ (exists tab, tab ∈ closed /\ closedSource key tab) ->
  key ∉ _openedPreviews (exec (forEach closed (PreviewManager.handleClosedTab host)) m).
Proof.
  revert m. induction closed as [|tab closed IH]; intros m Hunmarked Hor.
  - simpl. destruct Hor as [Hnotin | (tab & Htab & _)]; [exact Hnotin | inversion Htab].
  - rewrite forEach_cons.
    pose proof (handleClosedTab_frame host tab m) as (Ho1 & Hm1 & _).
    apply IH; [set_solver |].
    destruct Hor as [Hnotin | (tab' & [-> | Htab']%elem_of_cons & Hsource)].
    + left. set_solver.
    + left. destruct Hsource as (u & Hinput & Hsupported & <-).
      rewrite handleClosedTab_exec, Hinput, Hsupported.
      rewrite (bool_decide_eq_false_2 _ Hunmarked). simpl. set_solver.
    + right. eauto.
Qed.

(** Only the keys of closed source tabs are untracked by the loop. *)
Lemma closed_tabs_untracked_source `{RT : Runtime} {H : Type}
    (host : Host H) (key : string) (closed : list Tab) (m : Machine H) :
  key ∈ _openedPreviews m ->
  key ∉ _openedPreviews (exec (forEach closed (PreviewManager.handleClosedTab host)) m) ->
  exists tab, tab ∈ closed /\ closedSource key tab.
Proof.
  revert m. induction closed as [|tab closed IH]; intros m Hin Hnotin;
    [destruct (Hnotin Hin) |].
  rewrite forEach_cons in Hnotin.
  destruct (decide (key ∈ _openedPreviews
                            (exec (PreviewManager.handleClosedTab host tab) m)))
    as [Hkept|Hgone].
  - destruct (IH _ Hkept Hnotin) as (tab' & Htab' & Hsource).
    exists tab'. split; [right; exact Htab' | exact Hsource].
  - exists tab. split; [left |].
    rewrite handleClosedTab_exec in Hgone.
    destruct (input tab) as [u| | |] eqn:Hinput; try (destruct (Hgone Hin)).
    destruct (TabTracker.isSupported u) eqn:Hsupported; [|destruct (Hgone Hin)].
    destruct (bool_decide _); [destruct (Hgone Hin) |].
    pose proof (closePreviewForFile_frame host u m) as (_ & Hopened & _).
    simpl in Hgone. rewrite Hopened in Hgone.
    exists u. repeat split; try reflexivity; try assumption.
    destruct (decide (toString u = key)) as [Heq|Hne]; [exact Heq |].
    exfalso. apply Hgone. set_solver.
Qed.

(** The key of a closed source tab is not marked after the loop. *)
Lemma closed_tabs_unmark `{RT : Runtime} {H : Type}
    (host : Host H) (key : string) (closed : list Tab) (m : Machine H) :
  key ∉ _previewOnlyClosedUris m \/ (exists tab, tab ∈ closed /\ closedSource key tab) ->
  key ∉ _previewOnlyClosedUris
          (exec (forEach closed (PreviewManager.handleClosedTab host)) m).
Proof.
  revert m. induction closed as [|tab closed IH]; intros m Hor.
  - simpl. destruct Hor as [Hnotin | (tab & Htab & _)]; [exact Hnotin | inversion Htab].
  - rewrite forEach_cons.
    pose proof (handleClosedTab_frame host tab m) as (_ & Hm1 & _).
    apply IH.
    destruct Hor as [Hnotin | (tab' & [-> | Htab']%elem_of_cons & Hsource)].
    + left. set_solver.
    + left. destruct Hsource as (u & Hinput & Hsupported & <-).
      rewrite handleClosedTab_exec, Hinput, Hsupported.
      destruct (bool_decide (toString u ∈ _previewOnlyClosedUris m)) eqn:Hmarked.
      * simpl. set_solver.
      * apply bool_decide_eq_false in Hmarked.
        pose proof (closePreviewForFile_frame host u m) as (_ & _ & Hmarks & _).
        simpl. rewrite Hmarks. exact Hmarked.
    + right. eauto.
Qed.

(** After its loop, [handleTabChanges] only draws a random number and may
    clean the debounce map. *)
Lemma handleTabChanges_exec `{RT : Runtime} {H : Type}
    (host : Host H) (closed : list Tab) (m : Machine H) :
  enabled (_config m) = true ->
  autoClosePreview (_config m) = true ->
  exists (h : H) (f : gmap string Z -> gmap string Z),
    exec (PreviewManager.handleTabChanges host closed) m
    = set_lastProcessedClose f
        (set_hostState h (exec (forEach closed (PreviewManager.handleClosedTab host)) m)).
Proof.
  intros Henabled Hauto.
  unfold PreviewManager.handleTabChanges, TabTracker.cleanupDebounceMap. unfold_machine.
  rewrite Henabled, Hauto. simpl.
  destruct (forEach closed (PreviewManager.handleClosedTab host) m) as [[] m1]. simpl.
  destruct (Math_random host (hostState m1)) as [random h1]. simpl.
  destruct (negb (Qle_bool PreviewManager.one_tenth random)); simpl.
  - destruct (Date_now host h1) as [now h2]. simpl.
    eexists h2, _. reflexivity.
  - exists h1, (fun map => map). destruct m1; reflexivity.
Qed.



(** ** The requests of one open attempt *)

Lemma opensOf_app (key : string) (l1 l2 : list Action) :
  opensOf key (l1 ++ l2) = (opensOf key l1 + opensOf key l2)%nat.
Proof. unfold opensOf. rewrite List.filter_app, length_app. reflexivity. Qed.

Lemma opensOf_no_command (key : string) (sent : list Action) :
  Forall (fun a => isCommand a = false) sent -> opensOf key sent = 0%nat.
Proof.
  unfold opensOf. induction 1 as [|a sent Ha _ IH]; [reflexivity |].
  simpl. destruct a; simpl in *; try discriminate; exact IH.
Qed.

Lemma closesWebview_no_command (sent : list Action) :
  Forall closesWebview sent -> Forall (fun a => isCommand a = false) sent.
Proof.
  intros Hall. eapply Forall_impl; [exact Hall |].
  intros a (tab & viewType & -> & _). reflexivity.
Qed.

Lemma closeAllMarkdownPreviews_sent {H : Type} (host : Host H) (m : Machine H) :
  let m1 := exec (PreviewManager.closeAllMarkdownPreviews host) m in
  exists sent, trace m1 = (trace m ++ sent)%list
               /\ Forall (fun a => isCommand a = false) sent.
Proof.
  intros m1. subst m1. rewrite closeAllMarkdownPreviews_exec.
  destruct (markupPreviews host (hostState m)) as [|tab tabs].
  - exists []. rewrite app_nil_r. split; [reflexivity | constructor].
  - exists [CloseTabs (tab :: tabs)]. split; [reflexivity |].
    constructor; [reflexivity | constructor].
Qed.

Lemma closeSourceEditor_sent {H : Type} (host : Host H) (u : Uri) (m : Machine H) :
  let m1 := exec (PreviewManager.closeSourceEditor host u) m in
  _openedPreviews m1 = _openedPreviews m
  /\ exists sent, trace m1 = (trace m ++ sent)%list
                  /\ Forall (fun a => isCommand a = false) sent.
Proof.
  intros m1.
  pose proof (closeSourceEditor_exec host u m) as [(closes & Htrace & Hall & Hop & _) _].
  fold m1 in Htrace, Hop. simpl in Htrace, Hop.
  split; [exact Hop |].
  exists closes. split; [exact Htrace |].
  eapply Forall_impl; [exact Hall |]. intros a (tab & -> & _). reflexivity.
Qed.

(** The [try] block outside preview-only mode. *)
Lemma openPreview_editor {H : Type} (host : Host H) (config : ExtensionConfig)
    (command : string) (doc : TextDocument) (m : Machine H) :
  previewOnlyMode config = false ->
  let opened := executeCommand host command (uri doc) (hostState m) in
  let m2 := set_host opened.2 [ExecuteCommand command (uri doc)] m in
  PreviewManager.openPreview host config command doc m
  = match opened.1 with
    | Rejected => (Rejected, m2)
    | Resolved =>
        match (if preserveFocus config
               then PreviewManager.focusTarget (activeTextEditor host (hostState m))
               else None) with
        | Some (source, column) =>
            let h3 := setTimeout_elapsed host 50 opened.2 in
            let shown := showTextDocument host source column h3 in
            (shown.1,
             set_host shown.2 [ShowTextDocument source column] (set_hostState h3 m2))
        | None => (Resolved, m2)
        end
    end.
Proof.
  intros Hmode opened m2. subst opened m2.
  unfold PreviewManager.openPreview. unfold_machine. rewrite Hmode. simpl.
  destruct (executeCommand host command (uri doc) (hostState m)) as [[] h2]; simpl;
    [|reflexivity].
  destruct (preserveFocus config); [|reflexivity].
  destruct (PreviewManager.focusTarget _) as [[source column]|]; [|reflexivity].
  simpl. destruct (showTextDocument host source column _) as [shown h4]. reflexivity.
Qed.

(** The [try] block sends the preview command of the document once, between
    requests that are not commands, and does not touch the opened previews;
    on a reliable host it does not throw. *)
Lemma openPreview_sent {H : Type} (host : Host H) (config : ExtensionConfig)
    (command : string) (doc : TextDocument) (m : Machine H) :
  let attempt := PreviewManager.openPreview host config command doc m in
  _openedPreviews attempt.2 = _openedPreviews m
  /\ (exists before after,
         trace attempt.2
         = (trace m ++ before ++ ExecuteCommand command (uri doc) :: after)%list
         /\ Forall (fun a => isCommand a = false) before
         /\ Forall (fun a => isCommand a = false) after)
  /\ (reliable host -> attempt.1 = Resolved).
Proof.
  intros attempt. subst attempt.
  destruct (previewOnlyMode config) eqn:Hmode.
  - rewrite (openPreview_reader host config command doc m Hmode). cbv zeta.
    pose proof (closeAllMarkdownPreviews_sent host m) as (before & Htr1 & Hbefore).
    pose proof (closeAllMarkdownPreviews_frame host m) as (_ & Hop1 & _).
    set (m1 := exec (PreviewManager.closeAllMarkdownPreviews host) m) in *.
    destruct (executeCommand host command (uri doc) (hostState m1)) as [[] h2] eqn:Hcmd;
      simpl.
    + pose proof (closeSourceEditor_sent host (uri doc)
                    (set_host h2 [ExecuteCommand command (uri doc)] m1))
        as (Hop2 & after & Htr2 & Hafter).
      simpl in Hop2, Htr2. split; [congruence |]. split; [|reflexivity].
      exists before, after. rewrite Htr2, Htr1, <- !app_assoc. auto.
    + split; [exact Hop1 |]. split.
      * exists before, []. rewrite Htr1, <- !app_assoc. auto.
      * intros [Hcommands _]. specialize (Hcommands command (uri doc) (hostState m1)).
        rewrite Hcmd in Hcommands. discriminate.
  - rewrite (openPreview_editor host config command doc m Hmode). cbv zeta.
    destruct (executeCommand host command (uri doc) (hostState m)) as [[] h2] eqn:Hcmd;
      simpl.
    + destruct (if preserveFocus config then _ else None) as [[source column]|]; simpl.
      * split; [reflexivity |]. split.
        -- exists [], [ShowTextDocument source column]. rewrite <- !app_assoc.
           repeat split; repeat constructor.
        -- intros [_ Hshows]. apply Hshows.
      * split; [reflexivity |]. split; [|reflexivity].
        exists [], []. repeat split; constructor.
    + split; [reflexivity |]. split.
      * exists [], []. repeat split; constructor.
      * intros [Hcommands _]. specialize (Hcommands command (uri doc) (hostState m)).
        rewrite Hcmd in Hcommands. discriminate.
Qed.

(** One call of [openPreviewIfNeeded]: a tracked document is left alone;
    otherwise at most one preview command is sent, for this document, and on
    a reliable host the document is tracked when it was sent; no other key
    enters or leaves the opened previews. *)
Lemma openPreviewIfNeeded_sent `{RT : Runtime} {H : Type}
    (host : Host H) (doc : TextDocument) (m : Machine H) :
  let key := toString (uri doc) in
  let m' := exec (PreviewManager.openPreviewIfNeeded host doc) m in
  (forall other, other <> key -> other ∈ _openedPreviews m' <-> other ∈ _openedPreviews m)
  /\ (key ∈ _openedPreviews m -> m' = m)
  /\ exists sent,
       trace m' = (trace m ++ sent)%list
       /\ (forall other, other <> key -> opensOf other sent = 0%nat)
       /\ (opensOf key sent <= 1)%nat
       /\ (reliable host -> opensOf key sent = 1%nat -> key ∈ _openedPreviews m').
Proof.
  intros key m'.
  assert (Htracked : key ∈ _openedPreviews m -> m' = m).
  { intros Hin. subst m'. unfold exec.
    rewrite (openPreviewIfNeeded_tracked host doc m Hin). reflexivity. }
  enough (Hmain :
            (forall other, other <> key ->
               other ∈ _openedPreviews m' <-> other ∈ _openedPreviews m)
            /\ exists sent,
                 trace m' = (trace m ++ sent)%list
                 /\ (forall other, other <> key -> opensOf other sent = 0%nat)
                 /\ (opensOf key sent <= 1)%nat
                 /\ (reliable host -> opensOf key sent = 1%nat ->
                     key ∈ _openedPreviews m')).
  { destruct Hmain as [Hothers Hsent]. auto. }
  assert (Hquiet : forall m1 : Machine H,
             m' = m1 -> trace m1 = trace m ->
             (forall other, other <> key ->
                other ∈ _openedPreviews m1 <-> other ∈ _openedPreviews m) ->
             (forall other, other <> key ->
                other ∈ _openedPreviews m' <-> other ∈ _openedPreviews m)
             /\ exists sent,
                  trace m' = (trace m ++ sent)%list
                  /\ (forall other, other <> key -> opensOf other sent = 0%nat)
                  /\ (opensOf key sent <= 1)%nat
                  /\ (reliable host -> opensOf key sent = 1%nat ->
                      key ∈ _openedPreviews m')).
  { intros m1 -> Htrace Hothers. split; [exact Hothers |].
    exists []. rewrite app_nil_r. split; [exact Htrace |].
    split; [reflexivity |]. split; [apply Nat.le_0_1 |]. discriminate. }
  destruct (openPreviewIfNeeded_cases host doc m)
    as [Hsame | [Hadded | [languageId Hguards]]].
  - apply (Hquiet m Hsame); [reflexivity | tauto].
  - apply (Hquiet _ Hadded); [reflexivity |]. intros other Hother. simpl. set_solver.
  - subst m'. unfold exec.
    rewrite (openPreviewIfNeeded_attempt host doc languageId m Hguards).
    fold key. cbv zeta.
    pose proof (openPreview_sent host (_config m) (previewCommand (_config m) languageId)
                  doc (set_openedPreviews (fun s => {[key]} ∪ s) m))
      as (Hopened & (before & after & Htrace & Hbefore & Hafter) & Hreliable).
    simpl in Hopened, Htrace.
    set (attempt := PreviewManager.openPreview host _ _ doc _) in *.
    assert (Hcount : forall k,
               opensOf k (before ++ ExecuteCommand (previewCommand (_config m) languageId)
                                      (uri doc) :: after)
               = if String.eqb key k then 1%nat else 0%nat).
    { intros k. rewrite opensOf_app, (opensOf_no_command k before Hbefore).
      change (ExecuteCommand ?c ?u :: after) with ([ExecuteCommand c u] ++ after)%list.
      rewrite opensOf_app, (opensOf_no_command k after Hafter).
      unfold opensOf. simpl. fold key. destruct (String.eqb key k); reflexivity. }
    assert (Hsent : exists sent,
               trace attempt.2 = (trace m ++ sent)%list
               /\ (forall other, other <> key -> opensOf other sent = 0%nat)
               /\ (opensOf key sent <= 1)%nat).
    { eexists. split; [exact Htrace |]. split.
      - intros other Hother. rewrite Hcount.
        destruct (String.eqb_spec key other); congruence.
      - rewrite Hcount, String.eqb_refl. reflexivity. }
    destruct Hsent as (sent & Hsent & Hothers & Hle).
    destruct (attempt.1) eqn:Houtcome; simpl.
    + split; [intros other Hother; rewrite Hopened; set_solver |].
      exists sent. repeat split; try assumption.
      intros _ _. rewrite Hopened. set_solver.
    + split; [intros other Hother; rewrite Hopened; set_solver |].
      exists sent. repeat split; try assumption.
      intros Hhost _. specialize (Hreliable Hhost). congruence.
Qed.


(** ** The handlers, event by event *)

Lemma handleDocumentOpen_exec `{RT : Runtime} {H : Type}
    (doc : TextDocument) (m : Machine H) :
  exec (PreviewManager.handleDocumentOpen doc) m = m
  \/ exec (PreviewManager.handleDocumentOpen doc) m
     = set_pendingOpens <[toString (uri doc) := doc]> m.
Proof.
  unfold PreviewManager.handleDocumentOpen, ConfigManager.isLanguageEnabled.
  unfold_machine.
  destruct (enabled (_config m)); [|left; reflexivity]. simpl.
  destruct (PreviewManager.isSupportedDocument doc); [|left; reflexivity]. simpl.
  destruct (PreviewManager.getLanguageId doc); [|left; reflexivity].
  destruct (bool_decide _); [right | left]; reflexivity.
Qed.

Lemma pendingOpenElapsed_exec `{RT : Runtime} {H : Type}
    (host : Host H) (key : string) (m : Machine H) :
  exec (PreviewManager.pendingOpenElapsed host key) m
  = match _pendingOpens m !! key with
    | None => m
    | Some doc =>
        exec (PreviewManager.openPreviewIfNeeded host doc)
             (set_pendingOpens (delete key) m)
    end.
Proof.
  unfold PreviewManager.pendingOpenElapsed. unfold_machine.
  destruct (_pendingOpens m !! key); reflexivity.
Qed.

Lemma handleEditorActivation_exec `{RT : Runtime} {H : Type}
    (host : Host H) (editor : TextEditor) (m : Machine H) :
  exec (PreviewManager.handleEditorActivation host editor) m = m
  \/ ((toString (uri (document editor)) ∉ _openedPreviews m)
      /\ exec (PreviewManager.handleEditorActivation host editor) m
         = exec (PreviewManager.openPreviewIfNeeded host (document editor)) m).
Proof.
  unfold PreviewManager.handleEditorActivation, ConfigManager.isLanguageEnabled.
  unfold_machine.
  destruct (enabled (_config m)); [|left; reflexivity]. simpl.
  destruct (previewOnlyMode (_config m)); [left; reflexivity |].
  destruct (PreviewManager.isSupportedDocument (document editor)); [|left; reflexivity].
  simpl.
  destruct (PreviewManager.getLanguageId (document editor)); [|left; reflexivity].
  destruct (bool_decide (languageName _ ∈ _)); [|left; reflexivity]. simpl.
  destruct (bool_decide (is_Some _)); [left; reflexivity |]. simpl.
  destruct (bool_decide (_ ∈ _openedPreviews m)) eqn:Htracked; [left; reflexivity |].
  apply bool_decide_eq_false in Htracked.
  destruct (TabTracker.isPreviewOpen host _ _); [left; reflexivity |].
  right. split; [exact Htracked | reflexivity].
Qed.

Lemma handleTabChanges_sent `{RT : Runtime} {H : Type}
    (host : Host H) (closed : list Tab) (m : Machine H) :
  let m1 := exec (PreviewManager.handleTabChanges host closed) m in
  (exists sent, trace m1 = (trace m ++ sent)%list /\ Forall closesWebview sent)
  /\ _openedPreviews m1 ⊆ _openedPreviews m
  /\ (forall key, key ∈ _openedPreviews m -> key ∉ _openedPreviews m1 ->
                  exists tab, tab ∈ closed /\ closedSource key tab).
Proof.
  intros m1.
  destruct (enabled (_config m) && autoClosePreview (_config m)) eqn:Hon.
  - apply andb_true_iff in Hon. destruct Hon as [Henabled Hauto].
    destruct (handleTabChanges_exec host closed m Henabled Hauto) as (h & f & Hexec).
    fold m1 in Hexec. rewrite Hexec. simpl.
    pose proof (closed_tabs_frame host closed m) as (Hsubset & _ & Hsent).
    split; [exact Hsent |]. split; [exact Hsubset |].
    intros key. apply closed_tabs_untracked_source.
  - assert (Hsame : m1 = m).
    { subst m1. unfold PreviewManager.handleTabChanges. unfold_machine.
      destruct (enabled (_config m)); [|reflexivity].
      destruct (autoClosePreview (_config m)); [discriminate | reflexivity]. }
    rewrite Hsame. split; [|split; [reflexivity | tauto]].
    exists []. rewrite app_nil_r. split; [reflexivity | constructor].
Qed.

Lemma onDidChangeConfiguration_exec `{RT : Runtime} {H : Type}
    (host : Host H) (affects : bool) (m : Machine H) :
  let m1 := exec (ConfigManager.onDidChangeConfiguration host affects) m in
  trace m1 = trace m
  /\ _openedPreviews m1 = _openedPreviews m
  /\ _pendingOpens m1 = _pendingOpens m
  /\ startupTimer m1 = startupTimer m.
Proof. destruct affects; repeat split. Qed.

Lemma openPreviewForActiveEditor_exec `{RT : Runtime} {H : Type}
    (host : Host H) (m : Machine H) :
  exec (PreviewManager.openPreviewForActiveEditor host) m = m
  \/ exists editor,
       activeTextEditor host (hostState m) = Some editor
       /\ exec (PreviewManager.openPreviewForActiveEditor host) m
          = exec (PreviewManager.openPreviewIfNeeded host (document editor))
                 (set_openedPreviews
                    (fun s => s ∖ {[toString (uri (document editor))]}) m).
Proof.
  unfold PreviewManager.openPreviewForActiveEditor. unfold_machine.
  destruct (activeTextEditor host (hostState m)) as [editor|]; [|left; reflexivity].
  destruct (PreviewManager.isSupportedDocument (document editor)); [|left; reflexivity].
  right. exists editor. split; [reflexivity |]. simpl.
  destruct (PreviewManager.openPreviewIfNeeded host (document editor) _). reflexivity.
Qed.

(** The callback of the startup timer, once the timer flag is cleared. *)
Lemma processExistingDocuments_exec `{RT : Runtime} {H : Type}
    (host : Host H) (m : Machine H) :
  exec (Extension.processExistingDocuments host) m = m
  \/ exists editor,
       activeTextEditor host (hostState m) = Some editor
       /\ activated m = true
       /\ exec (Extension.processExistingDocuments host) m
          = exec (PreviewManager.openPreviewIfNeeded host (document editor))
                 (set_openedPreviews
                    (fun s => s ∖ {[toString (uri (document editor))]}) m).
Proof.
  unfold Extension.processExistingDocuments. unfold_machine.
  destruct (activeTextEditor host (hostState m)) as [editor|] eqn:Heditor;
    [|left; reflexivity].
  destruct (Js.array_includes _ _); [|left; reflexivity]. simpl.
  destruct (activated m) eqn:Hactivated; [|left; reflexivity].
  destruct (openPreviewForActiveEditor_exec host m) as [Hsame | (editor' & Heq & Hexec)].
  - left. unfold exec in Hsame.
    destruct (PreviewManager.openPreviewForActiveEditor host m) as [[] m1].
    simpl in *. congruence.
  - right. exists editor. rewrite Heditor in Heq. injection Heq as <-.
    split; [reflexivity |]. split; [reflexivity |]. unfold exec in Hexec.
    destruct (PreviewManager.openPreviewForActiveEditor host m) as [[] m1].
    simpl in *. exact Hexec.
Qed.

(** ** Tracking across events *)

(** The handler that runs for each event. *)
Lemma deliver_exec `{RT : Runtime} {H : Type}
    (host : Host H) (m : Machine H) (h : H) (ev : Extension.Event) :
  Extension.deliver host m (h, ev)
  = let m0 := set_hostState h m in
    match ev with
    | Extension.Activate => exec (Extension.activate host) m0
    | Extension.StartupTimerElapsed =>
        if startupTimer m
        then exec (Extension.processExistingDocuments host)
                  (set_lifecycle (activated m) false m0)
        else m0
    | Extension.DidOpenTextDocument doc =>
        if activated m then exec (PreviewManager.handleDocumentOpen doc) m0 else m0
    | Extension.PendingOpenElapsed key =>
        exec (PreviewManager.pendingOpenElapsed host key) m0
    | Extension.DidChangeTabs closed =>
        if activated m then exec (PreviewManager.handleTabChanges host closed) m0 else m0
    | Extension.DidChangeActiveTextEditor (Some editor) =>
        if activated m
        then exec (PreviewManager.handleEditorActivation host editor) m0 else m0
    | Extension.DidChangeActiveTextEditor None => m0
    | Extension.DidCloseTextDocument doc =>
        if activated m
        then set_openedPreviews (fun s => s ∖ {[toString (uri doc)]}) m0 else m0
    | Extension.DidChangeConfiguration affects =>
        if activated m
        then exec (ConfigManager.onDidChangeConfiguration host affects) m0 else m0
    | Extension.Deactivate => exec (Extension.deactivate) m0
    end.
Proof.
  unfold Extension.deliver. simpl fst. simpl snd. cbv zeta.
  destruct ev as [| | doc | k | closed | [editor|] | doc | affects |];
    unfold Extension.handle, Extension.listener; unfold_machine; simpl;
    try reflexivity;
    try (destruct (activated m); reflexivity).
  destruct (startupTimer m); [|reflexivity].
  destruct (Extension.processExistingDocuments host _); reflexivity.
Qed.

Lemma openPreviewIfNeeded_keeps `{RT : Runtime} {H : Type}
    (host : Host H) (key : string) (doc : TextDocument) (m : Machine H) :
  let m1 := exec (PreviewManager.openPreviewIfNeeded host doc) m in
  exists sent,
    trace m1 = (trace m ++ sent)%list
    /\ (key ∈ _openedPreviews m -> key ∈ _openedPreviews m1 /\ opensOf key sent = 0%nat)
    /\ (opensOf key sent <= 1)%nat
    /\ (reliable host -> opensOf key sent = 1%nat -> key ∈ _openedPreviews m1).
Proof.
  intros m1.
  pose proof (openPreviewIfNeeded_sent host doc m)
    as (Hothers & Htracked & sent & Htrace & Hzero & Hle & Hreliable).
  fold m1 in Hothers, Htracked, Htrace, Hreliable.
  exists sent. split; [exact Htrace |].
  destruct (decide (toString (uri doc) = key)) as [Heq|Hne].
  - rewrite Heq in *. split; [|split; assumption].
    intros Hin. specialize (Htracked Hin). rewrite Htracked in *.
    split; [exact Hin |].
    assert (sent = []) as ->; [|reflexivity].
    apply (app_inv_head (trace m)). rewrite app_nil_r. symmetry. exact Htrace.
  - assert (Hne' : key <> toString (uri doc)) by congruence.
    rewrite (Hzero key Hne'). split; [|split].
    + intros Hin. split; [apply Hothers; assumption | reflexivity].
    + apply Nat.le_0_1.
    + discriminate.
Qed.

(** An event that keeps the tracking of [key]: a tracked key stays tracked
    and no preview of it is opened; an untracked key gets at most one
    preview command, and is tracked afterwards on a reliable host. *)
Lemma deliver_keeps `{RT : Runtime} {H : Type}
    (host : Host H) (key : string) (m : Machine H) (h : H) (ev : Extension.Event) :
  keepsTracking key ev ->
  let m1 := Extension.deliver host m (h, ev) in
  exists sent,
    trace m1 = (trace m ++ sent)%list
    /\ (key ∈ _openedPreviews m -> key ∈ _openedPreviews m1 /\ opensOf key sent = 0%nat)
    /\ (opensOf key sent <= 1)%nat
    /\ (reliable host -> opensOf key sent = 1%nat -> key ∈ _openedPreviews m1).
Proof.
  intros Hkeeps m1.
  assert (Hquiet : forall x : Machine H,
             trace x = trace m ->
             (key ∈ _openedPreviews m -> key ∈ _openedPreviews x) ->
             exists sent,
               trace x = (trace m ++ sent)%list
               /\ (key ∈ _openedPreviews m ->
                   key ∈ _openedPreviews x /\ opensOf key sent = 0%nat)
               /\ (opensOf key sent <= 1)%nat
               /\ (reliable host -> opensOf key sent = 1%nat ->
                   key ∈ _openedPreviews x)).
  { intros x Htrace Hkept. exists []. rewrite app_nil_r.
    split; [exact Htrace |]. split; [auto |]. split; [apply Nat.le_0_1 | discriminate]. }
  subst m1. rewrite deliver_exec. cbv zeta.
  destruct ev as [| | doc | k | closed | [editor|] | doc | affects |];
    simpl in Hkeeps; try (exfalso; exact Hkeeps);
    try (destruct (activated m); [|solve [apply Hquiet; auto]]).
  - (* DidOpenTextDocument *)
    destruct (handleDocumentOpen_exec doc (set_hostState h m)) as [-> | ->];
      apply Hquiet; auto.
  - (* PendingOpenElapsed *)
    rewrite pendingOpenElapsed_exec. simpl _pendingOpens.
    destruct (_pendingOpens m !! k) as [doc|]; [|apply Hquiet; auto].
    apply (openPreviewIfNeeded_keeps host key doc
             (set_pendingOpens (delete k) (set_hostState h m))).
  - (* DidChangeTabs *)
    pose proof (handleTabChanges_sent host closed (set_hostState h m))
      as ((sent & Htrace & Hsent) & _ & Huntracked).
    simpl in Htrace, Huntracked.
    exists sent. split; [exact Htrace |].
    rewrite (opensOf_no_command key sent (closesWebview_no_command sent Hsent)).
    split; [|split; [apply Nat.le_0_1 | discriminate]].
    intros Hin. split; [|reflexivity].
    destruct (decide (key ∈ _openedPreviews
                              (exec (PreviewManager.handleTabChanges host closed)
                                    (set_hostState h m)))) as [Hkept|Hgone];
      [exact Hkept |].
    destruct (Huntracked key Hin Hgone) as (tab & Htab & Hsource).
    destruct (Hkeeps tab Htab Hsource).
  - (* DidChangeActiveTextEditor, an editor *)
    destruct (handleEditorActivation_exec host editor (set_hostState h m))
      as [-> | [_ ->]]; [apply Hquiet; auto |].
    apply (openPreviewIfNeeded_keeps host key (document editor) (set_hostState h m)).
  - (* DidChangeActiveTextEditor, no editor *)
    apply Hquiet; auto.
  - (* DidCloseTextDocument *)
    apply Hquiet; [reflexivity |]. simpl. set_solver.
  - (* DidChangeConfiguration *)
    pose proof (onDidChangeConfiguration_exec host affects (set_hostState h m))
      as (Htrace & Hopened & _).
    apply Hquiet; [exact Htrace |]. rewrite Hopened. auto.
Qed.

(** The events that can untrack a key. *)
Lemma deliver_untracks `{RT : Runtime} {H : Type}
    (host : Host H) (key : string) (m : Machine H) (h : H) (ev : Extension.Event) :
  key ∈ _openedPreviews m ->
  key ∉ _openedPreviews (Extension.deliver host m (h, ev)) ->
  (exists doc, ev = Extension.DidCloseTextDocument doc /\ toString (uri doc) = key)
  \/ (exists closed tab,
        ev = Extension.DidChangeTabs closed /\ tab ∈ closed /\ closedSource key tab)
  \/ (ev = Extension.StartupTimerElapsed
      /\ exists editor, activeTextEditor host h = Some editor
                        /\ toString (uri (document editor)) = key)
  \/ ev = Extension.Activate
  \/ ev = Extension.Deactivate.
Proof.
  intros Hin Hgone.
  assert (Hkept : keepsTracking key ev -> False).
  { intros Hkeeps.
    destruct (deliver_keeps host key m h ev Hkeeps) as (sent & _ & Htracked & _).
    apply Hgone. apply Htracked. exact Hin. }
  destruct ev as [| | doc | k | closed | editor | doc | affects |];
    try (destruct (Hkept I)); auto.
  - (* StartupTimerElapsed *)
    right. right. left. split; [reflexivity |].
    rewrite deliver_exec in Hgone. cbv zeta in Hgone.
    destruct (startupTimer m); [|destruct (Hgone Hin)].
    destruct (processExistingDocuments_exec host
                (set_lifecycle (activated m) false (set_hostState h m)))
      as [Hsame | (editor & Heditor & _ & Hexec)].
    + rewrite Hsame in Hgone. destruct (Hgone Hin).
    + exists editor. split; [exact Heditor |].
      destruct (decide (toString (uri (document editor)) = key)) as [Heq|Hne];
        [exact Heq |].
      exfalso. apply Hgone. rewrite Hexec.
      pose proof (openPreviewIfNeeded_sent host (document editor)
                    (set_openedPreviews
                       (fun s => s ∖ {[toString (uri (document editor))]})
                       (set_lifecycle (activated m) false (set_hostState h m))))
        as (Hothers & _).
      apply Hothers; [congruence |]. simpl. set_solver.
  - (* DidChangeTabs *)
    right. left. rewrite deliver_exec in Hgone. cbv zeta in Hgone.
    destruct (activated m); [|destruct (Hgone Hin)].
    pose proof (handleTabChanges_sent host closed (set_hostState h m))
      as (_ & _ & Huntracked).
    destruct (Huntracked key Hin Hgone) as (tab & Htab & Hsource).
    exists closed, tab. auto.
  - (* DidCloseTextDocument *)
    left. exists doc. split; [reflexivity |].
    destruct (decide (toString (uri doc) = key)) as [Heq|Hne]; [exact Heq |].
    destruct (Hkept Hne).
Qed.

(** Over events that keep the tracking of [key], on a reliable host, at most
    one preview of [key] is opened, and none when [key] is tracked. *)
Lemma run_keeps `{RT : Runtime} {H : Type}
    (host : Host H) (key : string) (inputs : list (H * Extension.Event)) (m : Machine H) :
  reliable host ->
  Forall (fun input => keepsTracking key input.2) inputs ->
  let m1 := Extension.run host inputs m in
  (opensOf key (trace m1) <= opensOf key (trace m) + 1)%nat
  /\ (key ∈ _openedPreviews m ->
      opensOf key (trace m1) = opensOf key (trace m) /\ key ∈ _openedPreviews m1)
  /\ (opensOf key (trace m1) = (opensOf key (trace m) + 1)%nat ->
      key ∈ _openedPreviews m1).
Proof.
  intros Hreliable Hall. revert m.
  induction Hall as [|[h ev] inputs Hkeeps _ IH]; intros m; simpl.
  - split; [lia |]. split; [auto | lia].
  - destruct (deliver_keeps host key m h ev Hkeeps)
      as (sent & Htrace & Htracked & Hle & Hopened).
    specialize (Hopened Hreliable).
    destruct (IH (Extension.deliver host m (h, ev))) as (IHle & IHtracked & IHopened).
    unfold Extension.run in *. simpl in *.
    rewrite Htrace, opensOf_app in *.
    split; [|split].
    + destruct (decide (opensOf key sent = 1%nat)) as [Hone|Hzero].
      * destruct (IHtracked (Hopened Hone)) as [Heq _]. lia.
      * lia.
    + intros Hin. destruct (Htracked Hin) as [Hkept Hzero].
      destruct (IHtracked Hkept) as [Heq Hfinal]. split; [lia | exact Hfinal].
    + intros Hplus.
      destruct (decide (opensOf key sent = 1%nat)) as [Hone|Hzero].
      * apply IHtracked. apply Hopened. exact Hone.
      * apply IHopened. lia.
Qed.

(** C8, as the code has it.  While the URI [key] is in the opened previews,
    a document-open event, its debounce timer and an editor activation keep
    it there and execute no preview command for it.  From one event to the
    next the URI leaves the set only when the document is closed, when a tab
    change closes a source tab of it, when the startup check runs for the
    active editor on that document, or when the extension is activated or
    deactivated (inside one handler, a failed attempt removes the URI it had
    just added).  So over events of the
    other kinds, on a host that rejects no preview command and no focus
    request, at most one preview command is executed for the document, and
    none once it is tracked. *)
Theorem tracked_preview_opened_once `{RT : Runtime} {H : Type}
    (host : Host H) (key : string) :
  (forall (m : Machine H) (h : H) (ev : Extension.Event),
      (exists doc, ev = Extension.DidOpenTextDocument doc)
      \/ (exists k, ev = Extension.PendingOpenElapsed k)
      \/ (exists editor, ev = Extension.DidChangeActiveTextEditor editor) ->
      key ∈ _openedPreviews m ->
      let m1 := Extension.deliver host m (h, ev) in
      key ∈ _openedPreviews m1
      /\ exists sent, trace m1 = (trace m ++ sent)%list /\ opensOf key sent = 0%nat)
  /\ (forall (m : Machine H) (h : H) (ev : Extension.Event),
        key ∈ _openedPreviews m ->
        key ∉ _openedPreviews (Extension.deliver host m (h, ev)) ->
        (exists doc, ev = Extension.DidCloseTextDocument doc /\ toString (uri doc) = key)
        \/ (exists closed tab,
              ev = Extension.DidChangeTabs closed /\ tab ∈ closed
              /\ closedSource key tab)
        \/ (ev = Extension.StartupTimerElapsed
            /\ exists editor, activeTextEditor host h = Some editor
                              /\ toString (uri (document editor)) = key)
        \/ ev = Extension.Activate
        \/ ev = Extension.Deactivate)
  /\ (reliable host ->
      forall (inputs : list (H * Extension.Event)) (m : Machine H),
        Forall (fun input => keepsTracking key input.2) inputs ->
        let m1 := Extension.run host inputs m in
        (opensOf key (trace m1) <= opensOf key (trace m) + 1)%nat
        /\ (key ∈ _openedPreviews m ->
            opensOf key (trace m1) = opensOf key (trace m)
            /\ key ∈ _openedPreviews m1)).
Proof.
  split; [|split].
  - intros m h ev Hkind Hin m1.
    assert (Hkeeps : keepsTracking key ev).
    { destruct Hkind as [[doc ->] | [[k ->] | [editor ->]]]; exact I. }
    destruct (deliver_keeps host key m h ev Hkeeps) as (sent & Htrace & Htracked & _).
    destruct (Htracked Hin) as [Hkept Hzero].
    split; [exact Hkept |]. exists sent. split; assumption.
  - intros m h ev. apply deliver_untracks.
  - intros Hreliable inputs m Hall m1.
    destruct (run_keeps host key inputs m Hreliable Hall) as (Hle & Htracked & _).
    split; assumption.
Qed.

(** C8, as stated, fails.  The file is open when the extension is activated;
    the editor activation opens its preview and tracks it; 100 ms later the
    startup check untracks the document and, the preview tab not being there
    yet, executes the preview command a second time.  The document was not
    closed, no tab was closed and no request was rejected. *)
Lemma startup_check_opens_again :
  let w := Editor.editing Editor.defaults in
  let key := toString Editor.readme in
  let activation :=
    [(w, Extension.Activate);
     (w, Extension.DidChangeActiveTextEditor
           (Some {| document := Editor.readmeDoc; viewColumn := Some 1 |}))] in
  let m1 := Extension.run (RT := Js.ascii_runtime) Editor.host activation
              (Extension.initial w) in
  let m2 := Extension.deliver (RT := Js.ascii_runtime) Editor.host m1
              (w, Extension.StartupTimerElapsed) in
  key ∈ _openedPreviews m1
  /\ opensOf key (trace m1) = 1%nat
  /\ opensOf key (trace m2) = 2%nat
  /\ trace m2 = [ExecuteCommand "markdown.showPreviewToSide" Editor.readme;
                 ShowTextDocument Editor.readmeDoc 1;
                 ExecuteCommand "markdown.showPreviewToSide" Editor.readme;
                 ShowTextDocument Editor.readmeDoc 1].
Proof.
  split; [|split; [|split]]; vm_compute; reflexivity.
Qed.

Lemma tracked_preview_opened_once_witness :
  let w := Editor.editing Editor.defaults in
  let w2 := Editor.switching Editor.defaults in
  let key := toString Editor.readme in
  let focus := Some {| document := Editor.readmeDoc; viewColumn := Some 1 |} in
  let inputs := [(w, Extension.DidOpenTextDocument Editor.readmeDoc);
                 (w, Extension.PendingOpenElapsed key);
                 (w2, Extension.DidChangeActiveTextEditor focus);
                 (w2, Extension.DidOpenTextDocument Editor.readmeDoc);
                 (w2, Extension.PendingOpenElapsed key)] in
  let m := Editor.started (RT := Js.ascii_runtime) w in
  reliable Editor.dependable
  /\ Forall (fun input => keepsTracking (RT := Js.ascii_runtime) key input.2) inputs
  /\ (opensOf key (trace (Extension.run (RT := Js.ascii_runtime)
                            Editor.dependable inputs m))
      <= opensOf key (trace m) + 1)%nat.
Proof.
  intros w w2 key focus inputs m.
  assert (Hreliable : reliable Editor.dependable) by (split; reflexivity).
  assert (Hkeeps : Forall (fun input => keepsTracking (RT := Js.ascii_runtime) key input.2) inputs)
    by (repeat constructor).
  split; [exact Hreliable |]. split; [exact Hkeeps |].
  exact (proj1 (proj2 (proj2 (tracked_preview_opened_once (RT := Js.ascii_runtime)
                                Editor.dependable key))
                      Hreliable inputs m Hkeeps)).
Defined.

(** ** Timers *)

Section KeepsTimers.
Context `{RT : Runtime} {H : Type} (host : Host H).

Lemma keepsTimers_ret {A : Type} (a : A) : keepsTimers (H := H) (ret a).
Proof. intros m. repeat split. Qed.

Lemma keepsTimers_bind {A B : Type} (c : M H A) (k : A -> M H B) :
  keepsTimers c -> (forall a, keepsTimers (k a)) -> keepsTimers (bind c k).
Proof.
  intros Hc Hk m. unfold bind. specialize (Hc m).
  destruct (c m) as [a m1]. specialize (Hk a m1). simpl in *.
  destruct Hc as (<- & <- & <-). exact Hk.
Qed.

Lemma keepsTimers_gets {A : Type} (f : Machine H -> A) : keepsTimers (gets f).
Proof. intros m. repeat split. Qed.

Lemma keepsTimers_read {A : Type} (f : Host H -> H -> A) : keepsTimers (read host f).
Proof. intros m. repeat split. Qed.

Lemma keepsTimers_call {A : Type} (f : H -> A * H) : keepsTimers (call f).
Proof. intros m. unfold call. destruct (f (hostState m)). repeat split. Qed.

Lemma keepsTimers_request (f : H -> Settled * H) (sent : Action) :
  keepsTimers (request f sent).
Proof. intros m. unfold request. destruct (f (hostState m)). repeat split. Qed.

Lemma keepsTimers_opened (f : gset string -> gset string) :
  keepsTimers (H := H) (modify (set_openedPreviews f)).
Proof. intros m. repeat split. Qed.

Lemma keepsTimers_marks (f : gset string -> gset string) :
  keepsTimers (H := H) (modify (set_previewOnlyClosedUris f)).
Proof. intros m. repeat split. Qed.

Lemma keepsTimers_debounce (f : gmap string Z -> gmap string Z) :
  keepsTimers (H := H) (modify (set_lastProcessedClose f)).
Proof. intros m. repeat split. Qed.

Lemma keepsTimers_config (c : ExtensionConfig) (l : gset string) :
  keepsTimers (H := H) (modify (set_config c l)).
Proof. intros m. repeat split. Qed.

Lemma keepsTimers_forEach {A : Type} (l : list A) (body : A -> M H unit) :
  (forall x, keepsTimers (body x)) -> keepsTimers (forEach l body).
Proof.
  intros Hbody. induction l as [|x l IH]; simpl.
  - apply keepsTimers_ret.
  - apply keepsTimers_bind; [apply Hbody | intros _; exact IH].
Qed.

End KeepsTimers.

Create HintDb timers.

#[local] Hint Resolve keepsTimers_ret keepsTimers_gets keepsTimers_read
  keepsTimers_call keepsTimers_request keepsTimers_opened keepsTimers_marks
  keepsTimers_debounce keepsTimers_config : timers.

(** Walks through a handler: known computations first, then binds and
    branches. *)
Ltac keeps_timers :=
  repeat first
    [ assumption
    | solve [auto with timers]
    | apply keepsTimers_bind; [|intros ?]
    | apply keepsTimers_forEach; intros ?
    | match goal with
      | |- keepsTimers (if ?b then _ else _) => destruct b
      | |- keepsTimers (match ?x with _ => _ end) => destruct x
      | |- keepsTimers (let (_, _) := ?x in _) => destruct x
      end ].

Lemma closePreviewForFile_timers `{RT : Runtime} {H : Type} (host : Host H) (u : Uri) :
  keepsTimers (TabTracker.closePreviewForFile host u).
Proof. unfold TabTracker.closePreviewForFile. keeps_timers. Qed.

Lemma cleanupDebounceMap_timers {H : Type} (host : Host H) :
  keepsTimers (TabTracker.cleanupDebounceMap host).
Proof. unfold TabTracker.cleanupDebounceMap. keeps_timers. Qed.

Lemma closeAllMarkdownPreviews_timers {H : Type} (host : Host H) :
  keepsTimers (PreviewManager.closeAllMarkdownPreviews host).
Proof. unfold PreviewManager.closeAllMarkdownPreviews. keeps_timers. Qed.

Lemma closeSourceEditor_tabs_timers {H : Type} (host : Host H) (key : string)
    (tabs : list Tab) :
  keepsTimers (PreviewManager.closeSourceEditor_tabs host key tabs).
Proof.
  induction tabs as [|tab tabs IH]; simpl; [apply keepsTimers_ret |].
  destruct (input tab); try exact IH.
  destruct (String.eqb _ _); [|exact IH].
  apply keepsTimers_bind; [apply keepsTimers_request |].
  intros []; [apply keepsTimers_ret |].
  apply keepsTimers_bind; [apply keepsTimers_marks | intros _; exact IH].
Qed.

Lemma closeSourceEditor_timers {H : Type} (host : Host H) (u : Uri) :
  keepsTimers (PreviewManager.closeSourceEditor host u).
Proof.
  unfold PreviewManager.closeSourceEditor.
  apply keepsTimers_bind; [apply keepsTimers_marks | intros _].
  apply keepsTimers_bind; [apply keepsTimers_read | intros groups].
  induction groups as [|group groups IH]; simpl; [apply keepsTimers_ret |].
  apply keepsTimers_bind; [apply keepsTimers_gets | intros tabs].
  apply keepsTimers_bind; [apply closeSourceEditor_tabs_timers |].
  intros []; [apply keepsTimers_ret | exact IH].
Qed.

#[local] Hint Resolve closePreviewForFile_timers cleanupDebounceMap_timers
  closeAllMarkdownPreviews_timers closeSourceEditor_timers : timers.

Lemma openPreviewIfNeeded_timers `{RT : Runtime} {H : Type}
    (host : Host H) (doc : TextDocument) :
  keepsTimers (PreviewManager.openPreviewIfNeeded host doc).
Proof.
  unfold PreviewManager.openPreviewIfNeeded, PreviewManager.openPreview.
  keeps_timers.
Qed.

#[local] Hint Resolve openPreviewIfNeeded_timers : timers.

Lemma handleTabChanges_timers `{RT : Runtime} {H : Type}
    (host : Host H) (closed : list Tab) :
  keepsTimers (PreviewManager.handleTabChanges host closed).
Proof.
  unfold PreviewManager.handleTabChanges, PreviewManager.handleClosedTab.
  keeps_timers.
Qed.

Lemma handleEditorActivation_timers `{RT : Runtime} {H : Type}
    (host : Host H) (editor : TextEditor) :
  keepsTimers (PreviewManager.handleEditorActivation host editor).
Proof.
  unfold PreviewManager.handleEditorActivation, ConfigManager.isLanguageEnabled.
  keeps_timers.
Qed.

Lemma openPreviewForActiveEditor_timers `{RT : Runtime} {H : Type} (host : Host H) :
  keepsTimers (PreviewManager.openPreviewForActiveEditor host).
Proof. unfold PreviewManager.openPreviewForActiveEditor. keeps_timers. Qed.

#[local] Hint Resolve openPreviewForActiveEditor_timers : timers.

Lemma processExistingDocuments_timers `{RT : Runtime} {H : Type} (host : Host H) :
  keepsTimers (Extension.processExistingDocuments host).
Proof. unfold Extension.processExistingDocuments. keeps_timers. Qed.

Lemma onDidChangeConfiguration_timers `{RT : Runtime} {H : Type}
    (host : Host H) (affects : bool) :
  keepsTimers (ConfigManager.onDidChangeConfiguration host affects).
Proof.
  unfold ConfigManager.onDidChangeConfiguration, ConfigManager.reload. keeps_timers.
Qed.

(** ** What makes the extension act *)

(** The handlers that send nothing: all but the tab-change and
    editor-activation handlers and the callbacks of timers that are set. *)
Lemma deliver_quiet `{RT : Runtime} {H : Type}
    (host : Host H) (m : Machine H) (h : H) (ev : Extension.Event) :
  match ev with
  | Extension.DidChangeTabs _ => False
  | Extension.DidChangeActiveTextEditor (Some _) => False
  | Extension.PendingOpenElapsed key => _pendingOpens m !! key = None
  | Extension.StartupTimerElapsed => startupTimer m = false
  | _ => True
  end ->
  trace (Extension.deliver host m (h, ev)) = trace m.
Proof.
  intros Hquiet. rewrite deliver_exec. cbv zeta.
  destruct ev as [| | doc | k | closed | [editor|] | doc | affects |];
    try (exfalso; exact Hquiet); try reflexivity.
  - rewrite Hquiet. reflexivity.
  - destruct (activated m); [|reflexivity].
    destruct (handleDocumentOpen_exec doc (set_hostState h m)) as [-> | ->]; reflexivity.
  - rewrite pendingOpenElapsed_exec. simpl _pendingOpens. rewrite Hquiet. reflexivity.
  - destruct (activated m); reflexivity.
  - destruct (activated m); [|reflexivity].
    apply (onDidChangeConfiguration_exec host affects (set_hostState h m)).
Qed.

(** Who sets and who clears the timers. *)
Lemma deliver_timers `{RT : Runtime} {H : Type}
    (host : Host H) (m : Machine H) (h : H) (ev : Extension.Event) :
  let m1 := Extension.deliver host m (h, ev) in
  (forall key,
      _pendingOpens m !! key = None -> is_Some (_pendingOpens m1 !! key) ->
      exists doc, ev = Extension.DidOpenTextDocument doc /\ toString (uri doc) = key)
  /\ (forall key,
        ev = Extension.PendingOpenElapsed key -> _pendingOpens m1 !! key = None)
  /\ (startupTimer m = false -> startupTimer m1 = true -> ev = Extension.Activate)
  /\ (ev = Extension.StartupTimerElapsed -> startupTimer m1 = false).
Proof.
  intros m1. subst m1. rewrite deliver_exec. cbv zeta.
  assert (Hsame : forall x : Machine H,
             _pendingOpens x = _pendingOpens m -> startupTimer x = startupTimer m ->
             (forall key,
                 _pendingOpens m !! key = None -> is_Some (_pendingOpens x !! key) ->
                 exists doc, ev = Extension.DidOpenTextDocument doc
                             /\ toString (uri doc) = key)
             /\ (startupTimer m = false -> startupTimer x = true ->
                 ev = Extension.Activate)).
  { intros x Hpending Hstartup. rewrite Hpending, Hstartup. split.
    - intros key -> [doc Hdoc]. discriminate.
    - intros ->. discriminate. }
  assert (Hframe : forall (c : M H unit),
             keepsTimers c ->
             _pendingOpens (exec c (set_hostState h m)) = _pendingOpens m
             /\ startupTimer (exec c (set_hostState h m)) = startupTimer m).
  { intros c Hc. destruct (Hc (set_hostState h m)) as (Hp & Hs & _). auto. }
  destruct ev as [| | doc | k | closed | [editor|] | doc | affects |].
  - (* Activate *)
    split; [|split; [discriminate | split; [reflexivity | discriminate]]].
    intros key _ [doc Hdoc]. simpl in Hdoc. rewrite lookup_empty in Hdoc. discriminate.
  - (* StartupTimerElapsed *)
    destruct (startupTimer m) eqn:Hstartup.
    + destruct (processExistingDocuments_timers host
                  (set_lifecycle (activated m) false (set_hostState h m)))
        as (Hp & Hs & _).
      unfold exec. rewrite Hp, Hs. simpl.
      split; [|split; [discriminate | split; [discriminate | reflexivity]]].
      intros key -> [doc Hdoc]. discriminate.
    + destruct (Hsame (set_hostState h m) eq_refl Hstartup) as [Hp Hs].
      split; [exact Hp |]. split; [discriminate |].
      split; [exact Hs | intros _; exact Hstartup].
  - (* DidOpenTextDocument *)
    split; [|split; [discriminate | split; [|discriminate]]].
    + intros key Hnone Hsome. destruct (activated m).
      * destruct (handleDocumentOpen_exec doc (set_hostState h m)) as [Heq | Heq];
          rewrite Heq in Hsome; simpl in Hsome.
        -- rewrite Hnone in Hsome. destruct Hsome; discriminate.
        -- exists doc. split; [reflexivity |].
           destruct (decide (toString (uri doc) = key)) as [Heq'|Hne]; [exact Heq' |].
           rewrite lookup_insert_ne, Hnone in Hsome by exact Hne.
           destruct Hsome; discriminate.
      * simpl in Hsome. rewrite Hnone in Hsome. destruct Hsome; discriminate.
    + destruct (activated m); [|intros Hf Ht; simpl in Ht; congruence].
      destruct (handleDocumentOpen_exec doc (set_hostState h m)) as [-> | ->];
        simpl; intros Hf Ht; congruence.
  - (* PendingOpenElapsed *)
    rewrite pendingOpenElapsed_exec. simpl _pendingOpens.
    destruct (_pendingOpens m !! k) as [doc|] eqn:Hpending.
    + destruct (openPreviewIfNeeded_timers host doc
                  (set_pendingOpens (delete k) (set_hostState h m)))
        as (Hp & Hs & _).
      unfold exec. rewrite Hp, Hs. simpl.
      split; [|split; [|split; [intros Hf Ht; simpl in Ht; congruence | discriminate]]].
      * intros key Hnone Hsome. exfalso.
        destruct (decide (k = key)) as [->|Hne].
        -- rewrite lookup_delete_eq in Hsome. destruct Hsome; discriminate.
        -- rewrite lookup_delete_ne, Hnone in Hsome by exact Hne.
           destruct Hsome; discriminate.
      * intros key [= <-]. apply lookup_delete_eq.
    + destruct (Hsame (set_hostState h m) eq_refl eq_refl) as [Hp Hs].
      split; [exact Hp |]. split; [|split; [exact Hs | discriminate]].
      intros key [= <-]. exact Hpending.
  - (* DidChangeTabs *)
    assert (Hx : _pendingOpens
                   (if activated m
                    then exec (PreviewManager.handleTabChanges host closed)
                              (set_hostState h m)
                    else set_hostState h m) = _pendingOpens m
                 /\ startupTimer
                      (if activated m
                       then exec (PreviewManager.handleTabChanges host closed)
                                 (set_hostState h m)
                       else set_hostState h m) = startupTimer m).
    { destruct (activated m); [|auto]. apply Hframe, handleTabChanges_timers. }
    destruct (Hsame _ (proj1 Hx) (proj2 Hx)) as [Hp Hs].
    split; [exact Hp |]. split; [discriminate |]. split; [exact Hs | discriminate].
  - (* DidChangeActiveTextEditor, an editor *)
    assert (Hx : _pendingOpens
                   (if activated m
                    then exec (PreviewManager.handleEditorActivation host editor)
                              (set_hostState h m)
                    else set_hostState h m) = _pendingOpens m
                 /\ startupTimer
                      (if activated m
                       then exec (PreviewManager.handleEditorActivation host editor)
                                 (set_hostState h m)
                       else set_hostState h m) = startupTimer m).
    { destruct (activated m); [|auto]. apply Hframe, handleEditorActivation_timers. }
    destruct (Hsame _ (proj1 Hx) (proj2 Hx)) as [Hp Hs].
    split; [exact Hp |]. split; [discriminate |]. split; [exact Hs | discriminate].
  - (* DidChangeActiveTextEditor, no editor *)
    destruct (Hsame (set_hostState h m) eq_refl eq_refl) as [Hp Hs].
    split; [exact Hp |]. split; [discriminate |]. split; [exact Hs | discriminate].
  - (* DidCloseTextDocument *)
    assert (Hx : _pendingOpens
                   (if activated m
                    then set_openedPreviews (fun s => s ∖ {[toString (uri doc)]})
                           (set_hostState h m)
                    else set_hostState h m) = _pendingOpens m
                 /\ startupTimer
                      (if activated m
                       then set_openedPreviews (fun s => s ∖ {[toString (uri doc)]})
                              (set_hostState h m)
                       else set_hostState h m) = startupTimer m).
    { destruct (activated m); auto. }
    destruct (Hsame _ (proj1 Hx) (proj2 Hx)) as [Hp Hs].
    split; [exact Hp |]. split; [discriminate |]. split; [exact Hs | discriminate].
  - (* DidChangeConfiguration *)
    assert (Hx : _pendingOpens
                   (if activated m
                    then exec (ConfigManager.onDidChangeConfiguration host affects)
                              (set_hostState h m)
                    else set_hostState h m) = _pendingOpens m
                 /\ startupTimer
                      (if activated m
                       then exec (ConfigManager.onDidChangeConfiguration host affects)
                                 (set_hostState h m)
                       else set_hostState h m) = startupTimer m).
    { destruct (activated m); [|auto]. apply Hframe, onDidChangeConfiguration_timers. }
    destruct (Hsame _ (proj1 Hx) (proj2 Hx)) as [Hp Hs].
    split; [exact Hp |]. split; [discriminate |]. split; [exact Hs | discriminate].
  - (* Deactivate *)
    split; [|split; [discriminate | split; [|discriminate]]].
    + intros key _ [doc Hdoc]. simpl in Hdoc. rewrite lookup_empty in Hdoc. discriminate.
    + simpl. intros Hf Ht. congruence.
Qed.

(** Without an editor event, and without the startup timer or without an
    activation, a run sends nothing. *)
Lemma run_quiet `{RT : Runtime} {H : Type}
    (host : Host H) (inputs : list (H * Extension.Event)) (m : Machine H) :
  (forall key, _pendingOpens m !! key = None) ->
  Forall (fun input => ~ editorEvent input.2) inputs ->
  Forall (fun input => input.2 <> Extension.StartupTimerElapsed) inputs
  \/ (startupTimer m = false
      /\ Forall (fun input => input.2 <> Extension.Activate) inputs) ->
  trace (Extension.run host inputs m) = trace m.
Proof.
  intros Hpending Hno. revert m Hpending.
  induction Hno as [|[h ev] inputs Hev _ IH]; intros m Hpending Hor; [reflexivity |].
  simpl in Hev. unfold Extension.run in *. simpl.
  pose proof (deliver_timers host m h ev) as (Hset & _ & Hstartup & _).
  cbv zeta in Hset, Hstartup.
  assert (Hpending' : forall key,
             _pendingOpens (Extension.deliver host m (h, ev)) !! key = None).
  { intros key.
    destruct (_pendingOpens (Extension.deliver host m (h, ev)) !! key) as [doc|] eqn:Hdoc;
      [|reflexivity].
    destruct (Hset key (Hpending key)) as (doc' & -> & _); [eauto |].
    destruct (Hev I). }
  assert (Hquiet : match ev with
                   | Extension.StartupTimerElapsed => startupTimer m = false
                   | _ => True
                   end ->
                   trace (Extension.deliver host m (h, ev)) = trace m).
  { intros Hstate. apply deliver_quiet.
    destruct ev as [| | doc | k | closed | [editor|] | doc | affects |];
      simpl in Hev; try exact I; try (apply Hev; exact I); [exact Hstate |].
    apply Hpending. }
  destruct Hor as [Hall | [Hfalse Hall]].
  - inversion Hall as [|? ? Hne Hrest]; subst. simpl in Hne.
    rewrite IH; [| exact Hpending' | left; exact Hrest].
    apply Hquiet. destruct ev; try exact I. congruence.
  - inversion Hall as [|? ? Hne Hrest]; subst. simpl in Hne.
    rewrite IH; [| exact Hpending' |].
    + apply Hquiet. destruct ev; try exact I. exact Hfalse.
    + right. split; [|exact Hrest].
      destruct (startupTimer (Extension.deliver host m (h, ev))) eqn:Hafter;
        [|reflexivity].
      destruct (Hne (Hstartup Hfalse eq_refl)).
Qed.

(** C7, as the code has it.  A handler that sends a request is the
    tab-change handler, the editor-activation handler, the callback of a
    pending debounce timer or the callback of the pending startup timer.  A
    debounce timer is set by a document-open event only, for the URI of the
    document, and is cleared when it fires; the startup timer is set by the
    activation only and is cleared when it fires; the one other timer is the
    50 ms pause an open attempt waits for before it gives the focus back; so
    nothing runs on its own.  From the initial
    state, a run without document-open, tab-change and editor-change events
    sends nothing as long as the startup timer does not fire or the
    extension is not activated: besides the three editor events, the
    activation, through its startup check, is the one other cause of a
    request; configuration changes and document closes cause none. *)
Theorem requests_answer_events `{RT : Runtime} {H : Type} (host : Host H) :
  (forall (m : Machine H) (h : H) (ev : Extension.Event),
      trace (Extension.deliver host m (h, ev)) <> trace m ->
      (exists closed, ev = Extension.DidChangeTabs closed)
      \/ (exists editor, ev = Extension.DidChangeActiveTextEditor (Some editor))
      \/ (exists key doc,
            ev = Extension.PendingOpenElapsed key /\ _pendingOpens m !! key = Some doc)
      \/ (ev = Extension.StartupTimerElapsed /\ startupTimer m = true))
  /\ (forall (m : Machine H) (h : H) (ev : Extension.Event) (key : string),
        _pendingOpens m !! key = None ->
        is_Some (_pendingOpens (Extension.deliver host m (h, ev)) !! key) ->
        exists doc, ev = Extension.DidOpenTextDocument doc /\ toString (uri doc) = key)
  /\ (forall (m : Machine H) (h : H) (key : string),
        _pendingOpens (Extension.deliver host m (h, Extension.PendingOpenElapsed key))
          !! key = None)
  /\ (forall (m : Machine H) (h : H) (ev : Extension.Event),
        startupTimer m = false ->
        startupTimer (Extension.deliver host m (h, ev)) = true ->
        ev = Extension.Activate)
  /\ (forall (m : Machine H) (h : H),
        startupTimer (Extension.deliver host m (h, Extension.StartupTimerElapsed))
        = false)
  /\ (forall (h0 : H) (inputs : list (H * Extension.Event)),
        Forall (fun input => ~ editorEvent input.2) inputs ->
        Forall (fun input => input.2 <> Extension.StartupTimerElapsed) inputs
        \/ Forall (fun input => input.2 <> Extension.Activate) inputs ->
        trace (Extension.run host inputs (Extension.initial h0)) = []).
Proof.
  split; [|split; [|split; [|split; [|split]]]].
  - intros m h ev Hsent.
    destruct ev as [| | doc | k | closed | [editor|] | doc | affects |];
      try (destruct Hsent; apply deliver_quiet; exact I); eauto.
    + destruct (startupTimer m) eqn:Hstartup; [auto 6 |].
      destruct Hsent. apply deliver_quiet. exact Hstartup.
    + destruct (_pendingOpens m !! k) as [doc|] eqn:Hpending; [eauto 8 |].
      destruct Hsent. apply deliver_quiet. exact Hpending.
  - intros m h ev key. apply (deliver_timers host m h ev).
  - intros m h key. apply (deliver_timers host m h (Extension.PendingOpenElapsed key)).
    reflexivity.
  - intros m h ev. apply (deliver_timers host m h ev).
  - intros m h. apply (deliver_timers host m h Extension.StartupTimerElapsed).
    reflexivity.
  - intros h0 inputs Hno Hor.
    apply (run_quiet host inputs (Extension.initial h0)); [| exact Hno |].
    + intros key. apply lookup_empty.
    + destruct Hor as [Hall | Hall]; [left; exact Hall | right; split; [reflexivity |]].
      exact Hall.
Qed.

(** C7, as stated, fails.  The file is open when the extension is activated;
    no document-open, tab-change, editor-change or configuration-change event
    is delivered; when the startup timer fires, the preview command is
    executed and the focus is given back to the editor. *)
Lemma startup_check_opens_preview :
  let w := Editor.editing Editor.defaults in
  trace (Extension.run (RT := Js.ascii_runtime) Editor.host
           [(w, Extension.Activate); (w, Extension.StartupTimerElapsed)]
           (Extension.initial w))
  = [ExecuteCommand "markdown.showPreviewToSide" Editor.readme;
     ShowTextDocument Editor.readmeDoc 1].
Proof. vm_compute. reflexivity. Qed.

Lemma requests_answer_events_witness :
  let w := Editor.editing Editor.defaults in
  let inputs := [(w, Extension.Activate);
                 (w, Extension.DidChangeConfiguration true);
                 (w, Extension.DidCloseTextDocument Editor.readmeDoc);
                 (w, Extension.PendingOpenElapsed (toString Editor.readme))] in
  Forall (fun input => ~ editorEvent input.2) inputs
  /\ Forall (fun input => input.2 <> Extension.StartupTimerElapsed) inputs
  /\ trace (Extension.run (RT := Js.ascii_runtime) Editor.host inputs
              (Extension.initial w)) = [].
Proof.
  intros w inputs.
  assert (Hno : Forall (fun input => ~ editorEvent input.2) inputs)
    by (repeat constructor; intros []).
  assert (Hall : Forall (fun input => input.2 <> Extension.StartupTimerElapsed) inputs)
    by (repeat constructor; discriminate).
  split; [exact Hno |]. split; [exact Hall |].
  exact (proj2 (proj2 (proj2 (proj2 (proj2
           (requests_answer_events (RT := Js.ascii_runtime) Editor.host)))))
           w inputs Hno (or_introl Hall)).
Defined.
(** * Further properties *)

(** ** diffDetector.ts: [findDiffTab] *)

(** [find] returns the first element that passes the test. *)
Lemma find_first {A : Type} (f : A -> bool) (l : list A) (x : A) :
  find f l = Some x ->
  exists before after,
    l = (before ++ x :: after)%list /\ f x = true /\ Forall (fun y => f y = false) before.
Proof.
  induction l as [|y l IH]; simpl; [discriminate |].
  destruct (f y) eqn:Hy.
  - intros [= <-]. exists [], l. repeat split; [exact Hy | constructor].
  - intros (before & after & -> & Hx & Hall)%IH.
    exists (y :: before), after. repeat split; [exact Hx | constructor; assumption].
Qed.

Lemma find_existsb {A : Type} (f : A -> bool) (l : list A) :
  existsb f l = bool_decide (is_Some (find f l)).
Proof.
  induction l as [|y l IH]; simpl; [reflexivity |].
  destruct (f y); [reflexivity | exact IH].
Qed.

Lemma findDiffTab_groups_first {H : Type} (host : Host H) (u : Uri) (h : H)
    (groups : list nat) (tab : Tab) :
  DiffDetector.findDiffTab_groups host u h groups = Some tab ->
  exists before group after,
    groups = (before ++ group :: after)%list
    /\ find (DiffDetector.diffShows u) (group_tabs host h group) = Some tab
    /\ Forall (fun g => find (DiffDetector.diffShows u) (group_tabs host h g) = None) before.
Proof.
  induction groups as [|group groups IH]; simpl; [discriminate |].
  destruct (find _ (group_tabs host h group)) as [tab'|] eqn:Hfind.
  - intros [= <-]. exists [], group, groups. repeat split; [exact Hfind | constructor].
  - intros (before & g & after & -> & Hg & Hall)%IH.
    exists (group :: before), g, after. repeat split; [exact Hg | constructor; assumption].
Qed.

Lemma findDiffTab_groups_existsb {H : Type} (host : Host H) (u : Uri) (h : H)
    (groups : list nat) :
  existsb (fun group => existsb (DiffDetector.diffShows u) (group_tabs host h group)) groups
  = bool_decide (is_Some (DiffDetector.findDiffTab_groups host u h groups)).
Proof.
  induction groups as [|group groups IH]; simpl; [reflexivity |].
  rewrite find_existsb.
  destruct (find _ (group_tabs host h group)) as [tab|]; [reflexivity | exact IH].
Qed.

Lemma diffShows_iff (u : Uri) (tab : Tab) :
  DiffDetector.diffShows u tab = true <->
  exists original modified,
    input tab = TabInputTextDiff original modified
    /\ (toString original = toString u \/ toString modified = toString u).
Proof.
  unfold DiffDetector.diffShows.
  destruct (input tab) as [| original modified | |];
    try (split; [discriminate | intros (? & ? & ? & _); discriminate]).
  rewrite orb_true_iff, !String.eqb_eq. split.
  - intros Hor. exists original, modified. auto.
  - intros (? & ? & [= <- <-] & Hor). exact Hor.
Qed.

(** X1.  [findDiffTab u] finds a tab exactly when [isDocumentInDiffView u]
    answers true.  The tab it returns is a text-diff tab of an open group
    whose original or modified side is [u] (compared by [toString()]), and it
    is the first such tab: no tab of an earlier group and no earlier tab of
    its group shows [u] in a diff. *)
Theorem findDiffTab_first_diff_tab {H : Type} (host : Host H) (u : Uri) (h : H) :
  (is_Some (DiffDetector.findDiffTab host u h)
   <-> DiffDetector.isDocumentInDiffView host u h = true)
  /\ forall tab,
       DiffDetector.findDiffTab host u h = Some tab ->
       (exists original modified,
           input tab = TabInputTextDiff original modified
           /\ (toString original = toString u \/ toString modified = toString u))
       /\ exists groupsBefore group groupsAfter tabsBefore tabsAfter,
            tabGroups_all host h = (groupsBefore ++ group :: groupsAfter)%list
            /\ group_tabs host h group = (tabsBefore ++ tab :: tabsAfter)%list
            /\ Forall (fun t => DiffDetector.diffShows u t = false) tabsBefore
            /\ Forall (fun g => Forall (fun t => DiffDetector.diffShows u t = false)
                                       (group_tabs host h g)) groupsBefore.
Proof.
  unfold DiffDetector.findDiffTab, DiffDetector.isDocumentInDiffView. split.
  - rewrite findDiffTab_groups_existsb. symmetry. apply bool_decide_eq_true.
  - intros tab (groupsBefore & group & groupsAfter & Hgroups & Hfind & Hnone)
      %findDiffTab_groups_first.
    apply find_first in Hfind.
    destruct Hfind as (tabsBefore & tabsAfter & Htabs & Hshows & Hearlier).
    split; [apply diffShows_iff; exact Hshows |].
    exists groupsBefore, group, groupsAfter, tabsBefore, tabsAfter.
    repeat split; try assumption.
    eapply Forall_impl; [exact Hnone |]. intros g Hg. simpl in Hg.
    apply Forall_forall. intros t Ht.
    apply list_elem_of_In in Ht.
    exact (find_none _ _ Hg t Ht).
Qed.

(** ** Each search looks at the tabs of one kind *)

Lemma find_all_false {A : Type} (f : A -> bool) (l : list A) :
  (forall x, x ∈ l -> f x = false) -> find f l = None.
Proof.
  induction l as [|y l IH]; intros Hall; simpl; [reflexivity |].
  rewrite (Hall y) by left. apply IH. intros x Hx. apply Hall. right. exact Hx.
Qed.

Lemma firstSome_all_None {A B : Type} (f : A -> option B) (l : list A) :
  (forall x, x ∈ l -> f x = None) -> TabTracker.firstSome f l = None.
Proof.
  induction l as [|y l IH]; intros Hall; simpl; [reflexivity |].
  rewrite (Hall y) by left. apply IH. intros x Hx. apply Hall. right. exact Hx.
Qed.

Lemma findDiffTab_groups_all_None {H : Type} (host : Host H) (u : Uri) (h : H)
    (groups : list nat) :
  (forall group, group ∈ groups ->
     find (DiffDetector.diffShows u) (group_tabs host h group) = None) ->
  DiffDetector.findDiffTab_groups host u h groups = None.
Proof.
  induction groups as [|group groups IH]; intros Hall; simpl; [reflexivity |].
  rewrite (Hall group) by left. apply IH. intros g Hg. apply Hall. right. exact Hg.
Qed.

(** X2.  The three searches over the open tabs each look at one kind of tab.
    While no webview tab is open, no preview is found for any file, none is
    reported open and the sweep of preview-only mode has nothing to close;
    while no text-diff tab is open, no document is in a diff view; while no
    text tab is open, [closeSourceEditor] finds no source tab, sends nothing
    and only leaves the URI marked.  So all of them find nothing in an editor
    without tabs. *)
Theorem searches_by_tab_kind `{RT : Runtime} {H : Type} (host : Host H) (u : Uri) (h : H) :
  ((forall group tab viewType,
       group ∈ tabGroups_all host h -> tab ∈ group_tabs host h group ->
       input tab <> TabInputWebview viewType) ->
   TabTracker.findPreviewTab host u h = None
   /\ TabTracker.isPreviewOpen host u h = false
   /\ markupPreviews host h = []
   /\ forall m, hostState m = h ->
                exec (PreviewManager.closeAllMarkdownPreviews host) m = m)
  /\ ((forall group tab original modified,
         group ∈ tabGroups_all host h -> tab ∈ group_tabs host h group ->
         input tab <> TabInputTextDiff original modified) ->
      DiffDetector.findDiffTab host u h = None
      /\ DiffDetector.isDocumentInDiffView host u h = false)
  /\ ((forall group tab source,
         group ∈ tabGroups_all host h -> tab ∈ group_tabs host h group ->
         input tab <> TabInputText source) ->
      firstSourceTab host (toString u) h = None
      /\ forall m, hostState m = h ->
                   exec (PreviewManager.closeSourceEditor host u) m
                   = set_previewOnlyClosedUris (fun s => {[toString u]} ∪ s) m).
Proof.
  split; [|split].
  - intros Hnone.
    assert (Hfind : TabTracker.findPreviewTab host u h = None).
    { unfold TabTracker.findPreviewTab.
      destruct (TabTracker.getLanguageId u) as [languageId|]; [|reflexivity].
      apply firstSome_all_None. intros group Hgroup.
      apply find_all_false. intros tab Htab.
      unfold TabTracker.isPreviewOf.
      destruct (input tab) as [| | viewType |] eqn:Hinput; try reflexivity.
      destruct (Hnone group tab viewType Hgroup Htab Hinput). }
    assert (Hsweep : markupPreviews host h = []).
    { destruct (markupPreviews host h) as [|tab tabs] eqn:Hlist; [reflexivity |].
      assert (Hin : tab ∈ markupPreviews host h) by (rewrite Hlist; left).
      apply markupPreviews_elem in Hin. destruct Hin as (group & Hgroup & Htab & Htest).
      apply isMarkupPreview_iff in Htest. destruct Htest as (viewType & Hinput & _).
      destruct (Hnone group tab viewType Hgroup Htab Hinput). }
    split; [exact Hfind |]. split; [|split; [exact Hsweep |]].
    + unfold TabTracker.isPreviewOpen. rewrite Hfind.
      apply bool_decide_eq_false. intros [? ?]. discriminate.
    + intros m <-. rewrite closeAllMarkdownPreviews_exec, Hsweep. reflexivity.
  - intros Hnone.
    assert (Hfind : DiffDetector.findDiffTab host u h = None).
    { apply findDiffTab_groups_all_None. intros group Hgroup.
      apply find_all_false. intros tab Htab.
      apply not_true_iff_false.
      intros (original & modified & Hinput & _)%diffShows_iff.
      destruct (Hnone group tab original modified Hgroup Htab Hinput). }
    split; [exact Hfind |].
    unfold DiffDetector.isDocumentInDiffView, DiffDetector.findDiffTab in *.
    rewrite findDiffTab_groups_existsb, Hfind.
    apply bool_decide_eq_false. intros [? ?]. discriminate.
  - intros Hnone.
    assert (Hfind : firstSourceTab host (toString u) h = None).
    { apply firstSome_all_None. intros group Hgroup.
      apply find_all_false. intros tab Htab. unfold isSourceOf.
      destruct (input tab) as [source| | |] eqn:Hinput; try reflexivity.
      destruct (Hnone group tab source Hgroup Htab Hinput). }
    split; [exact Hfind |]. intros m <-.
    pose proof (closeSourceEditor_exec host u m) as [_ Hfirst].
    cbv zeta in Hfirst. rewrite Hfind in Hfirst. exact Hfirst.
Qed.

(** ** previewManager.ts: the mark of [closeSourceEditor] *)

Lemma closesSources_unmarked {H : Type} (key : string) (m m' : Machine H) :
  closesSources key m m' ->
  key ∉ _previewOnlyClosedUris m -> key ∉ _previewOnlyClosedUris m'.
Proof.
  intros (closes & _ & _ & _ & [-> | ->] & _) Hnot; set_solver.
Qed.

Lemma closesSources_others {H : Type} (key other : string) (m m' : Machine H) :
  closesSources key m m' -> other <> key ->
  other ∈ _previewOnlyClosedUris m' <-> other ∈ _previewOnlyClosedUris m.
Proof.
  intros (closes & _ & _ & _ & [-> | ->] & _) Hne; set_solver.
Qed.

(** Once a close of a source tab was rejected, the loop ends with the key
    unmarked. *)
Lemma closeSourceEditor_tabs_rejected {H : Type} (host : Host H) (key : string)
    (tabs : list Tab) (m : Machine H) (tab : Tab) :
  find (isSourceOf key) tabs = Some tab ->
  (tabGroups_close host [tab] (hostState m)).1 = Rejected ->
  key ∉ _previewOnlyClosedUris (PreviewManager.closeSourceEditor_tabs host key tabs m).2.
Proof.
  induction tabs as [|t tabs IH]; simpl; [discriminate |].
  unfold isSourceOf at 1.
  destruct (input t) as [v| | |] eqn:Hinput; try exact IH.
  destruct (String.eqb (toString v) key) eqn:Hkey; [|exact IH].
  intros [= <-] Hrejected. unfold_machine.
  destruct (tabGroups_close host [t] (hostState m)) as [[] h1]; [discriminate |].
  simpl.
  apply (closesSources_unmarked key _ _ (closeSourceEditor_tabs_shape host key tabs _)).
  simpl. set_solver.
Qed.

Lemma closeSourceEditor_groups_rejected {H : Type} (host : Host H) (key : string)
    (groups : list nat) (m : Machine H) (tab : Tab) :
  TabTracker.firstSome
    (fun group => find (isSourceOf key) (group_tabs host (hostState m) group)) groups
  = Some tab ->
  (tabGroups_close host [tab] (hostState m)).1 = Rejected ->
  key ∉ _previewOnlyClosedUris
          (exec (PreviewManager.closeSourceEditor_groups host key groups) m).
Proof.
  induction groups as [|group groups IH]; simpl; [discriminate |].
  unfold_machine.
  destruct (find (isSourceOf key) (group_tabs host (hostState m) group)) as [t|] eqn:Hfind.
  - intros [= <-] Hrejected.
    pose proof (closeSourceEditor_tabs_rejected host key _ m t Hfind Hrejected) as Hgone.
    destruct (PreviewManager.closeSourceEditor_tabs host key _ m) as [[] m1];
      simpl in *; [exact Hgone |].
    exact (closesSources_unmarked key _ _
             (closeSourceEditor_groups_shape host key groups m1) Hgone).
  - intros Hfirst Hrejected.
    pose proof (closeSourceEditor_tabs_first host key
                  (group_tabs host (hostState m) group) m) as Hsame.
    simpl in Hsame. rewrite Hfind in Hsame. rewrite Hsame. simpl.
    exact (IH Hfirst Hrejected).
Qed.

(** X3.  [closeSourceEditor] marks the URI as closed by preview-only mode and
    asks to close the first text tab of the document, group after group.
    Without such a tab nothing is sent and the URI stays marked; when the
    close of the first one resolves, it is the only request and the URI stays
    marked; when that close is rejected the URI ends unmarked, whatever the
    closes of further source tabs do, since a rejected close removes the mark
    and nothing puts it back.  No other mark and no opened preview
    changes. *)
Theorem closeSourceEditor_mark {H : Type} (host : Host H) (u : Uri) (m : Machine H) :
  let key := toString u in
  let m' := exec (PreviewManager.closeSourceEditor host u) m in
  _openedPreviews m' = _openedPreviews m
  /\ (forall other, other <> key ->
        other ∈ _previewOnlyClosedUris m' <-> other ∈ _previewOnlyClosedUris m)
  /\ match firstSourceTab host key (hostState m) with
     | None => m' = set_previewOnlyClosedUris (fun s => {[key]} ∪ s) m
     | Some tab =>
         match (tabGroups_close host [tab] (hostState m)).1 with
         | Resolved =>
             key ∈ _previewOnlyClosedUris m'
             /\ trace m' = (trace m ++ [CloseTabs [tab]])%list
         | Rejected =>
             (key ∉ _previewOnlyClosedUris m')
             /\ exists rest, trace m' = (trace m ++ CloseTabs [tab] :: rest)%list
         end
     end.
Proof.
  intros key m'.
  pose proof (closeSourceEditor_exec host u m) as [Hshape Hfirst].
  cbv zeta in Hshape, Hfirst. fold key in Hshape, Hfirst. fold m' in Hshape, Hfirst.
  split; [|split].
  - destruct Hshape as (closes & _ & _ & Hopened & _). exact Hopened.
  - intros other Hne.
    rewrite (closesSources_others key other _ _ Hshape Hne). simpl. set_solver.
  - destruct (firstSourceTab host key (hostState m)) as [tab|] eqn:Hsource;
      [|exact Hfirst].
    destruct Hfirst as [Hresolved Hrest].
    destruct ((tabGroups_close host [tab] (hostState m)).1) eqn:Hsettled.
    + rewrite (Hresolved eq_refl). simpl. split; [set_solver | reflexivity].
    + split; [|exact Hrest].
      subst m'. unfold PreviewManager.closeSourceEditor. unfold_machine. simpl.
      apply (closeSourceEditor_groups_rejected host key
               (tabGroups_all host (hostState m))
               (set_previewOnlyClosedUris (fun s => {[key]} ∪ s) m) tab);
        [exact Hsource | exact Hsettled].
Qed.

(** ** previewManager.ts: an open next to the editor *)

Lemma focusTarget_Some (activeEditor : option TextEditor) (source : TextDocument)
    (column : Z) :
  PreviewManager.focusTarget activeEditor = Some (source, column) ->
  exists editor,
    activeEditor = Some editor /\ document editor = source
    /\ viewColumn editor = Some column /\ column <> 0.
Proof.
  unfold PreviewManager.focusTarget.
  destruct activeEditor as [editor|]; [|discriminate].
  destruct (viewColumn editor) as [c|] eqn:Hcolumn; [|discriminate].
  destruct (Z.eqb_spec c 0) as [|Hne]; [discriminate |].
  intros [= <- <-]. exists editor. auto.
Qed.



(** ** previewManager.ts: the debounce of document opens *)

Lemma isSupportedDocument_getLanguageId `{RT : Runtime} (doc : TextDocument) :
  PreviewManager.isSupportedDocument doc
  = bool_decide (is_Some (PreviewManager.getLanguageId doc)).
Proof.
  unfold PreviewManager.isSupportedDocument, PreviewManager.getLanguageId.
  destruct (PreviewManager.languageOfId (languageId doc)) as [l|]; [|reflexivity].
  symmetry. apply bool_decide_eq_true. eauto.
Qed.

(** The two branches of [handleDocumentOpen]. *)
Lemma handleDocumentOpen_run `{RT : Runtime} {H : Type}
    (doc : TextDocument) (m : Machine H) :
  exec (PreviewManager.handleDocumentOpen doc) m
  = if acceptsDocument doc m
    then set_pendingOpens <[toString (uri doc) := doc]> m else m.
Proof.
  unfold PreviewManager.handleDocumentOpen, ConfigManager.isLanguageEnabled,
    acceptsDocument.
  unfold_machine. rewrite isSupportedDocument_getLanguageId.
  destruct (enabled (_config m)); [|reflexivity]. simpl.
  destruct (PreviewManager.getLanguageId doc) as [l|] eqn:Hlang.
  - rewrite bool_decide_eq_true_2 by eauto. simpl.
    destruct (bool_decide (languageName l ∈ _enabledLanguages m)); reflexivity.
  - rewrite bool_decide_eq_false_2 by (intros [? ?]; discriminate). reflexivity.
Qed.

(** X5.  [handleDocumentOpen] sends nothing and opens nothing itself.  It
    arms the debounce timer of the document, keyed by its URI, exactly when
    the extension is enabled, the document has a preview language (by its
    language id, else by its file extension) and that language is enabled; a
    timer that is pending for the URI is replaced, the timers of other URIs
    stay; otherwise it changes nothing.  Handling the same event once more
    changes nothing more. *)
Theorem document_open_arms_timer `{RT : Runtime} {H : Type}
    (doc : TextDocument) (m : Machine H) :
  let key := toString (uri doc) in
  let m' := exec (PreviewManager.handleDocumentOpen doc) m in
  let accepted :=
    enabled (_config m) = true
    /\ exists languageId,
         PreviewManager.getLanguageId doc = Some languageId
         /\ languageName languageId ∈ _enabledLanguages m in
  trace m' = trace m
  /\ _openedPreviews m' = _openedPreviews m
  /\ hostState m' = hostState m
  /\ (accepted -> m' = set_pendingOpens <[key := doc]> m
                  /\ _pendingOpens m' !! key = Some doc)
  /\ (~ accepted -> m' = m)
  /\ (forall other, other <> key -> _pendingOpens m' !! other = _pendingOpens m !! other)
  /\ exec (PreviewManager.handleDocumentOpen doc) m' = m'.
Proof.
  intros key m' accepted. subst m'. rewrite handleDocumentOpen_run. fold key.
  assert (Haccepts : acceptsDocument doc m = true <-> accepted).
  { subst accepted. unfold acceptsDocument.
    rewrite andb_true_iff.
    destruct (PreviewManager.getLanguageId doc) as [l|].
    - rewrite bool_decide_eq_true. split.
      + intros [He Hl]. eauto.
      + intros [He (l' & [= <-] & Hl)]. auto.
    - split; [intros [_ ?]; discriminate | intros [_ (? & ? & _)]; discriminate]. }
  destruct (acceptsDocument doc m) eqn:Hb.
  - split; [reflexivity |]. split; [reflexivity |]. split; [reflexivity |].
    split; [intros _; split; [reflexivity | apply lookup_insert_eq] |].
    split; [intros Hnot; destruct (Hnot (proj1 Haccepts eq_refl)) |].
    split; [intros other Hne; simpl; apply lookup_insert_ne; congruence |].
    rewrite handleDocumentOpen_run.
    assert (acceptsDocument doc (set_pendingOpens <[key := doc]> m) = true) as ->
      by exact Hb.
    fold key. unfold set_pendingOpens. simpl. rewrite insert_insert_eq. reflexivity.
  - split; [reflexivity |]. split; [reflexivity |]. split; [reflexivity |].
    split; [intros Hyes; apply Haccepts in Hyes; discriminate |].
    split; [reflexivity |]. split; [reflexivity |].
    rewrite handleDocumentOpen_run, Hb. reflexivity.
Qed.

Lemma deliver_open_twice `{RT : Runtime} {H : Type}
    (host : Host H) (doc : TextDocument) (h1 h2 : H) (m : Machine H) :
  Extension.deliver host
    (Extension.deliver host m (h1, Extension.DidOpenTextDocument doc))
    (h2, Extension.DidOpenTextDocument doc)
  = Extension.deliver host m (h2, Extension.DidOpenTextDocument doc).
Proof.
  rewrite (deliver_exec host m). cbv zeta.
  destruct (activated m) eqn:Hactivated.
  - rewrite handleDocumentOpen_run.
    change (acceptsDocument doc (set_hostState h1 m)) with (acceptsDocument doc m).
    rewrite !deliver_exec. cbv zeta. rewrite !handleDocumentOpen_run.
    change (acceptsDocument doc (set_hostState h2 m)) with (acceptsDocument doc m).
    destruct (acceptsDocument doc m) eqn:Hb; simpl activated; rewrite Hactivated.
    + change (acceptsDocument doc
                (set_hostState h2
                   (set_pendingOpens <[toString (uri doc) := doc]> (set_hostState h1 m))))
        with (acceptsDocument doc m).
      rewrite Hb. unfold set_pendingOpens, set_hostState. simpl.
      rewrite insert_insert_eq. reflexivity.
    + change (acceptsDocument doc (set_hostState h2 (set_hostState h1 m)))
        with (acceptsDocument doc m).
      rewrite Hb. reflexivity.
  - rewrite !deliver_exec. cbv zeta. simpl activated. rewrite Hactivated. reflexivity.
Qed.

(** X6.  A burst of document-open events for one document leaves the
    extension in the state the last of them alone leads to: one timer is
    pending for the document, so the timer callback runs once for the
    burst. *)
Theorem open_burst_is_one_open `{RT : Runtime} {H : Type}
    (host : Host H) (doc : TextDocument) (burst : list H) (h : H) (m : Machine H) :
  Extension.run host
    (((fun h' => (h', Extension.DidOpenTextDocument doc)) <$> burst)
     ++ [(h, Extension.DidOpenTextDocument doc)])%list m
  = Extension.deliver host m (h, Extension.DidOpenTextDocument doc).
Proof.
  revert m. induction burst as [|h1 burst IH]; intros m; [reflexivity |].
  unfold Extension.run in *. simpl. rewrite IH. apply deliver_open_twice.
Qed.

(** ** The language of a document *)

Lemma languageOfId_iff (langId : string) (language : SupportedLanguage) :
  PreviewManager.languageOfId langId = Some language <-> langId = languageName language.
Proof.
  unfold PreviewManager.languageOfId.
  destruct (String.eqb_spec langId "markdown") as [->|H1].
  { destruct language; simpl; split; congruence. }
  destruct (String.eqb_spec langId "asciidoc") as [->|H2].
  { destruct language; simpl; split; congruence. }
  destruct (String.eqb_spec langId "restructuredtext") as [->|H3].
  { destruct language; simpl; split; congruence. }
  destruct language; simpl; split; congruence.
Qed.

(** X7.  The preview language of a document is its language id when that is
    markdown, asciidoc or restructuredtext, whatever the file is called;
    otherwise it is the language of the lower-cased extension of its path,
    which is what the tab tracker computes from the URI alone.
    [isSupportedDocument] answers true exactly when [getLanguageId] is
    defined, so the tests for a missing language that follow it in the
    handlers never fire; the same holds for [isSupported] and [getLanguageId]
    of the tab tracker; and a document whose URI the tab tracker supports is
    a supported document. *)
Theorem language_of_document `{RT : Runtime} (doc : TextDocument) :
  (forall language,
      languageId doc = languageName language ->
      PreviewManager.getLanguageId doc = Some language)
  /\ ((forall language, languageId doc <> languageName language) ->
      PreviewManager.getLanguageId doc = TabTracker.getLanguageId (uri doc)
      /\ PreviewManager.getLanguageId doc
         = FILE_EXTENSIONS (toLowerCase (extname (fsPath (uri doc)))))
  /\ (PreviewManager.isSupportedDocument doc = true
      <-> is_Some (PreviewManager.getLanguageId doc))
  /\ (TabTracker.isSupported (uri doc) = true
      <-> is_Some (TabTracker.getLanguageId (uri doc)))
  /\ (TabTracker.isSupported (uri doc) = true ->
      PreviewManager.isSupportedDocument doc = true).
Proof.
  split; [|split; [|split; [|split]]].
  - intros language Hid. unfold PreviewManager.getLanguageId.
    rewrite (proj2 (languageOfId_iff _ _) Hid). reflexivity.
  - intros Hother. unfold PreviewManager.getLanguageId, TabTracker.getLanguageId.
    destruct (PreviewManager.languageOfId (languageId doc)) as [language|] eqn:Hid;
      [|split; reflexivity].
    apply languageOfId_iff in Hid. destruct (Hother language Hid).
  - rewrite isSupportedDocument_getLanguageId. apply bool_decide_eq_true.
  - unfold TabTracker.isSupported, TabTracker.getLanguageId. apply bool_decide_eq_true.
  - unfold TabTracker.isSupported, PreviewManager.isSupportedDocument.
    destruct (PreviewManager.languageOfId (languageId doc)); auto.
Qed.

(** ** Auto-close goes by the file extension *)



(** ** The [enabled] setting *)

(** X9.  While the [enabled] setting is off in the snapshot, the handlers of
    the three editor events (document open, tab change, active editor change)
    do nothing: no request, no timer, no change of what is tracked.  The
    tab-change handler does nothing either while [autoClosePreview] is off;
    in particular it then leaves the marks of preview-only mode. *)
Theorem disabled_ignores_editor_events `{RT : Runtime} {H : Type}
    (host : Host H) (m : Machine H) (h : H) (ev : Extension.Event) :
  (enabled (_config m) = false /\ editorEvent ev)
  \/ (autoClosePreview (_config m) = false
      /\ exists closed, ev = Extension.DidChangeTabs closed) ->
  Extension.deliver host m (h, ev) = set_hostState h m.
Proof.
  intros Hoff. rewrite deliver_exec. cbv zeta.
  destruct Hoff as [[Hdisabled Hev] | [Hauto [closed ->]]].
  - destruct ev as [| | doc | k | closed | [editor|] | doc | affects |];
      simpl in Hev; try (exfalso; exact Hev); try reflexivity;
      destruct (activated m); try reflexivity.
    + rewrite handleDocumentOpen_run. unfold acceptsDocument. simpl.
      rewrite Hdisabled. reflexivity.
    + unfold PreviewManager.handleTabChanges. unfold_machine. simpl.
      rewrite Hdisabled. reflexivity.
    + unfold PreviewManager.handleEditorActivation. unfold_machine. simpl.
      rewrite Hdisabled. reflexivity.
  - destruct (activated m); [|reflexivity].
    unfold PreviewManager.handleTabChanges. unfold_machine. simpl.
    rewrite Hauto, orb_true_r. reflexivity.
Qed.

Lemma disabled_ignores_editor_events_witness :
  let w := Editor.editing Scenes.disabled in
  let m := Editor.started (RT := Js.ascii_runtime) w in
  enabled (_config m) = false
  /\ Extension.deliver (RT := Js.ascii_runtime) Editor.host m
       (w, Extension.DidOpenTextDocument Editor.readmeDoc) = set_hostState w m.
Proof.
  intros w m. split; [reflexivity |].
  exact (disabled_ignores_editor_events (RT := Js.ascii_runtime) Editor.host m w
           (Extension.DidOpenTextDocument Editor.readmeDoc)
           (or_introl (conj eq_refl I))).
Defined.

(** Past its guards, [openPreviewIfNeeded] executes the preview command. *)
Lemma openPreviewIfNeeded_executes `{RT : Runtime} {H : Type}
    (host : Host H) (doc : TextDocument) (language : SupportedLanguage) (m : Machine H) :
  passesGuards host doc language m ->
  exists before after,
    trace (exec (PreviewManager.openPreviewIfNeeded host doc) m)
    = (trace m ++ before
       ++ ExecuteCommand (previewCommand (_config m) language) (uri doc) :: after)%list.
Proof.
  intros Hguards. unfold exec.
  rewrite (openPreviewIfNeeded_attempt host doc language m Hguards). cbv zeta.
  pose proof (openPreview_sent host (_config m) (previewCommand (_config m) language)
                doc (set_openedPreviews (fun s => {[toString (uri doc)]} ∪ s) m))
    as (_ & (before & after & Htrace & _) & _).
  simpl in Htrace. exists before, after.
  destruct (PreviewManager.openPreview host _ _ doc _) as [[] m1]; exact Htrace.
Qed.

Lemma supportedLanguages_languageOfId (langId : string) :
  Js.array_includes Extension.supportedLanguages langId
  = bool_decide (is_Some (PreviewManager.languageOfId langId)).
Proof.
  unfold Js.array_includes, Extension.supportedLanguages, PreviewManager.languageOfId.
  destruct (String.eqb_spec langId "markdown") as [->|H1].
  { rewrite !bool_decide_eq_true_2; eauto. set_solver. }
  destruct (String.eqb_spec langId "asciidoc") as [->|H2].
  { rewrite !bool_decide_eq_true_2; eauto. set_solver. }
  destruct (String.eqb_spec langId "restructuredtext") as [->|H3].
  { rewrite !bool_decide_eq_true_2; eauto. set_solver. }
  rewrite !bool_decide_eq_false_2; [reflexivity | intros [? ?]; discriminate | set_solver].
Qed.

Lemma openPreviewForActiveEditor_run `{RT : Runtime} {H : Type}
    (host : Host H) (m : Machine H) (editor : TextEditor) :
  activeTextEditor host (hostState m) = Some editor ->
  PreviewManager.isSupportedDocument (document editor) = true ->
  exec (PreviewManager.openPreviewForActiveEditor host) m
  = exec (PreviewManager.openPreviewIfNeeded host (document editor))
         (set_openedPreviews (fun s => s ∖ {[toString (uri (document editor))]}) m).
Proof.
  intros Heditor Hsupported.
  unfold PreviewManager.openPreviewForActiveEditor. unfold_machine.
  rewrite Heditor, Hsupported.
  destruct (PreviewManager.openPreviewIfNeeded host (document editor) _). reflexivity.
Qed.

(** The startup check, when it acts. *)
Lemma processExistingDocuments_run `{RT : Runtime} {H : Type}
    (host : Host H) (m : Machine H) (editor : TextEditor) (language : SupportedLanguage) :
  activeTextEditor host (hostState m) = Some editor ->
  PreviewManager.languageOfId (languageId (document editor)) = Some language ->
  activated m = true ->
  exec (Extension.processExistingDocuments host) m
  = exec (PreviewManager.openPreviewIfNeeded host (document editor))
         (set_openedPreviews (fun s => s ∖ {[toString (uri (document editor))]}) m).
Proof.
  intros Heditor Hid Hactivated.
  rewrite <- (openPreviewForActiveEditor_run host m editor Heditor)
    by (unfold PreviewManager.isSupportedDocument; rewrite Hid; reflexivity).
  unfold Extension.processExistingDocuments. unfold_machine.
  rewrite Heditor, supportedLanguages_languageOfId, Hid.
  rewrite bool_decide_eq_true_2 by eauto. simpl. rewrite Hactivated. reflexivity.
Qed.

(** X10.  The two timer callbacks do not look at the [enabled] setting.  With
    the setting off in the snapshot, a debounce timer that is still pending
    executes the preview command of its document when it fires, and so does
    the startup check for the active editor, as soon as the guards of
    [openPreviewIfNeeded] let the document pass. *)
Theorem timers_ignore_enabled `{RT : Runtime} {H : Type}
    (host : Host H) (m : Machine H) (h : H) (doc : TextDocument)
    (language : SupportedLanguage) :
  enabled (_config m) = false ->
  let command := ExecuteCommand (previewCommand (_config m) language) (uri doc) in
  (forall key,
      _pendingOpens m !! key = Some doc ->
      passesGuards host doc language (set_hostState h m) ->
      exists before after,
        trace (Extension.deliver host m (h, Extension.PendingOpenElapsed key))
        = (trace m ++ before ++ command :: after)%list)
  /\ (forall editor,
        startupTimer m = true -> activated m = true ->
        activeTextEditor host h = Some editor -> document editor = doc ->
        PreviewManager.languageOfId (languageId doc) = Some language ->
        passesGuards host doc language
          (set_openedPreviews (fun s => s ∖ {[toString (uri doc)]}) (set_hostState h m)) ->
        exists before after,
          trace (Extension.deliver host m (h, Extension.StartupTimerElapsed))
          = (trace m ++ before ++ command :: after)%list).
Proof.
  intros _ command. split.
  - intros key Hpending Hguards. rewrite deliver_exec. cbv zeta.
    rewrite pendingOpenElapsed_exec. simpl _pendingOpens. rewrite Hpending.
    apply (openPreviewIfNeeded_executes host doc language
             (set_pendingOpens (delete key) (set_hostState h m))).
    exact Hguards.
  - intros editor Hstartup Hactivated Heditor <- Hid Hguards.
    rewrite deliver_exec. cbv zeta. rewrite Hstartup, Hactivated.
    rewrite (processExistingDocuments_run host
               (set_lifecycle true false (set_hostState h m)) editor language
               Heditor Hid eq_refl).
    apply (openPreviewIfNeeded_executes host (document editor) language
             (set_openedPreviews (fun s => s ∖ {[toString (uri (document editor))]})
                (set_lifecycle true false (set_hostState h m)))).
    exact Hguards.
Qed.

Lemma timers_ignore_enabled_witness :
  let w := Editor.editing Scenes.disabled in
  let m := Editor.started (RT := Js.ascii_runtime) w in
  enabled (_config m) = false
  /\ exists before after,
       trace (Extension.deliver (RT := Js.ascii_runtime) Editor.host m
                (w, Extension.StartupTimerElapsed))
       = (trace m ++ before
          ++ ExecuteCommand "markdown.showPreviewToSide" Editor.readme :: after)%list.
Proof.
  intros w m. split; [reflexivity |].
  refine (proj2 (timers_ignore_enabled (RT := Js.ascii_runtime) Editor.host m w
                   Editor.readmeDoc markdown eq_refl)
                {| document := Editor.readmeDoc; viewColumn := Some 1 |}
                eq_refl eq_refl eq_refl eq_refl eq_refl _).
  split; [|split; [|split]].
  - simpl. set_solver.
  - right. vm_compute. reflexivity.
  - right. split; vm_compute; reflexivity.
  - vm_compute. reflexivity.
Defined.

(** X11.  The startup check goes by the language id of the active document
    alone.  Without an active editor, or when the language id of its document
    is none of markdown, asciidoc and restructuredtext, the callback of the
    startup timer only clears the timer: nothing is sent and nothing is
    tracked, also for a file with a supported extension, which a document-open
    event would have accepted. *)
Theorem startup_check_needs_language_id `{RT : Runtime} {H : Type}
    (host : Host H) (m : Machine H) (h : H) :
  activeTextEditor host h = None
  \/ (exists editor,
         activeTextEditor host h = Some editor
         /\ forall language, languageId (document editor) <> languageName language) ->
  Extension.deliver host m (h, Extension.StartupTimerElapsed)
  = set_lifecycle (activated m) false (set_hostState h m).
Proof.
  intros Hnone. rewrite deliver_exec. cbv zeta.
  destruct (startupTimer m) eqn:Hstartup.
  - unfold Extension.processExistingDocuments. unfold_machine. simpl.
    destruct Hnone as [-> | (editor & -> & Hother)]; [reflexivity |].
    rewrite supportedLanguages_languageOfId.
    rewrite bool_decide_eq_false_2; [reflexivity |].
    intros [language Hid]. apply languageOfId_iff in Hid. exact (Hother language Hid).
  - destruct m. simpl in *. subst. reflexivity.
Qed.

Lemma startup_check_needs_language_id_witness :
  let w := Scenes.with_editor
             (Some {| document := Scenes.plainReadme; viewColumn := Some 1 |})
             (Editor.editing Editor.defaults) in
  let m := Editor.started (RT := Js.ascii_runtime) w in
  PreviewManager.isSupportedDocument (RT := Js.ascii_runtime) Scenes.plainReadme = true
  /\ acceptsDocument (RT := Js.ascii_runtime) Scenes.plainReadme m = true
  /\ trace (Extension.deliver (RT := Js.ascii_runtime) Editor.host m
              (w, Extension.StartupTimerElapsed)) = [].
Proof.
  intros w m. split; [reflexivity |]. split; [vm_compute; reflexivity |].
  assert (Hplain : activeTextEditor Editor.host w = None
                   \/ exists editor,
                        activeTextEditor Editor.host w = Some editor
                        /\ forall language,
                             languageId (document editor) <> languageName language).
  { right. eexists. split; [reflexivity |]. intros []; discriminate. }
  rewrite (startup_check_needs_language_id (RT := Js.ascii_runtime)
             Editor.host m w Hplain).
  reflexivity.
Defined.

(** ** Deactivation *)

Lemma processExistingDocuments_inactive `{RT : Runtime} {H : Type}
    (host : Host H) (m : Machine H) :
  activated m = false -> exec (Extension.processExistingDocuments host) m = m.
Proof.
  intros Hinactive. unfold Extension.processExistingDocuments. unfold_machine.
  destruct (activeTextEditor host (hostState m)) as [editor|]; [|reflexivity].
  destruct (Js.array_includes _ _); [|reflexivity]. simpl.
  rewrite Hinactive. reflexivity.
Qed.

(** While the extension is not activated, an event other than the activation
    changes the host state and the startup flag at most. *)
Lemma deliver_inactive `{RT : Runtime} {H : Type}
    (host : Host H) (m : Machine H) (h : H) (ev : Extension.Event) :
  activated m = false -> idle m -> ev <> Extension.Activate ->
  let m1 := Extension.deliver host m (h, ev) in
  activated m1 = false /\ idle m1 /\ trace m1 = trace m
  /\ _config m1 = _config m /\ _enabledLanguages m1 = _enabledLanguages m.
Proof.
  intros Hinactive (Hopened & Hmarks & Hdebounce & Hpending) Hev m1. subst m1.
  rewrite deliver_exec. cbv zeta. unfold idle.
  destruct ev as [| | doc | k | closed | [editor|] | doc | affects |];
    try congruence; rewrite ?Hinactive; simpl; try tauto.
  - destruct (startupTimer m); [|simpl; tauto].
    rewrite processExistingDocuments_inactive by reflexivity. simpl. tauto.
  - rewrite pendingOpenElapsed_exec. simpl _pendingOpens.
    rewrite Hpending, lookup_empty. simpl. tauto.
Qed.

Lemma run_inactive `{RT : Runtime} {H : Type}
    (host : Host H) (inputs : list (H * Extension.Event)) (m : Machine H) :
  Forall (fun input => input.2 <> Extension.Activate) inputs ->
  activated m = false -> idle m ->
  let m1 := Extension.run host inputs m in
  activated m1 = false /\ idle m1 /\ trace m1 = trace m
  /\ _config m1 = _config m /\ _enabledLanguages m1 = _enabledLanguages m.
Proof.
  intros Hall. revert m.
  induction Hall as [|[h ev] inputs Hev _ IH]; intros m Hinactive Hidle;
    [cbv zeta; unfold Extension.run; simpl; auto |].
  destruct (deliver_inactive host m h ev Hinactive Hidle Hev)
    as (Hi1 & Hidle1 & Ht1 & Hc1 & Hl1).
  destruct (IH _ Hi1 Hidle1) as (Hi2 & Hidle2 & Ht2 & Hc2 & Hl2).
  unfold Extension.run in *. simpl.
  split; [exact Hi2 |]. split; [exact Hidle2 |]. repeat split; congruence.
Qed.



(** ** tabTracker.ts: the cleanup of the debounce map *)

(** X13.  [cleanupDebounceMap] drops the timestamps that are more than a
    second (ten debounce windows) older than the clock and keeps the others
    as they are; it sends nothing and leaves what is tracked and marked.  It
    never changes the verdict of the debounce: for every URI and every later
    reading of the clock (from 100 ms after the epoch on), the test of
    [closePreviewForFile] gives the same answer on the cleaned map as on the
    map before. *)
Theorem cleanup_keeps_debounce {H : Type} (host : Host H) (m : Machine H)
    (key : string) (later : Z) :
  let now := (Date_now host (hostState m)).1 in
  let m' := exec (TabTracker.cleanupDebounceMap host) m in
  now <= later -> 100 <= later ->
  (later - default 0 (_lastProcessedClose m' !! key) <? TabTracker.DEBOUNCE_MS)
  = (later - default 0 (_lastProcessedClose m !! key) <? TabTracker.DEBOUNCE_MS)
  /\ (forall recorded,
        _lastProcessedClose m' !! key = Some recorded
        <-> _lastProcessedClose m !! key = Some recorded /\ now - 1000 <= recorded)
  /\ trace m' = trace m
  /\ _openedPreviews m' = _openedPreviews m
  /\ _previewOnlyClosedUris m' = _previewOnlyClosedUris m.
Proof.
  intros now m' Hlater Hepoch. subst now m'.
  unfold TabTracker.cleanupDebounceMap, TabTracker.DEBOUNCE_MS. unfold_machine.
  destruct (Date_now host (hostState m)) as [now h1]. simpl in *.
  assert (Hlookup : forall recorded,
             filter (fun entry : string * Z => ¬ entry.2 < now - 100 * 10)
                    (_lastProcessedClose m) !! key = Some recorded
             <-> _lastProcessedClose m !! key = Some recorded /\ now - 1000 <= recorded).
  { intros recorded. rewrite map_lookup_filter_Some. simpl. split; intros [? ?]; split;
      try assumption; lia. }
  split; [|split; [exact Hlookup | repeat split]].
  destruct (filter _ (_lastProcessedClose m) !! key) as [recorded|] eqn:Hfiltered.
  - destruct (proj1 (Hlookup recorded) eq_refl) as [-> _]. reflexivity.
  - destruct (_lastProcessedClose m !! key) as [recorded|] eqn:Hmap; [|reflexivity].
    simpl.
    assert (Hold : recorded < now - 1000).
    { destruct (Z.lt_ge_cases recorded (now - 1000)) as [Hlt|Hge]; [exact Hlt |].
      pose proof (proj2 (Hlookup recorded) (conj eq_refl Hge)) as Hkept.
      discriminate Hkept. }
    destruct (Z.ltb_spec (later - 0) 100), (Z.ltb_spec (later - recorded) 100);
      try reflexivity; lia.
Qed.

Lemma cleanup_keeps_debounce_witness :
  let w := Editor.previewing Editor.defaults in
  let closed := exec (TabTracker.closePreviewForFile (RT := Js.ascii_runtime)
                        Editor.host Editor.readme)
                     (Editor.started (RT := Js.ascii_runtime) w) in
  let m := set_hostState (Editor.with_clock (Z.add 5000) w) closed in
  let m' := exec (TabTracker.cleanupDebounceMap Editor.host) m in
  let key := toString Editor.readme in
  _lastProcessedClose m !! key = Some 1700000005000
  /\ _lastProcessedClose m' !! key = None
  /\ (1700000010000 - default 0 (_lastProcessedClose m' !! key) <? TabTracker.DEBOUNCE_MS)
     = (1700000010000 - default 0 (_lastProcessedClose m !! key) <? TabTracker.DEBOUNCE_MS).
Proof.
  intros w closed m m' key.
  split; [vm_compute; reflexivity |]. split; [vm_compute; reflexivity |].
  refine (proj1 (cleanup_keeps_debounce Editor.host m key 1700000010000 _ _)).
  - apply Z.leb_le. vm_compute. reflexivity.
  - apply Z.leb_le. vm_compute. reflexivity.
Defined.

(** ** previewManager.ts: editor activation *)

(** X14.  [handleEditorActivation] does something only when the extension is
    enabled, preview-only mode is off, the document has a preview language
    that is enabled, no debounce timer is pending for the document, the
    document is not tracked and no preview tab of it is open; what it does
    then is what [openPreviewIfNeeded] does.  So in preview-only mode a
    change of focus opens nothing, and an activation that arrives between a
    document-open event and its timer leaves the open to the timer. *)
Theorem editor_activation_opens_only_when `{RT : Runtime} {H : Type}
    (host : Host H) (editor : TextEditor) (m : Machine H) :
  let doc := document editor in
  let key := toString (uri doc) in
  let m' := exec (PreviewManager.handleEditorActivation host editor) m in
  m' <> m ->
  enabled (_config m) = true
  /\ previewOnlyMode (_config m) = false
  /\ (exists language,
         PreviewManager.getLanguageId doc = Some language
         /\ languageName language ∈ _enabledLanguages m)
  /\ _pendingOpens m !! key = None
  /\ (key ∉ _openedPreviews m)
  /\ TabTracker.isPreviewOpen host (uri doc) (hostState m) = false
  /\ m' = exec (PreviewManager.openPreviewIfNeeded host doc) m.
Proof.
  intros doc key m'. subst m' doc key.
  unfold PreviewManager.handleEditorActivation, ConfigManager.isLanguageEnabled.
  unfold_machine.
  destruct (enabled (_config m)); [|intros Hne; destruct (Hne eq_refl)]. simpl.
  destruct (previewOnlyMode (_config m)); [intros Hne; destruct (Hne eq_refl) |].
  destruct (PreviewManager.isSupportedDocument (document editor));
    [|intros Hne; destruct (Hne eq_refl)].
  simpl.
  destruct (PreviewManager.getLanguageId (document editor)) as [language|];
    [|intros Hne; destruct (Hne eq_refl)].
  destruct (bool_decide (languageName language ∈ _enabledLanguages m)) eqn:Hlanguage;
    [|intros Hne; destruct (Hne eq_refl)].
  apply bool_decide_eq_true in Hlanguage. simpl.
  destruct (bool_decide (is_Some (_pendingOpens m !! toString (uri (document editor)))))
    eqn:Hpending; [intros Hne; destruct (Hne eq_refl) |].
  apply bool_decide_eq_false in Hpending. apply eq_None_not_Some in Hpending. simpl.
  destruct (bool_decide (toString (uri (document editor)) ∈ _openedPreviews m))
    eqn:Htracked; [intros Hne; destruct (Hne eq_refl) |].
  apply bool_decide_eq_false in Htracked.
  destruct (TabTracker.isPreviewOpen host (uri (document editor)) (hostState m));
    [intros Hne; destruct (Hne eq_refl) |].
  intros _. repeat split; try assumption. eauto.
Qed.

Lemma editor_activation_opens_only_when_witness :
  let w := Editor.editing Editor.defaults in
  let m := Editor.started (RT := Js.ascii_runtime) w in
  let editor := {| document := Editor.readmeDoc; viewColumn := Some 1 |} in
  let m' := exec (PreviewManager.handleEditorActivation (RT := Js.ascii_runtime)
                    Editor.host editor) m in
  m' <> m
  /\ previewOnlyMode (_config m) = false
  /\ _pendingOpens m !! toString Editor.readme = None
  /\ m' = exec (PreviewManager.openPreviewIfNeeded (RT := Js.ascii_runtime)
                  Editor.host Editor.readmeDoc) m.
Proof.
  intros w m editor m'.
  assert (Hacts : m' <> m).
  { intros Heq. apply (f_equal trace) in Heq. vm_compute in Heq. discriminate Heq. }
  split; [exact Hacts |].
  destruct (editor_activation_opens_only_when (RT := Js.ascii_runtime)
              Editor.host editor m Hacts) as (_ & Hmode & _ & Hpending & _ & _ & Hsame).
  split; [exact Hmode |]. split; [exact Hpending | exact Hsame].
Defined.

(** ** Preview-only mode replaces the preview *)

Lemma isPreviewOf_isMarkupPreview `{RT : Runtime} (u : Uri)
    (language : SupportedLanguage) (tab : Tab) :
  TabTracker.isPreviewOf u (PREVIEW_VIEW_TYPES language) tab = true ->
  PreviewManager.isMarkupPreview tab = true.
Proof.
  unfold TabTracker.isPreviewOf, TabTracker.getExpectedPreviewLabel. intros Htest.
  apply isMarkupPreview_iff.
  destruct (input tab) as [| | viewType |]; try discriminate.
  exists viewType. split; [reflexivity |].
  apply orb_true_iff in Htest. destruct Htest as [Hlabel | Hview].
  - right. apply String.eqb_eq in Hlabel. eauto.
  - left. apply andb_true_iff in Hview. destruct Hview as [Hview _].
    apply String.eqb_eq in Hview. subst viewType.
    unfold PreviewManager.previewViewTypes. destruct language; simpl; set_solver.
Qed.

Lemma findPreviewTab_swept `{RT : Runtime} {H : Type}
    (host : Host H) (u : Uri) (h : H) (tab : Tab) :
  TabTracker.findPreviewTab host u h = Some tab -> tab ∈ markupPreviews host h.
Proof.
  unfold TabTracker.findPreviewTab.
  destruct (TabTracker.getLanguageId u) as [language|]; [|discriminate].
  intros (group & Hgroup & Hfind)%firstSome_Some.
  apply find_some in Hfind. destruct Hfind as [Htab Htest].
  apply markupPreviews_elem. exists group.
  split; [exact Hgroup |]. split; [apply list_elem_of_In; exact Htab |].
  exact (isPreviewOf_isMarkupPreview u language tab Htest).
Qed.

(** X15.  Every tab the tab tracker takes for the preview of a file is among
    the tabs the sweep of preview-only mode closes.  So in preview-only mode
    an open of a document whose preview is already there does not stop at the
    open preview: past the guards it first asks to close the open previews,
    that one included, and then executes the preview command again. *)
Theorem reader_mode_replaces_preview `{RT : Runtime} {H : Type}
    (host : Host H) (doc : TextDocument) (language : SupportedLanguage)
    (m : Machine H) (tab : Tab) :
  passesGuards host doc language m ->
  previewOnlyMode (_config m) = true ->
  TabTracker.findPreviewTab host (uri doc) (hostState m) = Some tab ->
  tab ∈ markupPreviews host (hostState m)
  /\ exists rest,
       trace (exec (PreviewManager.openPreviewIfNeeded host doc) m)
       = (trace m
          ++ CloseTabs (markupPreviews host (hostState m))
          :: ExecuteCommand (previewCommand (_config m) language) (uri doc)
          :: rest)%list.
Proof.
  intros Hguards Hmode Hfound.
  pose proof (findPreviewTab_swept host (uri doc) (hostState m) tab Hfound) as Hswept.
  split; [exact Hswept |].
  unfold exec. rewrite (openPreviewIfNeeded_attempt host doc language m Hguards).
  cbv zeta.
  rewrite (openPreview_reader host (_config m) _ doc _ Hmode). cbv zeta.
  rewrite closeAllMarkdownPreviews_exec. simpl hostState.
  destruct (markupPreviews host (hostState m)) as [|first others] eqn:Hpreviews;
    [inversion Hswept |].
  simpl hostState.
  destruct (executeCommand host (previewCommand (_config m) language) (uri doc) _)
    as [[] h2] eqn:Hcommand; simpl.
  - pose proof (closeSourceEditor_exec host (uri doc)
                  (set_host h2 [ExecuteCommand (previewCommand (_config m) language)
                                               (uri doc)]
                     (set_host (tabGroups_close host (first :: others) (hostState m)).2
                        [CloseTabs (first :: others)]
                        (set_openedPreviews
                           (fun s => {[toString (uri doc)]} ∪ s) m))))
      as [(closes & Htrace & _) _].
    simpl in Htrace. exists closes. rewrite Htrace, <- !app_assoc. reflexivity.
  - exists []. rewrite <- !app_assoc. reflexivity.
Qed.

Lemma reader_mode_replaces_preview_witness :
  let w := Editor.previewing Editor.readerMode in
  let m := Editor.started (RT := Js.ascii_runtime) w in
  passesGuards (RT := Js.ascii_runtime) Editor.host Editor.readmeDoc markdown m
  /\ previewOnlyMode (_config m) = true
  /\ TabTracker.findPreviewTab (RT := Js.ascii_runtime) Editor.host Editor.readme w
     = Some (Editor.previewTab Editor.readme)
  /\ exists rest,
       trace (exec (PreviewManager.openPreviewIfNeeded (RT := Js.ascii_runtime)
                      Editor.host Editor.readmeDoc) m)
       = (trace m
          ++ CloseTabs (markupPreviews Editor.host (hostState m))
          :: ExecuteCommand (previewCommand (_config m) markdown) Editor.readme
          :: rest)%list.
Proof.
  intros w m.
  assert (Hguards : passesGuards (RT := Js.ascii_runtime)
                      Editor.host Editor.readmeDoc markdown m).
  { split; [|split; [|split]].
    - intros Hin. apply (bool_decide_pack _) in Hin. vm_compute in Hin. exact Hin.
    - left. vm_compute. reflexivity.
    - right. split; vm_compute; reflexivity.
    - vm_compute. reflexivity. }
  split; [exact Hguards |]. split; [reflexivity |]. split; [reflexivity |].
  exact (proj2 (reader_mode_replaces_preview (RT := Js.ascii_runtime)
                  Editor.host Editor.readmeDoc markdown m
                  (Editor.previewTab Editor.readme) Hguards eq_refl eq_refl)).
Defined.

(** ** What the extension asks of the host *)

Lemma permitted_closesWebview (sent : list Action) :
  Forall closesWebview sent -> Forall permitted sent.
Proof.
  intros Hall. eapply Forall_impl; [exact Hall |].
  intros a (tab & viewType & -> & Hinput). left.
  split; [discriminate |]. constructor; [eauto | constructor].
Qed.

Lemma closeAllMarkdownPreviews_permitted {H : Type} (host : Host H) (m : Machine H) :
  exists sent,
    trace (exec (PreviewManager.closeAllMarkdownPreviews host) m) = (trace m ++ sent)%list
    /\ Forall permitted sent.
Proof.
  rewrite closeAllMarkdownPreviews_exec.
  destruct (markupPreviews host (hostState m)) as [|first others] eqn:Hpreviews.
  - exists []. rewrite app_nil_r. split; [reflexivity | constructor].
  - exists [CloseTabs (first :: others)]. split; [reflexivity |].
    constructor; [|constructor]. left. split; [discriminate |].
    apply Forall_forall. intros tab Htab. rewrite <- Hpreviews in Htab.
    apply markupPreviews_elem in Htab. destruct Htab as (group & _ & _ & Htest).
    apply isMarkupPreview_iff in Htest. destruct Htest as (viewType & Hinput & _).
    eauto.
Qed.

Lemma closeSourceEditor_permitted {H : Type} (host : Host H) (u : Uri) (m : Machine H) :
  exists sent,
    trace (exec (PreviewManager.closeSourceEditor host u) m) = (trace m ++ sent)%list
    /\ Forall permitted sent.
Proof.
  pose proof (closeSourceEditor_exec host u m) as [(closes & Htrace & Hall & _) _].
  simpl in Htrace. exists closes. split; [exact Htrace |].
  eapply Forall_impl; [exact Hall |].
  intros a (tab & -> & Hsource). right. unfold isSourceOf in Hsource.
  destruct (input tab) as [source| | |] eqn:Hinput; try discriminate. eauto.
Qed.

Lemma previewCommand_permitted (config : ExtensionConfig) (language : SupportedLanguage)
    (target : Uri) :
  permitted (ExecuteCommand (previewCommand config language) target).
Proof.
  exists language. unfold previewCommand. destruct (openPreviewToSide config); auto.
Qed.

Lemma openPreview_permitted {H : Type} (host : Host H) (config : ExtensionConfig)
    (language : SupportedLanguage) (doc : TextDocument) (m : Machine H) :
  exists sent,
    trace (PreviewManager.openPreview host config (previewCommand config language) doc m).2
    = (trace m ++ sent)%list
    /\ Forall permitted sent.
Proof.
  pose proof (previewCommand_permitted config language (uri doc)) as Hcommand.
  destruct (previewOnlyMode config) eqn:Hmode.
  - rewrite (openPreview_reader host config _ doc m Hmode). cbv zeta.
    destruct (closeAllMarkdownPreviews_permitted host m) as (sent1 & Htrace1 & Hall1).
    set (m1 := exec (PreviewManager.closeAllMarkdownPreviews host) m) in *.
    destruct (executeCommand host _ (uri doc) (hostState m1)) as [[] h2]; simpl.
    + destruct (closeSourceEditor_permitted host (uri doc)
                  (set_host h2 [ExecuteCommand (previewCommand config language) (uri doc)]
                     m1)) as (sent2 & Htrace2 & Hall2).
      simpl in Htrace2. eexists. rewrite Htrace2, Htrace1, <- !app_assoc.
      split; [reflexivity |].
      apply Forall_app. split; [exact Hall1 |].
      apply Forall_app. split; [constructor; [exact Hcommand | constructor] | exact Hall2].
    + eexists. rewrite Htrace1, <- !app_assoc. split; [reflexivity |].
      apply Forall_app. split; [exact Hall1 | constructor; [exact Hcommand | constructor]].
  - rewrite (openPreview_editor host config _ doc m Hmode). cbv zeta.
    destruct (executeCommand host _ (uri doc) (hostState m)) as [[] h2]; simpl.
    + destruct (if preserveFocus config then _ else None) as [[source column]|] eqn:Hfocus;
        simpl.
      * assert (Htarget : PreviewManager.focusTarget (activeTextEditor host (hostState m))
                          = Some (source, column))
          by (destruct (preserveFocus config); [exact Hfocus | discriminate]).
        apply focusTarget_Some in Htarget. destruct Htarget as (_ & _ & _ & _ & Hcolumn).
        eexists. rewrite <- !app_assoc. split; [reflexivity |].
        constructor; [exact Hcommand |]. constructor; [exact Hcolumn | constructor].
      * eexists. split; [reflexivity |]. constructor; [exact Hcommand | constructor].
    + eexists. split; [reflexivity |]. constructor; [exact Hcommand | constructor].
Qed.

Lemma openPreviewIfNeeded_permitted `{RT : Runtime} {H : Type}
    (host : Host H) (doc : TextDocument) (m : Machine H) :
  exists sent,
    trace (exec (PreviewManager.openPreviewIfNeeded host doc) m) = (trace m ++ sent)%list
    /\ Forall permitted sent.
Proof.
  destruct (openPreviewIfNeeded_cases host doc m) as [-> | [-> | [language Hguards]]].
  - exists []. rewrite app_nil_r. split; [reflexivity | constructor].
  - exists []. rewrite app_nil_r. split; [reflexivity | constructor].
  - unfold exec. rewrite (openPreviewIfNeeded_attempt host doc language m Hguards).
    cbv zeta.
    destruct (openPreview_permitted host (_config m) language doc
                (set_openedPreviews (fun s => {[toString (uri doc)]} ∪ s) m))
      as (sent & Htrace & Hall).
    simpl in Htrace. exists sent. split; [|exact Hall].
    destruct (PreviewManager.openPreview host _ _ doc _) as [[] m1]; exact Htrace.
Qed.

Lemma deliver_permitted `{RT : Runtime} {H : Type}
    (host : Host H) (m : Machine H) (h : H) (ev : Extension.Event) :
  exists sent,
    trace (Extension.deliver host m (h, ev)) = (trace m ++ sent)%list
    /\ Forall permitted sent.
Proof.
  assert (Hquiet : forall x : Machine H,
             trace x = trace m ->
             exists sent, trace x = (trace m ++ sent)%list /\ Forall permitted sent).
  { intros x Htrace. exists []. rewrite app_nil_r. split; [exact Htrace | constructor]. }
  rewrite deliver_exec. cbv zeta.
  destruct ev as [| | doc | k | closed | [editor|] | doc | affects |];
    try (destruct (activated m); [|solve [apply Hquiet; reflexivity]]);
    try solve [apply Hquiet; reflexivity].
  - (* StartupTimerElapsed *)
    destruct (startupTimer m); [|apply Hquiet; reflexivity].
    destruct (processExistingDocuments_exec host
                (set_lifecycle (activated m) false (set_hostState h m)))
      as [-> | (editor & _ & _ & ->)]; [apply Hquiet; reflexivity |].
    apply (openPreviewIfNeeded_permitted host (document editor)
             (set_openedPreviews (fun s => s ∖ {[toString (uri (document editor))]})
                (set_lifecycle (activated m) false (set_hostState h m)))).
  - (* DidOpenTextDocument *)
    destruct (handleDocumentOpen_exec doc (set_hostState h m)) as [-> | ->];
      apply Hquiet; reflexivity.
  - (* PendingOpenElapsed *)
    rewrite pendingOpenElapsed_exec. simpl _pendingOpens.
    destruct (_pendingOpens m !! k) as [doc|]; [|apply Hquiet; reflexivity].
    apply (openPreviewIfNeeded_permitted host doc
             (set_pendingOpens (delete k) (set_hostState h m))).
  - (* DidChangeTabs *)
    pose proof (handleTabChanges_sent host closed (set_hostState h m))
      as ((sent & Htrace & Hall) & _).
    exists sent. split; [exact Htrace | apply permitted_closesWebview; exact Hall].
  - (* DidChangeActiveTextEditor *)
    destruct (handleEditorActivation_exec host editor (set_hostState h m))
      as [-> | [_ ->]]; [apply Hquiet; reflexivity |].
    apply (openPreviewIfNeeded_permitted host (document editor) (set_hostState h m)).
  - (* DidChangeConfiguration *)
    apply Hquiet.
    apply (onDidChangeConfiguration_exec host affects (set_hostState h m)).
Qed.

(** X16.  Whatever events the host delivers, the extension asks three things
    of it only: to execute one of the six preview commands (show the preview,
    in the same group or to the side, of markdown, asciidoc or
    restructuredtext); to close tabs, which are either webview tabs or one
    single text tab; and to show a document in a view column that is not
    zero.  So it never asks to close a diff editor or a tab of another kind,
    and it executes no other command. *)
Theorem requests_are_permitted `{RT : Runtime} {H : Type}
    (host : Host H) (inputs : list (H * Extension.Event)) (m : Machine H) :
  exists sent,
    trace (Extension.run host inputs m) = (trace m ++ sent)%list
    /\ Forall permitted sent
    /\ (forall tabs tab,
          CloseTabs tabs ∈ sent -> tab ∈ tabs ->
          (exists viewType, input tab = TabInputWebview viewType)
          \/ (exists source, input tab = TabInputText source))
    /\ (forall command target,
          ExecuteCommand command target ∈ sent ->
          command ∈ ["markdown.showPreviewToSide"; "markdown.showPreview";
                     "asciidoc.showPreviewToSide"; "asciidoc.showPreview";
                     "restructuredtext.showPreviewToSide";
                     "restructuredtext.showPreview"]).
Proof.
  assert (Hrun : exists sent,
             trace (Extension.run host inputs m) = (trace m ++ sent)%list
             /\ Forall permitted sent).
  { revert m. induction inputs as [|[h ev] inputs IH]; intros m.
    - exists []. rewrite app_nil_r. split; [reflexivity | constructor].
    - destruct (deliver_permitted host m h ev) as (sent1 & Htrace1 & Hall1).
      destruct (IH (Extension.deliver host m (h, ev))) as (sent2 & Htrace2 & Hall2).
      exists (sent1 ++ sent2)%list. unfold Extension.run in *. simpl.
      rewrite Htrace2, Htrace1, <- app_assoc.
      split; [reflexivity | apply Forall_app; auto]. }
  destruct Hrun as (sent & Htrace & Hall).
  exists sent. split; [exact Htrace |]. split; [exact Hall |].
  rewrite Forall_forall in Hall. split.
  - intros tabs tab Hsent Htab. specialize (Hall _ Hsent). simpl in Hall.
    destruct Hall as [[_ Hwebviews] | (only & source & -> & Hinput)].
    + rewrite Forall_forall in Hwebviews. left. exact (Hwebviews tab Htab).
    + apply list_elem_of_singleton in Htab. subst tab. right. eauto.
  - intros command target Hsent. specialize (Hall _ Hsent). simpl in Hall.
    destruct Hall as [language [-> | ->]]; destruct language; simpl; set_solver.
Qed.

(** ** The configuration snapshot across events *)

Section KeepsConfig.
Context `{RT : Runtime} {H : Type} (host : Host H).

Lemma keepsConfig_ret {A : Type} (a : A) : keepsConfig (H := H) (ret a).
Proof. intros m. repeat split. Qed.

Lemma keepsConfig_bind {A B : Type} (c : M H A) (k : A -> M H B) :
  keepsConfig c -> (forall a, keepsConfig (k a)) -> keepsConfig (bind c k).
Proof.
  intros Hc Hk m. unfold bind. specialize (Hc m).
  destruct (c m) as [a m1]. specialize (Hk a m1). simpl in *.
  destruct Hc as (<- & <- & <-). exact Hk.
Qed.

Lemma keepsConfig_gets {A : Type} (f : Machine H -> A) : keepsConfig (gets f).
Proof. intros m. repeat split. Qed.

Lemma keepsConfig_read {A : Type} (f : Host H -> H -> A) : keepsConfig (read host f).
Proof. intros m. repeat split. Qed.

Lemma keepsConfig_call {A : Type} (f : H -> A * H) : keepsConfig (call f).
Proof. intros m. unfold call. destruct (f (hostState m)). repeat split. Qed.

Lemma keepsConfig_request (f : H -> Settled * H) (sent : Action) :
  keepsConfig (request f sent).
Proof. intros m. unfold request. destruct (f (hostState m)). repeat split. Qed.

Lemma keepsConfig_opened (f : gset string -> gset string) :
  keepsConfig (H := H) (modify (set_openedPreviews f)).
Proof. intros m. repeat split. Qed.

Lemma keepsConfig_marks (f : gset string -> gset string) :
  keepsConfig (H := H) (modify (set_previewOnlyClosedUris f)).
Proof. intros m. repeat split. Qed.

Lemma keepsConfig_debounce (f : gmap string Z -> gmap string Z) :
  keepsConfig (H := H) (modify (set_lastProcessedClose f)).
Proof. intros m. repeat split. Qed.

Lemma keepsConfig_pending (f : gmap string TextDocument -> gmap string TextDocument) :
  keepsConfig (H := H) (modify (set_pendingOpens f)).
Proof. intros m. repeat split. Qed.

Lemma keepsConfig_forEach {A : Type} (l : list A) (body : A -> M H unit) :
  (forall x, keepsConfig (body x)) -> keepsConfig (forEach l body).
Proof.
  intros Hbody. induction l as [|x l IH]; simpl.
  - apply keepsConfig_ret.
  - apply keepsConfig_bind; [apply Hbody | intros _; exact IH].
Qed.

End KeepsConfig.

Create HintDb snapshot.

#[local] Hint Resolve keepsConfig_ret keepsConfig_gets keepsConfig_read
  keepsConfig_call keepsConfig_request keepsConfig_opened keepsConfig_marks
  keepsConfig_debounce keepsConfig_pending : snapshot.

Ltac keeps_config :=
  repeat first
    [ assumption
    | solve [auto with snapshot]
    | apply keepsConfig_bind; [|intros ?]
    | apply keepsConfig_forEach; intros ?
    | match goal with
      | |- keepsConfig (if ?b then _ else _) => destruct b
      | |- keepsConfig (match ?x with _ => _ end) => destruct x
      | |- keepsConfig (let (_, _) := ?x in _) => destruct x
      end ].

Lemma closePreviewForFile_config `{RT : Runtime} {H : Type} (host : Host H) (u : Uri) :
  keepsConfig (TabTracker.closePreviewForFile host u).
Proof. unfold TabTracker.closePreviewForFile. keeps_config. Qed.

Lemma cleanupDebounceMap_config {H : Type} (host : Host H) :
  keepsConfig (TabTracker.cleanupDebounceMap host).
Proof. unfold TabTracker.cleanupDebounceMap. keeps_config. Qed.

Lemma closeAllMarkdownPreviews_config {H : Type} (host : Host H) :
  keepsConfig (PreviewManager.closeAllMarkdownPreviews host).
Proof. unfold PreviewManager.closeAllMarkdownPreviews. keeps_config. Qed.

Lemma closeSourceEditor_tabs_config {H : Type} (host : Host H) (key : string)
    (tabs : list Tab) :
  keepsConfig (PreviewManager.closeSourceEditor_tabs host key tabs).
Proof.
  induction tabs as [|tab tabs IH]; simpl; [apply keepsConfig_ret |].
  destruct (input tab); try exact IH.
  destruct (String.eqb _ _); [|exact IH].
  apply keepsConfig_bind; [apply keepsConfig_request |].
  intros []; [apply keepsConfig_ret |].
  apply keepsConfig_bind; [apply keepsConfig_marks | intros _; exact IH].
Qed.

Lemma closeSourceEditor_config {H : Type} (host : Host H) (u : Uri) :
  keepsConfig (PreviewManager.closeSourceEditor host u).
Proof.
  unfold PreviewManager.closeSourceEditor.
  apply keepsConfig_bind; [apply keepsConfig_marks | intros _].
  apply keepsConfig_bind; [apply keepsConfig_read | intros groups].
  induction groups as [|group groups IH]; simpl; [apply keepsConfig_ret |].
  apply keepsConfig_bind; [apply keepsConfig_gets | intros tabs].
  apply keepsConfig_bind; [apply closeSourceEditor_tabs_config |].
  intros []; [apply keepsConfig_ret | exact IH].
Qed.

#[local] Hint Resolve closePreviewForFile_config cleanupDebounceMap_config
  closeAllMarkdownPreviews_config closeSourceEditor_config : snapshot.

Lemma openPreviewIfNeeded_config `{RT : Runtime} {H : Type}
    (host : Host H) (doc : TextDocument) :
  keepsConfig (PreviewManager.openPreviewIfNeeded host doc).
Proof.
  unfold PreviewManager.openPreviewIfNeeded, PreviewManager.openPreview.
  keeps_config.
Qed.

#[local] Hint Resolve openPreviewIfNeeded_config : snapshot.

Lemma handleTabChanges_config `{RT : Runtime} {H : Type}
    (host : Host H) (closed : list Tab) :
  keepsConfig (PreviewManager.handleTabChanges host closed).
Proof.
  unfold PreviewManager.handleTabChanges, PreviewManager.handleClosedTab.
  keeps_config.
Qed.

Lemma handleEditorActivation_config `{RT : Runtime} {H : Type}
    (host : Host H) (editor : TextEditor) :
  keepsConfig (PreviewManager.handleEditorActivation host editor).
Proof.
  unfold PreviewManager.handleEditorActivation, ConfigManager.isLanguageEnabled.
  keeps_config.
Qed.

Lemma handleDocumentOpen_config `{RT : Runtime} {H : Type} (doc : TextDocument) :
  keepsConfig (H := H) (PreviewManager.handleDocumentOpen doc).
Proof.
  unfold PreviewManager.handleDocumentOpen, ConfigManager.isLanguageEnabled.
  keeps_config.
Qed.

Lemma pendingOpenElapsed_config `{RT : Runtime} {H : Type}
    (host : Host H) (key : string) :
  keepsConfig (PreviewManager.pendingOpenElapsed host key).
Proof. unfold PreviewManager.pendingOpenElapsed. keeps_config. Qed.

Lemma openPreviewForActiveEditor_config `{RT : Runtime} {H : Type} (host : Host H) :
  keepsConfig (PreviewManager.openPreviewForActiveEditor host).
Proof. unfold PreviewManager.openPreviewForActiveEditor. keeps_config. Qed.

#[local] Hint Resolve openPreviewForActiveEditor_config : snapshot.

Lemma processExistingDocuments_config `{RT : Runtime} {H : Type} (host : Host H) :
  keepsConfig (Extension.processExistingDocuments host).
Proof. unfold Extension.processExistingDocuments. keeps_config. Qed.

Lemma parseLanguages_nonempty `{RT : Runtime} (s : string) :
  ConfigManager.parseLanguages s <> ∅.
Proof.
  unfold ConfigManager.parseLanguages.
  destruct (ConfigManager.parsed s) as [|l ls]; simpl; set_solver.
Qed.

Lemma parseLanguages_valid `{RT : Runtime} (s l : string) :
  l ∈ ConfigManager.parseLanguages s -> l ∈ ConfigManager.validLanguages.
Proof.
  unfold ConfigManager.parseLanguages. rewrite elem_of_list_to_set.
  destruct (ConfigManager.parsed s) as [|l0 ls] eqn:Hparsed; simpl.
  - intros ->%list_elem_of_singleton. unfold ConfigManager.validLanguages. set_solver.
  - rewrite <- Hparsed. intros [Hvalid _]%parsed_elem. exact Hvalid.
Qed.

(** The snapshot is one the configuration manager loaded, and the enabled
    languages are the ones parsed from it. *)
Lemma deliver_in_sync `{RT : Runtime} {H : Type}
    (host : Host H) (m : Machine H) (h : H) (ev : Extension.Event) :
  (activated m = true ->
   languagesInSync m /\ exists settings, _config m = ConfigManager.loadConfig settings) ->
  let m1 := Extension.deliver host m (h, ev) in
  activated m1 = true ->
  languagesInSync m1 /\ exists settings, _config m1 = ConfigManager.loadConfig settings.
Proof.
  intros Hinv m1. subst m1. rewrite deliver_exec. cbv zeta.
  assert (Hkeeps : forall c : M H unit,
             keepsConfig c ->
             activated (exec c (set_hostState h m)) = true ->
             languagesInSync (exec c (set_hostState h m))
             /\ exists settings,
                  _config (exec c (set_hostState h m)) = ConfigManager.loadConfig settings).
  { intros c Hc. destruct (Hc (set_hostState h m)) as (Hconfig & Hlanguages & Hactivated).
    unfold exec, languagesInSync. rewrite Hconfig, Hlanguages, Hactivated. exact Hinv. }
  assert (Hreloaded : forall x : Machine H,
             languagesInSync (exec (ConfigManager.reload host) x)
             /\ exists settings,
                  _config (exec (ConfigManager.reload host) x)
                  = ConfigManager.loadConfig settings).
  { intros x. split; [reflexivity |]. eexists. reflexivity. }
  destruct ev as [| | doc | k | closed | [editor|] | doc | affects |].
  - intros _. unfold Extension.activate. unfold_machine. simpl.
    split; [reflexivity |]. eexists. reflexivity.
  - destruct (startupTimer m); [|exact Hinv].
    destruct (processExistingDocuments_config host
                (set_lifecycle (activated m) false (set_hostState h m)))
      as (Hconfig & Hlanguages & Hactivated).
    unfold exec, languagesInSync. rewrite Hconfig, Hlanguages, Hactivated. exact Hinv.
  - destruct (activated m) eqn:Ha; [|intros Hx; simpl in Hx; congruence].
    apply Hkeeps, handleDocumentOpen_config.
  - apply Hkeeps, pendingOpenElapsed_config.
  - destruct (activated m) eqn:Ha; [|intros Hx; simpl in Hx; congruence].
    apply Hkeeps, handleTabChanges_config.
  - destruct (activated m) eqn:Ha; [|intros Hx; simpl in Hx; congruence].
    apply Hkeeps, handleEditorActivation_config.
  - exact Hinv.
  - destruct (activated m) eqn:Ha; [|intros Hx; simpl in Hx; congruence]. intros _. exact (Hinv eq_refl).
  - destruct (activated m) eqn:Ha; [|intros Hx; simpl in Hx; congruence].
    destruct affects; [intros _; apply Hreloaded | intros _; exact (Hinv eq_refl)].
  - discriminate.
Qed.



(** ** logger.ts *)

Section LoggerFacts.
Context {W V : Type} (console : Logger.Console W V).

Lemma channelUse_app (live : option nat) (out1 out2 : list (Logger.Output V)) :
  Logger.channelUse live (out1 ++ out2)
  = match Logger.channelUse live out1 with
    | Some live1 => Logger.channelUse live1 out2
    | None => None
    end.
Proof.
  revert live. induction out1 as [|o out1 IH]; intros live; simpl; [reflexivity |].
  destruct o; simpl; try apply IH.
  - destruct live; [reflexivity | apply IH].
  - destruct (bool_decide _); [apply IH | reflexivity].
  - destruct (bool_decide _); [apply IH | reflexivity].
  - destruct (bool_decide _); [apply IH | reflexivity].
Qed.

Lemma outputChannel_tracks (s : Logger.State W V) :
  Logger.tracksChannel s ->
  Logger.tracksChannel (Logger.outputChannel console s).2
  /\ Logger._outputChannel (Logger.outputChannel console s).2
     = Some (Logger.outputChannel console s).1.
Proof.
  unfold Logger.tracksChannel, Logger.outputChannel. intros Htracks.
  destruct (Logger._outputChannel s) as [channel|] eqn:Hfield; simpl.
  - rewrite Hfield. auto.
  - destruct (Logger.createOutputChannel console _ (Logger.world s)) as [channel w].
    simpl. rewrite channelUse_app, Htracks. auto.
Qed.

Lemma write_tracks (s : Logger.State W V) (out : list (Logger.Output V))
    (live : option nat) :
  Logger.tracksChannel s ->
  Logger.channelUse (Logger._outputChannel s) out = Some live ->
  live = Logger._outputChannel s ->
  Logger.tracksChannel (Logger.write out s).
Proof.
  unfold Logger.tracksChannel. intros Htracks Huse ->. simpl.
  rewrite channelUse_app, Htracks. exact Huse.
Qed.

Lemma format_tracks (level message : string) (args : list V) (s : Logger.State W V) :
  Logger.tracksChannel s ->
  Logger.tracksChannel (Logger.format console level message args s).2
  /\ Logger.written (Logger.format console level message args s).2 = Logger.written s
  /\ Logger._outputChannel (Logger.format console level message args s).2
     = Logger._outputChannel s
  /\ Logger._enabled (Logger.format console level message args s).2 = Logger._enabled s.
Proof.
  unfold Logger.tracksChannel, Logger.format. intros Htracks.
  destruct (Logger.Date_toISOString console (Logger.world s)) as [timestamp w].
  destruct args as [|a args]; [simpl; auto |].
  destruct (Logger.JSON_stringify console (a :: args)); simpl; auto.
Qed.

(** A line appended to the channel the getter returned. *)
Lemma append_tracks (s : Logger.State W V) (line : string)
    (others : list (Logger.Output V)) :
  Logger.tracksChannel s ->
  (forall live, Logger.channelUse live others = Some live) ->
  let (channel, s1) := Logger.outputChannel console s in
  Logger.tracksChannel (Logger.write (Logger.AppendLine channel line :: others) s1)
  /\ Logger._outputChannel (Logger.write (Logger.AppendLine channel line :: others) s1)
     = Some channel.
Proof.
  intros Htracks Hothers.
  destruct (outputChannel_tracks s Htracks) as [Htracks1 Hfield].
  destruct (Logger.outputChannel console s) as [channel s1]. simpl in *.
  split; [|exact Hfield].
  apply (write_tracks s1 _ (Some channel) Htracks1); [|congruence].
  simpl. rewrite Hfield, bool_decide_eq_true_2 by reflexivity. apply Hothers.
Qed.

Lemma step_tracks (call : Logger.Call V) (s : Logger.State W V) :
  Logger.tracksChannel s -> Logger.tracksChannel (Logger.step console call s).2.
Proof.
  intros Htracks. destruct call as [b | message args | message args | message err
                                    | message args | |]; simpl.
  - exact Htracks.
  - unfold Logger.info. destruct (negb (Logger._enabled s)); [exact Htracks |].
    destruct (format_tracks "INFO" message args s Htracks) as (Htracks1 & _).
    destruct (Logger.format console "INFO" message args s) as [[line|] s1];
      [|exact Htracks1].
    pose proof (append_tracks s1 line
                  [Logger.ConsoleLog ("[Auto Preview] " +:+ message) args]
                  Htracks1 (fun live => eq_refl)) as Happend.
    destruct (Logger.outputChannel console s1) as [channel s2]. apply Happend.
  - unfold Logger.warn. destruct (negb (Logger._enabled s)); [exact Htracks |].
    destruct (format_tracks "WARN" message args s Htracks) as (Htracks1 & _).
    destruct (Logger.format console "WARN" message args s) as [[line|] s1];
      [|exact Htracks1].
    pose proof (append_tracks s1 line
                  [Logger.ConsoleWarn ("[Auto Preview] " +:+ message) args]
                  Htracks1 (fun live => eq_refl)) as Happend.
    destruct (Logger.outputChannel console s1) as [channel s2]. apply Happend.
  - unfold Logger.error.
    destruct (format_tracks "ERROR" message (Logger.errorArgs console err) s Htracks)
      as (Htracks1 & _).
    destruct (Logger.format console "ERROR" message _ s) as [[line|] s1];
      [|exact Htracks1].
    pose proof (append_tracks s1 line
                  [Logger.ConsoleError ("[Auto Preview] " +:+ message) err]
                  Htracks1 (fun live => eq_refl)) as Happend.
    destruct (Logger.outputChannel console s1) as [channel s2].
    destruct Happend as [Htracks3 _].
    destruct (Logger.errorStack console err) as [stack|]; [|exact Htracks3].
    pose proof (append_tracks _ ("  Stack: " +:+ stack) [] Htracks3
                  (fun live => eq_refl)) as Hstack.
    destruct (Logger.outputChannel console _) as [channel' s4]. apply Hstack.
  - unfold Logger.debug. destruct (negb (Logger._enabled s)); [exact Htracks |].
    apply (write_tracks s _ (Logger._outputChannel s) Htracks); reflexivity.
  - unfold Logger.show.
    destruct (outputChannel_tracks s Htracks) as [Htracks1 Hfield].
    destruct (Logger.outputChannel console s) as [channel s1]. simpl in *.
    apply (write_tracks s1 _ (Some channel) Htracks1); [|congruence].
    simpl. rewrite Hfield, bool_decide_eq_true_2 by reflexivity. reflexivity.
  - unfold Logger.tracksChannel in *. simpl. rewrite channelUse_app, Htracks.
    destruct (Logger._outputChannel s) as [channel|]; simpl; [|reflexivity].
    rewrite bool_decide_eq_true_2 by reflexivity. reflexivity.
Qed.


Lemma format_head (level message : string) (s : Logger.State W V) :
  exists timestamp,
    (Logger.format console level message [] s).1
    = Some ("[" +:+ timestamp +:+ "] [" +:+ level +:+ "] " +:+ message).
Proof.
  unfold Logger.format.
  destruct (Logger.Date_toISOString console (Logger.world s)) as [timestamp w].
  exists timestamp. reflexivity.
Qed.

Lemma appended_app (out1 out2 : list (Logger.Output V)) :
  Logger.appended (out1 ++ out2) = (Logger.appended out1 ++ Logger.appended out2)%list.
Proof. unfold Logger.appended. apply omap_app. Qed.

Lemma outputChannel_appended (s : Logger.State W V) :
  Logger.appended (Logger.written (Logger.outputChannel console s).2)
  = Logger.appended (Logger.written s).
Proof.
  unfold Logger.outputChannel.
  destruct (Logger._outputChannel s); [reflexivity |].
  destruct (Logger.createOutputChannel console _ (Logger.world s)) as [channel w].
  simpl. rewrite appended_app. simpl. apply app_nil_r.
Qed.

Lemma outputChannel_live (s : Logger.State W V) :
  is_Some (Logger._outputChannel (Logger.outputChannel console s).2).
Proof.
  unfold Logger.outputChannel. destruct (Logger._outputChannel s) eqn:Hfield.
  - simpl. rewrite Hfield. eauto.
  - destruct (Logger.createOutputChannel console _ (Logger.world s)). simpl. eauto.
Qed.


End LoggerFacts.


(** ** The toggle commands *)

(** X20.  A toggle command writes the negation of the setting as the host has
    it when the command is invoked (an unset [enabled] counts as true, an
    unset [previewOnlyMode] as false), not of the snapshot.  When the update
    is rejected it shows an error message.  When it resolves, the message
    announces the snapshot as it is after the await: the value the host has
    when it delivered the configuration change during the await, and the old
    snapshot, which the command has just negated, when the host delivered no
    such event before the update resolved. *)
Theorem toggle_announces_snapshot `{RT : Runtime} {H : Type}
    (host : Host H) (h : H) (during : list (H * Extension.Event))
    (settled : Settled) (m : Machine H) :
  activated m = true ->
  let toggled := Commands.toggleEnabledCommand host h during settled m in
  let mode := Commands.togglePreviewOnlyCommand host h during settled m in
  let settings := getConfiguration host h in
  toggled.1
  = [Commands.Update "enabled" (negb (default true (get_enabled settings)));
     match settled with
     | Resolved =>
         Commands.ShowInformationMessage
           (if Commands.snapshot enabled toggled.2
            then "Auto Preview Markdown: Enabled"
            else "Auto Preview Markdown: Disabled")
     | Rejected => Commands.ShowErrorMessage "Failed to toggle Auto Preview Markdown"
     end]
  /\ mode.1
     = [Commands.Update "previewOnlyMode"
          (negb (default false (get_previewOnlyMode settings)));
        match settled with
        | Resolved =>
            Commands.ShowInformationMessage
              (if Commands.snapshot previewOnlyMode mode.2
               then "Preview-Only Mode: Enabled"
               else "Preview-Only Mode: Disabled")
        | Rejected => Commands.ShowErrorMessage "Failed to toggle Preview-Only Mode"
        end]
  /\ toggled.2 = Extension.run host during (set_hostState h m)
  /\ mode.2 = toggled.2
  /\ (during = [] ->
      Commands.snapshot enabled toggled.2 = enabled (_config m)
      /\ Commands.snapshot previewOnlyMode mode.2 = previewOnlyMode (_config m))
  /\ (forall h', during = [(h', Extension.DidChangeConfiguration true)] ->
      Commands.snapshot enabled toggled.2
      = default true (get_enabled (getConfiguration host h'))
      /\ Commands.snapshot previewOnlyMode mode.2
         = default false (get_previewOnlyMode (getConfiguration host h'))).
Proof.
  intros Hactivated toggled mode settings. subst toggled mode settings.
  unfold Commands.toggleEnabledCommand, Commands.togglePreviewOnlyCommand,
    Commands.toggleEnabled, Commands.togglePreviewOnlyMode.
  rewrite Hactivated. simpl fst. simpl snd.
  split; [|split; [|split; [reflexivity | split; [reflexivity | split]]]].
  - destruct settled; [|reflexivity].
    destruct (Commands.snapshot enabled _); reflexivity.
  - destruct settled; [|reflexivity].
    destruct (Commands.snapshot previewOnlyMode _); reflexivity.
  - intros ->. unfold Commands.snapshot. simpl. rewrite Hactivated. auto.
  - intros h' ->. unfold Commands.snapshot, Extension.run. simpl.
    rewrite !deliver_exec. cbv zeta. simpl activated. rewrite Hactivated.
    simpl. rewrite Hactivated. auto.
Qed.

Lemma toggle_announces_snapshot_witness :
  let w := Editor.editing Editor.defaults in
  let m := Editor.started (RT := Js.ascii_runtime) w in
  let applied := Scenes.with_settings Scenes.disabled w in
  activated m = true
  /\ (Commands.toggleEnabledCommand (RT := Js.ascii_runtime) Editor.host w
        [(applied, Extension.DidChangeConfiguration true)] Resolved m).1
     = [Commands.Update "enabled" false;
        Commands.ShowInformationMessage "Auto Preview Markdown: Disabled"]
  /\ (Commands.toggleEnabledCommand (RT := Js.ascii_runtime) Editor.host w
        [] Resolved m).1
     = [Commands.Update "enabled" false;
        Commands.ShowInformationMessage "Auto Preview Markdown: Enabled"].
Proof.
  intros w m applied.
  split; [reflexivity |].
  split.
  - exact (proj1 (toggle_announces_snapshot (RT := Js.ascii_runtime) Editor.host w
                    [(applied, Extension.DidChangeConfiguration true)] Resolved m
                    eq_refl)).
  - exact (proj1 (toggle_announces_snapshot (RT := Js.ascii_runtime) Editor.host w
                    [] Resolved m eq_refl)).
Defined.

(** ** tabTracker.ts: when a preview counts as open *)

Lemma find_is_Some {A : Type} (f : A -> bool) (l : list A) (x : A) :
  x ∈ l -> f x = true -> is_Some (find f l).
Proof.
  induction l as [|y l IH]; intros Hin Hx; [inversion Hin |]. simpl.
  destruct (f y) eqn:Hy; [eauto |].
  apply elem_of_cons in Hin. destruct Hin as [-> | Hin]; [congruence | auto].
Qed.

Lemma firstSome_is_Some {A B : Type} (f : A -> option B) (l : list A) (x : A) :
  x ∈ l -> is_Some (f x) -> is_Some (TabTracker.firstSome f l).
Proof.
  induction l as [|y l IH]; intros Hin Hx; [inversion Hin |]. simpl.
  destruct (f y) as [b|] eqn:Hy; [eauto |].
  apply elem_of_cons in Hin. destruct Hin as [-> | Hin]; [|auto].
  rewrite Hy in Hx. destruct Hx; discriminate.
Qed.

Lemma isPreviewOf_iff `{RT : Runtime} (u : Uri) (expected : string) (tab : Tab) :
  TabTracker.isPreviewOf u expected tab = true <->
  exists viewType,
    input tab = TabInputWebview viewType
    /\ (label tab = "Preview " +:+ basename (fsPath u)
        \/ (viewType = expected
            /\ exists before after, label tab = before +:+ basename (fsPath u) +:+ after)).
Proof.
  unfold TabTracker.isPreviewOf, TabTracker.getExpectedPreviewLabel.
  destruct (input tab) as [| | viewType |];
    try (split; [discriminate | intros (? & ? & _); discriminate]).
  rewrite orb_true_iff, andb_true_iff, !String.eqb_eq, includes_app. split.
  - intros Hor. exists viewType. auto.
  - intros (? & [= <-] & Hor). exact Hor.
Qed.

(** X21.  For a file with a supported extension, a preview counts as open
    exactly when some open webview tab is labelled "Preview " followed by the
    base name of the file, or has the preview view type of the language of
    the file and a label that contains the base name.  The second test takes
    the preview of another file for the preview of this one when the name of
    this file is part of the other's name; [closePreviewForFile] then asks to
    close that tab. *)
Theorem preview_counts_as_open `{RT : Runtime} {H : Type}
    (host : Host H) (u : Uri) (h : H) (language : SupportedLanguage) :
  TabTracker.getLanguageId u = Some language ->
  (TabTracker.isPreviewOpen host u h = true <->
   exists group tab viewType,
     group ∈ tabGroups_all host h /\ tab ∈ group_tabs host h group
     /\ input tab = TabInputWebview viewType
     /\ (label tab = "Preview " +:+ basename (fsPath u)
         \/ (viewType = PREVIEW_VIEW_TYPES language
             /\ exists before after,
                  label tab = before +:+ basename (fsPath u) +:+ after)))
  /\ forall m,
       hostState m = h ->
       100 <= (Date_now host h).1 - default 0 (_lastProcessedClose m !! toString u) ->
       (Date_now host h).2 = h ->
       TabTracker.isPreviewOpen host u h = true ->
       exists tab, TabTracker.findPreviewTab host u h = Some tab
                   /\ trace (exec (TabTracker.closePreviewForFile host u) m)
                      = (trace m ++ [CloseTabs [tab]])%list.
Proof.
  intros Hlanguage. split.
  - unfold TabTracker.isPreviewOpen. rewrite bool_decide_eq_true.
    unfold TabTracker.findPreviewTab. rewrite Hlanguage. split.
    + intros [tab Hfound]. apply firstSome_Some in Hfound.
      destruct Hfound as (group & Hgroup & Hfind).
      apply find_some in Hfind. destruct Hfind as [Htab Htest].
      apply isPreviewOf_iff in Htest. destruct Htest as (viewType & Hinput & Hor).
      apply list_elem_of_In in Htab.
      exists group, tab, viewType. auto.
    + intros (group & tab & viewType & Hgroup & Htab & Hinput & Hor).
      apply (firstSome_is_Some _ _ group Hgroup).
      apply (find_is_Some _ _ tab Htab).
      apply isPreviewOf_iff. eauto.
  - intros m <- Hwindow Hclock Hopen.
    unfold TabTracker.isPreviewOpen in Hopen. apply bool_decide_eq_true in Hopen.
    destruct Hopen as [tab Hfound]. exists tab. split; [exact Hfound |].
    unfold exec. rewrite closePreviewForFile_run. cbv zeta.
    destruct (Z.ltb_spec ((Date_now host (hostState m)).1
                          - default 0 (_lastProcessedClose m !! toString u)) 100);
      [lia |].
    rewrite Hclock, Hfound. reflexivity.
Qed.

Lemma preview_counts_as_open_witness :
  let w := Scenes.previewingData in
  let m := Editor.started (RT := Js.ascii_runtime) w in
  TabTracker.getLanguageId (RT := Js.ascii_runtime) Scenes.a_md = Some markdown
  /\ TabTracker.isPreviewOpen (RT := Js.ascii_runtime) Editor.host Scenes.a_md w = true
  /\ exists tab,
       TabTracker.findPreviewTab (RT := Js.ascii_runtime) Editor.host Scenes.a_md w
       = Some tab
       /\ trace (exec (TabTracker.closePreviewForFile (RT := Js.ascii_runtime)
                         Editor.host Scenes.a_md) m)
          = (trace m ++ [CloseTabs [tab]])%list.
Proof.
  intros w m.
  assert (Hopen : TabTracker.isPreviewOpen (RT := Js.ascii_runtime)
                    Editor.host Scenes.a_md w = true) by (vm_compute; reflexivity).
  split; [reflexivity |]. split; [exact Hopen |].
  refine (proj2 (preview_counts_as_open (RT := Js.ascii_runtime) Editor.host
                   Scenes.a_md w markdown eq_refl) m eq_refl _ eq_refl Hopen).
  apply Z.leb_le. vm_compute. reflexivity.
Defined.
